(** * openjournal: the deployer (deploy.py) and the cleanup tool (tools/cleanup.py)

    A shallow embedding of the two scripts and the properties of their
    specification.

    - Python [str] values are [string]s whose characters are the code points
      below 256; [lower], [upper] and [strip] follow CPython on that range.
    - The file system is the directory tree rooted at the directory of
      deploy.py: regular files and directories with a (uid, gid) owner, no
      symbolic links and no permission bits.  A path is the list of names
      below that root, and the first label of the domain is one file name:
      [script_dir / subdomain] is the entry [subdomain] of that root, as
      it is when the label is not empty and holds no '/'.  Text files are
      read with universal newlines.
      A process that is not the superuser may only keep a file of its own
      and move it to one of its groups, as chown(2) has it.
    - The command line is taken after [argparse] has split it: the
      positional and the value of each option, with the defaults and the
      choices of [build_parser].
    - A process is a function from its state to a result ([Ok], [Exit] for
      [sys.exit], [Raise] for an exception), the new state and what it
      wrote.  Each invocation is a new process: only the tree passes from
      one to the next.
*)

From Stdlib Require Import String Ascii List ZArith Lia Bool DecimalString.
Import ListNotations.
Open Scope string_scope.
Open Scope Z_scope.

(* ================================================================== *)
(** * Python strings *)

Module Py.

Definition ord (c : ascii) : Z := Z.of_N (N_of_ascii c).
Definition chr (z : Z) : ascii := ascii_of_N (Z.to_N z).

(** [str.lower] on one character: A-Z, and the upper-case letters of
    Latin-1 (U+00C0..U+00DE but the multiplication sign U+00D7). *)
Definition lower_char (c : ascii) : ascii :=
  let n := ord c in
  if ((65 <=? n) && (n <=? 90)) || ((192 <=? n) && (n <=? 222) && negb (n =? 215))
  then chr (n + 32) else c.

(** [str.upper] on one character: a-z and U+00E0..U+00FE but the division
    sign.  The three characters whose upper case leaves the range (U+00B5,
    U+00DF, U+00FF) are kept: they are not ASCII before or after. *)
Definition upper_char (c : ascii) : ascii :=
  let n := ord c in
  if ((97 <=? n) && (n <=? 122)) || ((224 <=? n) && (n <=? 254) && negb (n =? 247))
  then chr (n - 32) else c.

Fixpoint lower (s : string) : string :=
  match s with
  | EmptyString => EmptyString
  | String c r => String (lower_char c) (lower r)
  end.

Fixpoint upper (s : string) : string :=
  match s with
  | EmptyString => EmptyString
  | String c r => String (upper_char c) (upper r)
  end.

(** [str.isspace] on one character: tab..carriage return, the four
    separators U+001C..U+001F, space, next line U+0085, no-break space. *)
Definition isspace (c : ascii) : bool :=
  let n := ord c in
  ((9 <=? n) && (n <=? 13)) || ((28 <=? n) && (n <=? 32)) || (n =? 133) || (n =? 160).

Fixpoint lstrip (s : string) : string :=
  match s with
  | EmptyString => EmptyString
  | String c r => if isspace c then lstrip r else s
  end.

Fixpoint rstrip (s : string) : string :=
  match s with
  | EmptyString => EmptyString
  | String c r =>
      match rstrip r with
      | EmptyString => if isspace c then EmptyString else String c EmptyString
      | r' => String c r'
      end
  end.

Definition strip (s : string) : string := rstrip (lstrip s).

(** [s.split(sep)] for a separator of one character: never an empty list. *)
Fixpoint split (sep : ascii) (s : string) : list string :=
  match s with
  | EmptyString => [EmptyString]
  | String c r =>
      if Ascii.eqb c sep then EmptyString :: split sep r
      else match split sep r with
           | h :: t => String c h :: t
           | [] => [String c EmptyString]
           end
  end.

(** [c in s] for one character. *)
Fixpoint contains (c : ascii) (s : string) : bool :=
  match s with
  | EmptyString => false
  | String d r => Ascii.eqb d c || contains c r
  end.

(** [s.count(old)]: occurrences of [old] that do not overlap, from the left.
    [skip] characters still belong to the occurrence just counted. *)
Fixpoint count_from (old s : string) (skip : nat) : Z :=
  match s with
  | EmptyString => 0
  | String _ r =>
      match skip with
      | S k => count_from old r k
      | O => if String.prefix old s
             then 1 + count_from old r (Nat.pred (String.length old))
             else count_from old r 0
      end
  end.

Definition count (s old : string) : Z :=
  match old with
  | EmptyString => Z.of_nat (String.length s) + 1
  | _ => count_from old s 0
  end.

Fixpoint replace_from (old new s : string) (skip : nat) : string :=
  match s with
  | EmptyString => EmptyString
  | String c r =>
      match skip with
      | S k => replace_from old new r k
      | O => if String.prefix old s
             then new ++ replace_from old new r (Nat.pred (String.length old))
             else String c (replace_from old new r 0)
      end
  end.

Fixpoint interleave (new s : string) : string :=
  match s with
  | EmptyString => new
  | String c r => new ++ String c (interleave new r)
  end.

(** [s.replace(old, new)]. *)
Definition replace (s old new : string) : string :=
  match old with
  | EmptyString => interleave new s
  | _ => replace_from old new s 0
  end.

(** ["%d" % z]. *)
Definition str_of_int (z : Z) : string := NilZero.string_of_int (Z.to_int z).

(** The newline of a string literal. *)
Definition nl : string := String (ascii_of_nat 10) EmptyString.

Definition cr : ascii := ascii_of_nat 13.
Definition lf : ascii := ascii_of_nat 10.

(** Universal newlines, as a file opened for reading in text mode with
    the default [newline=None] gives its text: "\r\n" and a "\r" alone
    are read as "\n". *)
Fixpoint universal_newlines (s : string) : string :=
  match s with
  | EmptyString => EmptyString
  | String c r =>
      if Ascii.eqb c cr
      then String lf
             match r with
             | String d r' => if Ascii.eqb d lf then universal_newlines r'
                              else universal_newlines r
             | EmptyString => EmptyString
             end
      else String c (universal_newlines r)
  end.

(** Membership in a tuple of strings. *)
Definition str_in (s : string) (l : list string) : bool :=
  existsb (String.eqb s) l.

End Py.

(* ================================================================== *)
(** * Processes: state, exit status, exceptions, output *)

Inductive exn : Type :=
| FileNotFoundError
| NotADirectoryError
| IsADirectoryError
| FileExistsError
| PermissionError
| UnicodeDecodeError
| EOFError
| KeyboardInterrupt.

Inductive result (A : Type) : Type :=
| Ok (a : A)
| Exit (code : Z)
| Raise (e : exn).
Arguments Ok {A} a.
Arguments Exit {A} code.
Arguments Raise {A} e.

(** What a process writes: a record of the [deploy] logger (numeric level
    and message; the handler adds the time of day), a line on standard
    output, a line on standard error. *)
Inductive event : Type :=
| Log (level : Z) (msg : string)
| Stdout (line : string)
| Stderr (line : string).

Definition M (S A : Type) : Type := S -> result A * S * list event.

Definition ret {S A} (a : A) : M S A := fun s => (Ok a, s, []).

Definition bind {S A B} (m : M S A) (f : A -> M S B) : M S B :=
  fun s =>
    match m s with
    | (Ok a, s1, o1) =>
        match f a s1 with
        | (r, s2, o2) => (r, s2, (o1 ++ o2)%list)
        end
    | (Exit c, s1, o1) => (Exit c, s1, o1)
    | (Raise e, s1, o1) => (Raise e, s1, o1)
    end.

Declare Scope proc_scope.
Delimit Scope proc_scope with proc.
Notation "x <- m ;; k" := (bind m (fun x => k))
  (at level 100, m at next level, right associativity) : proc_scope.
Notation "m ;; k" := (bind m (fun _ => k))
  (at level 100, right associativity) : proc_scope.
Open Scope proc_scope.

Definition sys_exit {S A} (code : Z) : M S A := fun s => (Exit code, s, []).
Definition raise {S A} (e : exn) : M S A := fun s => (Raise e, s, []).
Definition emit {S} (ev : event) : M S unit := fun s => (Ok tt, s, [ev]).
Definition print {S} (line : string) : M S unit := emit (Stdout line).
Definition get {S} : M S S := fun s => (Ok s, s, []).
Definition put {S} (s : S) : M S unit := fun _ => (Ok tt, s, []).

(** [try: m except ...]: [handler x] is the clause that catches [x], if one
    does. *)
Definition try_except {S A} (m : M S A) (handler : exn -> option (M S A)) : M S A :=
  fun s =>
    match m s with
    | (Raise x, s1, o1) =>
        match handler x with
        | Some h => match h s1 with (r, s2, o2) => (r, s2, (o1 ++ o2)%list) end
        | None => (Raise x, s1, o1)
        end
    | other => other
    end.

(** [for x in l: body x]. *)
Fixpoint for_each {S A} (l : list A) (body : A -> M S unit) : M S unit :=
  match l with
  | [] => ret tt
  | x :: r => body x ;; for_each r body
  end.

(** One line of standard input, as [input()] sees it. *)
Inductive reply : Type :=
| Line (s : string)
| EndOfInput
| Interrupt.

(** [input(prompt)]: the prompt goes to standard output; the line comes
    without its newline. *)
Definition input {S} (stdin : reply) (prompt : string) : M S string :=
  print prompt ;;
  match stdin with
  | Line s => ret s
  | EndOfInput => raise EOFError
  | Interrupt => raise KeyboardInterrupt
  end.

Definition result_of {S A} (x : result A * S * list event) : result A := fst (fst x).
Definition state_of {S A} (x : result A * S * list event) : S := snd (fst x).
Definition output_of {S A} (x : result A * S * list event) : list event := snd x.

(** The status the interpreter exits with: the argument of [sys.exit], 0
    when the script runs to its end, 1 for a traceback. *)
Definition exit_status {A} (r : result A) : Z :=
  match r with
  | Ok _ => 0
  | Exit c => c
  | Raise _ => 1
  end.

(* ================================================================== *)
(** * tools/cleanup.py *)

Module Cleanup.

(** The shell behind [subprocess.run(..., shell=True, check=True)]: given
    the commands already run and the command line, the captured standard
    output when the command exits with 0, [None] when it fails. *)
Definition shell : Type := list string -> string -> option string.

(** The state of the tool is the list of the commands it has run. *)
Definition run_command (sh : shell) (command : string) : M (list string) (option string) :=
  history <- get ;;
  put (history ++ [command])%list ;;
  match sh history command with
  | Some stdout => ret (Some (Py.strip stdout))
  | None => ret None
  end.

(** [if ids:] on [None] or a string. *)
Definition truthy (ids : option string) : bool :=
  match ids with
  | Some EmptyString => false
  | Some _ => true
  | None => false
  end.

Definition fmt (prefix : string) (ids : option string) : string :=
  prefix ++ match ids with Some s => s | None => "None" end.

Definition clean_docker (sh : shell) (stdin : reply) : M (list string) unit :=
  print "WARNING: This will delete ALL Docker containers, images, volumes, and networks." ;;
  confirm <- input stdin "Are you sure you want to proceed? (yes/no): " ;;
  (if negb (Py.lower confirm =? "yes")%string
   then print "Operation cancelled." ;; sys_exit 0
   else ret tt) ;;
  print (Py.nl ++ "--- Starting Docker Cleanup ---" ++ Py.nl) ;;
  print "1. Stopping all containers..." ;;
  ids <- run_command sh "docker ps -aq" ;;
  (if truthy ids
   then run_command sh (fmt "docker stop " ids) ;; print "   -> Containers stopped."
   else print "   -> No running containers found.") ;;
  print "2. Removing all containers..." ;;
  ids <- run_command sh "docker ps -aq" ;;
  (if truthy ids
   then run_command sh (fmt "docker rm " ids) ;; print "   -> Containers removed."
   else print "   -> No containers found to remove.") ;;
  print "3. Removing all images..." ;;
  ids <- run_command sh "docker images -q" ;;
  (if truthy ids
   then run_command sh (fmt "docker rmi -f " ids) ;; print "   -> Images removed."
   else print "   -> No images found.") ;;
  print "4. Removing all volumes..." ;;
  ids <- run_command sh "docker volume ls -q" ;;
  (if truthy ids
   then run_command sh (fmt "docker volume rm " ids) ;; print "   -> Volumes removed."
   else print "   -> No volumes found.") ;;
  print "5. Removing custom networks..." ;;
  run_command sh "docker network prune -f" ;;
  print "   -> Unused networks removed." ;;
  print (Py.nl ++ "--- Cleanup Complete ---").

(** The script as a process: no command has been run when it starts. *)
Definition script (sh : shell) (stdin : reply) : result unit * list string * list event :=
  clean_docker sh stdin [].

(** The commands a run invoked. *)
Definition invoked (sh : shell) (stdin : reply) : list string :=
  state_of (script sh stdin).

(** The process cancels: it prints the notice and leaves through
    [sys.exit()]. *)
Definition cancels (sh : shell) (stdin : reply) : Prop :=
  result_of (script sh stdin) = Exit 0 /\
  In (Stdout "Operation cancelled.") (output_of (script sh stdin)).

(** An engine with nothing to clean: every command succeeds and prints
    nothing. *)
Definition idle_engine : shell := fun _ _ => Some EmptyString.

End Cleanup.

(* ================================================================== *)
(** * The file system *)

Definition owner : Type := (Z * Z)%type.

(** What a regular file holds: text (UTF-8), or bytes that do not decode. *)
Inductive content : Type :=
| Text (s : string)
| Raw (bytes : string).

Inductive node : Type :=
| File (own : owner) (data : content)
| Dir (own : owner) (entries : list (string * node)).

Definition Path : Type := list string.

Definition owner_of (n : node) : owner :=
  match n with
  | File o _ => o
  | Dir o _ => o
  end.

Definition set_owner (o : owner) (n : node) : node :=
  match n with
  | File _ d => File o d
  | Dir _ es => Dir o es
  end.

Definition is_dir_node (n : node) : bool :=
  match n with
  | Dir _ _ => true
  | File _ _ => false
  end.

(** The entry of a name in a directory listing. *)
Fixpoint assoc (x : string) (es : list (string * node)) : option node :=
  match es with
  | [] => None
  | (y, c) :: r => if (y =? x)%string then Some c else assoc x r
  end.

Fixpoint update_entry (x : string) (f : node -> node) (es : list (string * node))
  : list (string * node) :=
  match es with
  | [] => []
  | (y, c) :: r =>
      if (y =? x)%string then (y, f c) :: r else (y, c) :: update_entry x f r
  end.

Definition remove_entry (x : string) (es : list (string * node)) : list (string * node) :=
  filter (fun e => negb (fst e =? x)%string) es.

(** The node a path names, from the root [n]. *)
Fixpoint lookup (n : node) (p : Path) : option node :=
  match p with
  | [] => Some n
  | x :: p' =>
      match n with
      | File _ _ => None
      | Dir _ es =>
          match assoc x es with
          | Some c => lookup c p'
          | None => None
          end
      end
  end.

(** Change the node a path names, if there is one. *)
Fixpoint alter (f : node -> node) (p : Path) (n : node) : node :=
  match p with
  | [] => f n
  | x :: p' =>
      match n with
      | File _ _ => n
      | Dir o es => Dir o (update_entry x (alter f p') es)
      end
  end.

(** Unlink what a path names, with all below it.  The root itself has no
    entry to unlink. *)
Fixpoint remove (p : Path) (n : node) : node :=
  match p with
  | [] => n
  | [x] =>
      match n with
      | File _ _ => n
      | Dir o es => Dir o (remove_entry x es)
      end
  | x :: p' =>
      match n with
      | File _ _ => n
      | Dir o es => Dir o (update_entry x (remove p') es)
      end
  end.

(** Create [new] at a path that does not exist, with the directories
    missing on the way ([os.makedirs]); [None] when a regular file is on
    the way or the path exists. *)
Fixpoint graft (o : owner) (p : Path) (new : node) (n : node) : option node :=
  match p with
  | [] => None
  | x :: p' =>
      match n with
      | File _ _ => None
      | Dir d es =>
          match p' with
          | [] =>
              match assoc x es with
              | Some _ => None
              | None => Some (Dir d (es ++ [(x, new)])%list)
              end
          | _ :: _ =>
              match assoc x es with
              | Some c =>
                  match graft o p' new c with
                  | Some c' => Some (Dir d (update_entry x (fun _ => c') es))
                  | None => None
                  end
              | None =>
                  match graft o p' new (Dir o []) with
                  | Some c' => Some (Dir d (es ++ [(x, c')])%list)
                  | None => None
                  end
              end
          end
      end
  end.

(** A copy made by a process: same names and data, every node owned by the
    process. *)
Fixpoint copy_as (o : owner) (n : node) : node :=
  match n with
  | File _ d => File o d
  | Dir _ es => Dir o (map (fun e => (fst e, copy_as o (snd e))) es)
  end.

Definition dirnames (es : list (string * node)) : list string :=
  map fst (filter (fun e => is_dir_node (snd e)) es).

Definition filenames (es : list (string * node)) : list string :=
  map fst (filter (fun e => negb (is_dir_node (snd e))) es).

(** [os.walk] below a directory node whose path is [p], top down: one
    triple per directory. *)
Fixpoint walk_node (p : Path) (n : node) : list (Path * list string * list string) :=
  match n with
  | File _ _ => []
  | Dir _ es =>
      (p, dirnames es, filenames es)
        :: flat_map (fun e => walk_node (p ++ [fst e])%list (snd e)) es
  end.

(** Every directory holds a name once. *)
Fixpoint wf (n : node) : bool :=
  match n with
  | File _ _ => true
  | Dir _ es =>
      (fix go (l : list (string * node)) : bool :=
         match l with
         | [] => true
         | e :: r =>
             negb (existsb (fun e' => (fst e' =? fst e)%string) r) && wf (snd e) && go r
         end) es
  end.

(* ================================================================== *)
(** * The process environment and state of the deployer *)

(** What the operating system tells the process: where deploy.py lives,
    the effective user and group, the supplementary groups, the group
    database ([None] is the [KeyError] of [grp.getgrgid]) and the line
    waiting on standard input. *)
Record env : Type := {
  script_dir : string;
  euid : Z;
  egid : Z;
  getgroups : list Z;
  getgrgid : Z -> option string;
  stdin : reply
}.

(** The state a run changes: the tree below [script_dir], and the level of
    the root logger (WARNING until [logging.basicConfig]). *)
Record state : Type := {
  fs : node;
  root_level : Z
}.

Definition DEBUG : Z := 10.
Definition INFO : Z := 20.
Definition WARNING : Z := 30.
Definition ERROR : Z := 40.

Definition initial (tree : node) : state := {| fs := tree; root_level := WARNING |}.

Definition set_fs (tree : node) : M state unit :=
  fun st => (Ok tt, {| fs := tree; root_level := root_level st |}, []).

Definition set_level (level : Z) : M state unit :=
  fun st => (Ok tt, {| fs := fs st; root_level := level |}, []).

(** [log.log(level, msg)]: handled when the level is enabled. *)
Definition log_at (level : Z) (msg : string) : M state unit :=
  st <- get ;;
  if root_level st <=? level then emit (Log level msg) else ret tt.

Definition log_debug := log_at DEBUG.
Definition log_info := log_at INFO.
Definition log_warning := log_at WARNING.
Definition log_error := log_at ERROR.

(** [str(path)] of a path below [script_dir]. *)
Definition str_path (e : env) (p : Path) : string :=
  String.concat "/" (script_dir e :: p).

Definition str_exn (x : exn) : string :=
  match x with
  | FileNotFoundError => "FileNotFoundError"
  | NotADirectoryError => "NotADirectoryError"
  | IsADirectoryError => "IsADirectoryError"
  | FileExistsError => "FileExistsError"
  | PermissionError => "PermissionError"
  | UnicodeDecodeError => "UnicodeDecodeError"
  | EOFError => "EOFError"
  | KeyboardInterrupt => "KeyboardInterrupt"
  end.

(** ** File operations *)

(** [path.exists()]. *)
Definition path_exists (p : Path) : M state bool :=
  st <- get ;;
  ret (match lookup (fs st) p with Some _ => true | None => false end).

(** [path.is_dir()]. *)
Definition path_is_dir (p : Path) : M state bool :=
  st <- get ;;
  ret (match lookup (fs st) p with Some n => is_dir_node n | None => false end).

(** [path.read_text(encoding="utf-8")]: the file is opened in text mode,
    which reads with universal newlines. *)
Definition read_text (p : Path) : M state string :=
  st <- get ;;
  match lookup (fs st) p with
  | None => raise FileNotFoundError
  | Some (Dir _ _) => raise IsADirectoryError
  | Some (File _ (Raw _)) => raise UnicodeDecodeError
  | Some (File _ (Text s)) => ret (Py.universal_newlines s)
  end.

(** [path.write_text(s, encoding="utf-8")]: an existing file keeps its
    owner, a new one belongs to the process.  The text is written as it
    is: on writing, text mode turns "\n" into [os.linesep], which is
    "\n" on the systems that have [os.chown]. *)
Definition write_text (e : env) (p : Path) (s : string) : M state unit :=
  st <- get ;;
  match lookup (fs st) p with
  | Some (Dir _ _) => raise IsADirectoryError
  | Some (File o _) => set_fs (alter (fun _ => File o (Text s)) p (fs st))
  | None =>
      match lookup (fs st) (removelast p) with
      | Some (Dir _ _) =>
          match graft (euid e, egid e) p (File (euid e, egid e) (Text s)) (fs st) with
          | Some tree => set_fs tree
          | None => raise NotADirectoryError
          end
      | Some (File _ _) => raise NotADirectoryError
      | None => raise FileNotFoundError
      end
  end.

(** [shutil.rmtree(p)]. *)
Definition rmtree (p : Path) : M state unit :=
  st <- get ;;
  match lookup (fs st) p with
  | None => raise FileNotFoundError
  | Some (File _ _) => raise NotADirectoryError
  | Some (Dir _ _) => set_fs (remove p (fs st))
  end.

(** [shutil.copytree(src, dst)]: the entries of the source are listed
    first, then the destination is made, which must not exist. *)
Definition copytree (e : env) (src dst : Path) : M state unit :=
  st <- get ;;
  match lookup (fs st) src with
  | None => raise FileNotFoundError
  | Some (File _ _) => raise NotADirectoryError
  | Some (Dir o es) =>
      match lookup (fs st) dst with
      | Some _ => raise FileExistsError
      | None =>
          match graft (euid e, egid e) dst (copy_as (euid e, egid e) (Dir o es)) (fs st) with
          | Some tree => set_fs tree
          | None => raise NotADirectoryError
          end
      end
  end.

(** Whether the process may give the node [n] to [uid]:[gid]: the
    superuser may; another user only keeps a file of its own and moves it
    to one of its groups. *)
Definition may_chown (e : env) (n : node) (uid gid : Z) : bool :=
  (euid e =? 0)
  || ((fst (owner_of n) =? euid e) && (uid =? euid e)
      && existsb (Z.eqb gid) (egid e :: getgroups e)).

(** [os.chown(p, uid, gid)]. *)
Definition os_chown (e : env) (p : Path) (uid gid : Z) : M state unit :=
  st <- get ;;
  match lookup (fs st) p with
  | None => raise FileNotFoundError
  | Some n =>
      if may_chown e n uid gid
      then set_fs (alter (set_owner (uid, gid)) p (fs st))
      else raise PermissionError
  end.

(** [os.walk(p)]: nothing when [p] is not a directory.  The loop over it
    only changes owners, so the triples are those of the tree at the
    start. *)
Definition os_walk (p : Path) : M state (list (Path * list string * list string)) :=
  st <- get ;;
  ret (match lookup (fs st) p with
       | Some n => walk_node p n
       | None => []
       end).

(* ================================================================== *)
(** * deploy.py *)

Definition TEMPLATE_DIR : string := "journal".

Definition WWW_DATA_UID : Z := 33.
Definition WWW_DATA_GID : Z := 33.
Definition MYSQL_UID : Z := 999.
Definition MYSQL_GID : Z := 999.

Definition EXIT_SUCCESS : Z := 0.
Definition EXIT_USER_ERROR : Z := 1.
Definition EXIT_PERMISSION_ERROR : Z := 2.

Definition TOKEN_DOMAIN : string := "{{DOMAIN}}".
Definition TOKEN_JOURNAL : string := "{{JOURNAL}}".
Definition TOKEN_DATABASE : string := "{{DATABASE}}".
Definition TOKEN_DB_HOST : string := "{{DB_HOST}}".
Definition TOKEN_ACME_EMAIL : string := "{{ACME_EMAIL}}".
Definition TOKEN_LOCALE : string := "{{LOCALE}}".

(** The attributes of the [logging] module that are integers and have an
    upper-case name. *)
Definition logging_attr (name : string) : option Z :=
  if (name =? "CRITICAL")%string then Some 50
  else if (name =? "FATAL")%string then Some 50
  else if (name =? "ERROR")%string then Some 40
  else if (name =? "WARNING")%string then Some 30
  else if (name =? "WARN")%string then Some 30
  else if (name =? "INFO")%string then Some 20
  else if (name =? "DEBUG")%string then Some 10
  else if (name =? "NOTSET")%string then Some 0
  else None.

Definition _configure_logging (level : string) : M state unit :=
  match logging_attr (Py.upper level) with
  | None =>
      emit (Stderr ("Invalid log level: " ++ level)) ;;
      sys_exit EXIT_USER_ERROR
  | Some numeric => set_level numeric
  end.

Definition _extract_subdomain (domain : string) : string :=
  hd EmptyString (Py.split "." domain).

(** The messages are those of the script, but for the check marks, dashes
    and arrows outside ASCII, which are left out. *)
Definition _chown_recursive (e : env) (path : Path) (uid gid : Z) (dry_run : bool)
  : M state unit :=
  if dry_run
  then log_info ("[DRY-RUN] Would chown -R " ++ Py.str_of_int uid ++ ":"
                   ++ Py.str_of_int gid ++ " " ++ str_path e path)
  else
    triples <- os_walk path ;;
    for_each triples (fun t =>
      let '(dirpath, dnames, fnames) := t in
      os_chown e dirpath uid gid ;;
      for_each (dnames ++ fnames)%list (fun name =>
        os_chown e (dirpath ++ [name])%list uid gid)).

(** The names of the groups of the process, [None] when a group has no
    entry in the group database. *)
Fixpoint group_names (db : Z -> option string) (gids : list Z) : option (list string) :=
  match gids with
  | [] => Some []
  | g :: r =>
      match db g with
      | None => None
      | Some name =>
          match group_names db r with
          | None => None
          | Some names => Some (name :: names)
          end
      end
  end.

Definition _has_privilege (e : env) : bool :=
  if euid e =? 0 then true
  else
    match group_names (getgrgid e) (getgroups e) with
    | Some user_groups =>
        existsb (fun name => Py.str_in name ["sudo"; "wheel"]) user_groups
    | None => false
    end.

(** The loop of [_replace_in_file] over the replacements: the new content
    and the number of occurrences replaced. *)
Fixpoint apply_replacements (content : string) (count : Z)
    (replacements : list (string * string)) : string * Z :=
  match replacements with
  | [] => (content, count)
  | (old, new) :: r =>
      let occurrences := Py.count content old in
      if occurrences =? 0
      then apply_replacements content count r
      else apply_replacements (Py.replace content old new) (count + occurrences) r
  end.

Definition _replace_in_file (e : env) (filepath : Path)
    (replacements : list (string * string)) (dry_run : bool) : M state unit :=
  present <- path_exists filepath ;;
  if negb present
  then log_warning ("File not found, skipping: " ++ str_path e filepath)
  else
    content <- read_text filepath ;;
    let '(content, count) := apply_replacements content 0 replacements in
    if dry_run
    then log_info ("[DRY-RUN] Would apply " ++ Py.str_of_int count
                     ++ " replacements in " ++ str_path e filepath)
    else
      write_text e filepath content ;;
      log_info ("Applied " ++ Py.str_of_int count ++ " replacements in "
                  ++ str_path e filepath).

Definition validate_environment (e : env) (template_dir : Path) : M state unit :=
  isdir <- path_is_dir template_dir ;;
  (if negb isdir
   then log_error ("Template directory '" ++ str_path e template_dir ++ "' not found!") ;;
        sys_exit EXIT_USER_ERROR
   else ret tt) ;;
  for_each [".env"; "compose.yml"] (fun name =>
    present <- path_exists (template_dir ++ [name])%list ;;
    if negb present
    then log_warning ("Expected template file missing: " ++ str_path e template_dir
                        ++ "/" ++ name)
    else ret tt).

Definition handle_existing_target (e : env) (target_dir : Path) (force dry_run : bool)
  : M state unit :=
  present <- path_exists target_dir ;;
  if negb present then ret tt
  else if dry_run
  then log_info ("[DRY-RUN] Directory '" ++ str_path e target_dir
                   ++ "' exists; would prompt/overwrite.")
  else if force
  then log_info ("Directory '" ++ str_path e target_dir ++ "' exists; overwriting (--force).") ;;
       rmtree target_dir
  else
    log_warning ("Directory '" ++ str_path e target_dir ++ "' already exists.") ;;
    reply <- try_except
               (line <- input (stdin e) "Do you want to overwrite it? (y/n) " ;;
                ret (Py.lower (Py.strip line)))
               (fun x => match x with
                         | EOFError | KeyboardInterrupt =>
                             Some (print EmptyString ;;
                                   log_info "Aborted." ;;
                                   sys_exit EXIT_USER_ERROR)
                         | _ => None
                         end) ;;
    (if negb (Py.str_in reply ["y"; "yes"])
     then log_info "Aborted." ;; sys_exit EXIT_USER_ERROR
     else ret tt) ;;
    rmtree target_dir.

Definition copy_template (e : env) (template_dir target_dir : Path) (dry_run : bool)
  : M state unit :=
  if dry_run
  then log_info ("[DRY-RUN] Would copy '" ++ str_path e template_dir ++ "' to '"
                   ++ str_path e target_dir ++ "'")
  else
    copytree e template_dir target_dir ;;
    log_info ("Created directory: " ++ str_path e target_dir).

Definition configure_env (e : env) (env_file : Path) (domain acme_email subdomain : string)
    (dry_run : bool) : M state unit :=
  _replace_in_file e env_file
    [ (TOKEN_DOMAIN, domain);
      (TOKEN_ACME_EMAIL, acme_email);
      (TOKEN_DB_HOST, "db-" ++ subdomain) ]
    dry_run.

Definition configure_config_inc (e : env) (config_file : Path)
    (domain locale subdomain : string) (dry_run : bool) : M state unit :=
  _replace_in_file e config_file
    [ (TOKEN_DOMAIN, domain);
      (TOKEN_LOCALE, locale);
      (TOKEN_DB_HOST, "db-" ++ subdomain) ]
    dry_run.

Definition configure_compose (e : env) (compose_file : Path) (subdomain : string)
    (dry_run : bool) : M state unit :=
  _replace_in_file e compose_file
    [ (TOKEN_JOURNAL, "journal-" ++ subdomain);
      (TOKEN_DATABASE, "db-" ++ subdomain) ]
    dry_run.

Definition set_permissions (e : env) (target_dir : Path) (dry_run : bool) : M state unit :=
  let volumes_dir := (target_dir ++ ["volumes"])%list in
  let db_dir := (volumes_dir ++ ["db"])%list in
  (if negb (_has_privilege e)
   then
     log_error "Access denied: You must be root or a member of the sudo/wheel group." ;;
     log_error "Please manually run:" ;;
     log_error ("  chown -R " ++ Py.str_of_int WWW_DATA_UID ++ ":"
                  ++ Py.str_of_int WWW_DATA_GID ++ " " ++ str_path e volumes_dir) ;;
     log_error ("  chown -R " ++ Py.str_of_int MYSQL_UID ++ ":"
                  ++ Py.str_of_int MYSQL_GID ++ " " ++ str_path e db_dir) ;;
     sys_exit EXIT_PERMISSION_ERROR
   else ret tt) ;;
  _chown_recursive e volumes_dir WWW_DATA_UID WWW_DATA_GID dry_run ;;
  _chown_recursive e db_dir MYSQL_UID MYSQL_GID dry_run ;;
  if negb dry_run then log_info "Permissions set" else ret tt.

Definition print_summary (domain : string) (target_dir : string) : M state unit :=
  print (Py.nl ++ "--- Deployment Ready: " ++ domain ++ " ---" ++ Py.nl) ;;
  print "1. Enter directory:" ;;
  print ("   -> cd " ++ target_dir ++ Py.nl) ;;
  print "2. Start containers:" ;;
  print ("   -> cd docker compose up -d" ++ Py.nl) ;;
  print "3. Visit:" ;;
  print ("   -> https://" ++ domain ++ Py.nl) ;;
  print "--- Journal Deployment Complete ---".

(** ** The command line *)

(** The command line as [argparse] tokenizes it: the positional and the
    value of each option given. *)
Record cmdline : Type := {
  arg_domain : option string;
  arg_locale : option string;
  arg_email : option string;
  arg_force : bool;
  arg_dry_run : bool;
  arg_log_level : option string
}.

Record namespace : Type := {
  domain : string;
  locale : string;
  email : option string;
  force : bool;
  dry_run : bool;
  log_level : string
}.

Definition LOG_LEVEL_CHOICES : list string := ["DEBUG"; "INFO"; "WARNING"; "ERROR"].

(** [parser.error]: the usage and the message on standard error, then
    exit status 2. *)
Definition parser_error {A} (msg : string) : M state A :=
  emit (Stderr ("deploy.py: error: " ++ msg)) ;;
  sys_exit 2.

(** [build_parser().parse_args(argv)]: the defaults and the choices of
    [build_parser]. *)
Definition parse_args (argv : cmdline) : M state namespace :=
  level <- match arg_log_level argv with
           | None => ret "INFO"
           | Some l =>
               if Py.str_in l LOG_LEVEL_CHOICES then ret l
               else parser_error ("argument --log-level: invalid choice: '" ++ l ++ "'")
           end ;;
  match arg_domain argv with
  | None => parser_error "the following arguments are required: domain"
  | Some d =>
      ret {| domain := d;
             locale := match arg_locale argv with Some l => l | None => "en" end;
             email := arg_email argv;
             force := arg_force argv;
             dry_run := arg_dry_run argv;
             log_level := level |}
  end.

(** [main]; the instance directory [script_dir / subdomain] is the entry
    [subdomain] of the tree. *)
Definition main (e : env) (argv : cmdline) : M state Z :=
  args <- parse_args argv ;;
  _configure_logging (log_level args) ;;
  let domain := domain args in
  let locale := locale args in
  let acme_email := match email args with
                    | Some (String c r) => String c r
                    | _ => "admin@" ++ domain
                    end in
  let force := force args in
  let dry_run := dry_run args in
  let template_dir : Path := [TEMPLATE_DIR] in
  let subdomain := _extract_subdomain domain in
  let target_dir : Path := [subdomain] in
  log_debug ("Domain      : " ++ domain) ;;
  log_debug ("Subdomain   : " ++ subdomain) ;;
  log_debug ("Locale      : " ++ locale) ;;
  log_debug ("ACME email  : " ++ acme_email) ;;
  log_debug ("Template    : " ++ str_path e template_dir) ;;
  log_debug ("Target      : " ++ str_path e target_dir) ;;
  log_debug ("Force       : " ++ (if force then "True" else "False")) ;;
  log_debug ("Dry-run     : " ++ (if dry_run then "True" else "False")) ;;
  validate_environment e template_dir ;;
  handle_existing_target e target_dir force dry_run ;;
  log_info ("Deploying " ++ domain ++ " to " ++ subdomain ++ " ...") ;;
  copy_template e template_dir target_dir dry_run ;;
  configure_env e (target_dir ++ [".env"])%list domain acme_email subdomain dry_run ;;
  configure_config_inc e (target_dir ++ ["volumes"; "config"; "config.inc.php"])%list
    domain locale subdomain dry_run ;;
  configure_compose e (target_dir ++ ["compose.yml"])%list subdomain dry_run ;;
  set_permissions e target_dir dry_run ;;
  (if negb dry_run
   then print_summary domain subdomain
   else log_info "[DRY-RUN] Deployment preview complete. No changes were made.") ;;
  ret EXIT_SUCCESS.

(** The block under [if __name__ == "__main__"]. *)
Definition script (e : env) (argv : cmdline) : M state unit :=
  try_except
    (code <- main e argv ;; sys_exit code)
    (fun x => match x with
              | KeyboardInterrupt =>
                  Some (emit (Stderr (Py.nl ++ "Aborted.")) ;; sys_exit EXIT_USER_ERROR)
              | _ =>
                  Some (log_error ("Fatal error: " ++ str_exn x) ;;
                        sys_exit EXIT_USER_ERROR)
              end).

(** One invocation of the deployer on the tree [tree]: a new process, whose
    logger is not configured yet. *)
Definition deploy (e : env) (argv : cmdline) (tree : node) : result unit * state * list event :=
  script e argv (initial tree).

Definition exit_code (e : env) (argv : cmdline) (tree : node) : Z :=
  exit_status (result_of (deploy e argv tree)).

Definition tree_after (e : env) (argv : cmdline) (tree : node) : node :=
  fs (state_of (deploy e argv tree)).

(* ================================================================== *)
(** * Sample inputs *)

Module Sample.

(** The template: the two marker files, the volumes tree with the
    application configuration and the database directory. *)
Definition template : node :=
  Dir (1000, 1000)
    [ (".env", File (1000, 1000)
         (Text "DOMAIN={{DOMAIN}} EMAIL={{ACME_EMAIL}} DB_HOST={{DB_HOST}}"));
      ("compose.yml", File (1000, 1000)
         (Text "services: {{JOURNAL}}: depends_on: {{DATABASE}}"));
      ("volumes", Dir (1000, 1000)
         [ ("config", Dir (1000, 1000)
              [ ("config.inc.php", File (1000, 1000)
                   (Text "base_url = https://{{DOMAIN}} locale = {{LOCALE}} host = {{DB_HOST}}")) ]);
           ("db", Dir (1000, 1000)
              [ ("ibdata1", File (1000, 1000) (Raw "ibdata")) ]);
           ("public", Dir (1000, 1000) []) ]) ].

(** A template directory without its marker files. *)
Definition bare_template : node :=
  Dir (1000, 1000) [ ("volumes", Dir (1000, 1000) [ ("db", Dir (1000, 1000) []) ]) ].

(** The directory of deploy.py before any deployment. *)
Definition fresh : node :=
  Dir (1000, 1000)
    [ ("deploy.py", File (1000, 1000) (Text "#!/usr/bin/env python3"));
      ("journal", template) ].

Definition bare : node :=
  Dir (1000, 1000)
    [ ("deploy.py", File (1000, 1000) (Text "#!/usr/bin/env python3"));
      ("journal", bare_template) ].

(** The same directory with an instance [journal1] already there. *)
Definition deployed : node :=
  Dir (1000, 1000)
    [ ("deploy.py", File (1000, 1000) (Text "#!/usr/bin/env python3"));
      ("journal", template);
      ("journal1", Dir (0, 0)
         [ (".env", File (0, 0) (Text "DOMAIN=old.example.com"));
           ("volumes", Dir (33, 33)
              [ ("db", Dir (999, 999) [ ("ibdata1", File (999, 999) (Raw "data")) ]) ]) ]) ].

Definition group_db (gid : Z) : option string :=
  if gid =? 0 then Some "root"
  else if gid =? 27 then Some "sudo"
  else if gid =? 1000 then Some "operator"
  else if gid =? 1001 then Some "guest"
  else None.

(** The superuser. *)
Definition root (answer : reply) : env :=
  {| script_dir := "/srv/ojs"; euid := 0; egid := 0; getgroups := [0];
     getgrgid := group_db; stdin := answer |}.

(** A user in the sudo group. *)
Definition operator (answer : reply) : env :=
  {| script_dir := "/srv/ojs"; euid := 1000; egid := 1000; getgroups := [1000; 27];
     getgrgid := group_db; stdin := answer |}.

(** A user in no administrative group. *)
Definition guest (answer : reply) : env :=
  {| script_dir := "/srv/ojs"; euid := 1001; egid := 1001; getgroups := [1001];
     getgrgid := group_db; stdin := answer |}.

Definition args (d : string) (force_flag dry : bool) (level : option string) : cmdline :=
  {| arg_domain := Some d; arg_locale := None; arg_email := None;
     arg_force := force_flag; arg_dry_run := dry; arg_log_level := level |}.

End Sample.

(* ================================================================== *)
(** * Vocabulary of the properties *)

(** [m] always returns and leaves the state as it is. *)
Definition quiet {S A} (m : M S A) : Prop :=
  forall s, exists a o, m s = (Ok a, s, o).

(** The process is in the sudo or the wheel group. *)
Definition admin_member (e : env) : Prop :=
  exists g, In g (getgroups e) /\
            (getgrgid e g = Some "sudo" \/ getgrgid e g = Some "wheel").

(** Neither the superuser nor in an administrative group. *)
Definition unprivileged (e : env) : Prop :=
  euid e <> 0 /\ ~ admin_member e.

(** The command line passes [argparse]: a domain, and a log level among
    the choices when one is given. *)
Definition accepted (argv : cmdline) : Prop :=
  arg_domain argv <> None /\
  forall l, arg_log_level argv = Some l -> Py.str_in l LOG_LEVEL_CHOICES = true.

Definition domain_of (argv : cmdline) : string :=
  match arg_domain argv with Some d => d | None => EmptyString end.

(** The string names one entry of a directory: it is not empty and holds
    neither a '/' nor a NUL.  [Path(dir) / s] is then the entry [s] of
    [dir]; for the empty string it is [dir] itself, and with a '/' a path
    of several names. *)
Definition entry_name (s : string) : bool :=
  negb (s =? EmptyString)%string
  && negb (Py.contains "/" s)
  && negb (Py.contains (ascii_of_nat 0) s).

(** The instance directory of an invocation: [script_dir / subdomain], the
    entry of the script's directory that has the name of the first label
    when that label is an [entry_name]. *)
Definition target_of (argv : cmdline) : Path := [_extract_subdomain (domain_of argv)].

(** [p] names a directory of the tree. *)
Definition is_dir (tree : node) (p : Path) : bool :=
  match lookup tree p with Some n => is_dir_node n | None => false end.

(** The owner of what [p] names. *)
Definition owner_at (tree : node) (p : Path) : option owner :=
  match lookup tree p with Some n => Some (owner_of n) | None => None end.

(** The data of the regular file [p] names. *)
Definition data_at (tree : node) (p : Path) : option content :=
  match lookup tree p with Some (File _ d) => Some d | _ => None end.

(** [m] leaves the tree as it is, however it ends. *)
Definition keeps_tree {A} (m : M state A) : Prop :=
  forall s, fs (state_of (m s)) = fs s.

(** The answers that abort the overwrite prompt: end of input, an
    interrupt, or a line that is not "y" or "yes" once stripped and put in
    lower case. *)
Definition declines (answer : reply) : Prop :=
  match answer with
  | Line s => Py.str_in (Py.lower (Py.strip s)) ["y"; "yes"] = false
  | EndOfInput => True
  | Interrupt => True
  end.

(** The exit status that the result of [main] gives the process. *)
Definition main_status (r : result Z) : Z :=
  match r with
  | Ok c => c
  | Exit c => c
  | Raise _ => 1
  end.

(** A result that is not the exit status 0. *)
Definition nonzero_exit {A} (r : result A) : Prop :=
  match r with
  | Exit c => c <> 0
  | _ => True
  end.

(** A result that is a failure: a non-zero exit status or an exception. *)
Definition failed {A} (r : result A) : Prop :=
  match r with
  | Ok _ => False
  | Exit c => c <> 0
  | Raise _ => True
  end.

(** [m] never leaves through [sys.exit(0)]. *)
Definition exits_nonzero {A} (m : M state A) : Prop :=
  forall s, nonzero_exit (result_of (m s)).

(** [m] never succeeds. *)
Definition fails {A} (m : M state A) : Prop :=
  forall s, failed (result_of (m s)).

(** The steps of [main] after the copy of the template: the three
    substitutions, the ownership step and the summary. *)
Definition finish (e : env) (argv : cmdline) (dry_run : bool) : M state Z :=
  let domain := domain_of argv in
  let locale := match arg_locale argv with Some l => l | None => "en" end in
  let acme_email := match arg_email argv with
                    | Some (String c r) => String c r
                    | _ => "admin@" ++ domain
                    end in
  let subdomain := _extract_subdomain domain in
  let target_dir : Path := [subdomain] in
  configure_env e (target_dir ++ [".env"])%list domain acme_email subdomain dry_run ;;
  configure_config_inc e (target_dir ++ ["volumes"; "config"; "config.inc.php"])%list
    domain locale subdomain dry_run ;;
  configure_compose e (target_dir ++ ["compose.yml"])%list subdomain dry_run ;;
  set_permissions e target_dir dry_run ;;
  (if negb dry_run
   then print_summary domain subdomain
   else log_info "[DRY-RUN] Deployment preview complete. No changes were made.") ;;
  ret EXIT_SUCCESS.

(** The steps of [main] after the collision handling: the copy of the
    template and what follows. *)
Definition materialize (e : env) (argv : cmdline) (dry_run : bool) : M state Z :=
  let domain := domain_of argv in
  let template_dir : Path := [TEMPLATE_DIR] in
  let subdomain := _extract_subdomain domain in
  let target_dir : Path := [subdomain] in
  log_info ("Deploying " ++ domain ++ " to " ++ subdomain ++ " ...") ;;
  copy_template e template_dir target_dir dry_run ;;
  finish e argv dry_run.

(** The steps of [main] once the command line is parsed and the logger
    configured. *)
Definition steps (e : env) (argv : cmdline) : M state Z :=
  let domain := domain_of argv in
  let force := arg_force argv in
  let dry_run := arg_dry_run argv in
  let template_dir : Path := [TEMPLATE_DIR] in
  let subdomain := _extract_subdomain domain in
  let target_dir : Path := [subdomain] in
  validate_environment e template_dir ;;
  handle_existing_target e target_dir force dry_run ;;
  materialize e argv dry_run.

(** What validation writes about the file [name] of the template: when the
    file is missing, one record of level WARNING, which the logger lets
    through unless its level is above WARNING; nothing when the file is
    there. *)
Definition missing_warning (e : env) (s : state) (template_dir : Path) (name : string)
  : list event :=
  match lookup (fs s) (template_dir ++ [name])%list with
  | Some _ => []
  | None =>
      if root_level s <=? WARNING
      then [Log WARNING ("Expected template file missing: " ++ str_path e template_dir
                           ++ "/" ++ name)]
      else []
  end.

(** What a run does, its output aside: the result and the state. *)
Definition run {S A} (m : M S A) (s : S) : result A * S := (result_of (m s), state_of (m s)).

(** The state [s] with another tree. *)
Definition with_fs (s : state) (tree : node) : state :=
  {| fs := tree; root_level := root_level s |}.

(** An observation of a node that does not look at the entries of a
    directory. *)
Definition shallow {A} (obs : node -> A) : Prop :=
  forall d es es', obs (Dir d es) = obs (Dir d es').

(** Whether [p] names a directory, a regular file, or nothing. *)
Definition kind_at (tree : node) (p : Path) : option bool :=
  option_map is_dir_node (lookup tree p).

(** The paths the loop of [_chown_recursive] gives to [os.chown], in
    order: each directory of the walk, then its entries. *)
Definition chown_targets (triples : list (Path * list string * list string)) : list Path :=
  flat_map (fun t => let '(dirpath, dnames, fnames) := t in
                     dirpath :: map (fun name => dirpath ++ [name])%list (dnames ++ fnames)%list)
           triples.

(** [p] is [q] or below it. *)
Definition below (q p : Path) : Prop := exists r, p = (q ++ r)%list.

(** The tree is a directory owned by [o] whose entries are [rest] and, last,
    a directory named [sub]. *)
Definition holds_instance (o : owner) (rest : list (string * node)) (sub : string)
    (t : node) : Prop :=
  exists c, is_dir_node c = true /\ t = Dir o (rest ++ [(sub, c)])%list.

(** [p] is strictly inside the entry [sub] of the root. *)
Definition inside (sub : string) (p : Path) : Prop :=
  exists x q, p = sub :: x :: q.

(** [m] keeps a property of the tree, however it ends. *)
Definition preserves {A} (I : node -> Prop) (m : M state A) : Prop :=
  forall s, I (fs s) -> I (fs (state_of (m s))).

(* ================================================================== *)
(** * Vocabulary of the further properties *)

(** The commands of one stage of the cleanup, run after [history]: the
    listing, then the action on what it lists when that is not empty. *)
Definition stage_commands (sh : Cleanup.shell) (history : list string)
    (listing action : string) : list string :=
  listing ::
  match sh history listing with
  | Some stdout =>
      if Cleanup.truthy (Some (Py.strip stdout)) then [action ++ Py.strip stdout] else []
  | None => []
  end.

(** The commands of a confirmed cleanup. *)
Definition confirmed_commands (sh : Cleanup.shell) : list string :=
  let h1 := stage_commands sh [] "docker ps -aq" "docker stop " in
  let h2 := (h1 ++ stage_commands sh h1 "docker ps -aq" "docker rm ")%list in
  let h3 := (h2 ++ stage_commands sh h2 "docker images -q" "docker rmi -f ")%list in
  let h4 := (h3 ++ stage_commands sh h3 "docker volume ls -q" "docker volume rm ")%list in
  (h4 ++ ["docker network prune -f"])%list.

(** The successive [str.replace] of each pair, in order. *)
Definition replace_all (replacements : list (string * string)) (content : string) : string :=
  fold_left (fun acc r => Py.replace acc (fst r) (snd r)) replacements content.

(** The bytes of a regular file. *)
Definition file_data (n : node) : option content :=
  match n with
  | File _ d => Some d
  | Dir _ _ => None
  end.

(** What [q] names is the same in both trees: nothing in both, or a node
    of the same kind, with the same owner and, for a file, the same
    bytes. *)
Definition same_at (t t' : node) (q : Path) : Prop :=
  kind_at t q = kind_at t' q /\ owner_at t q = owner_at t' q /\ data_at t q = data_at t' q.

(** The line at the prompt is a yes: "y" or "yes" once stripped and put
    in lower case. *)
Definition confirms (answer : reply) : bool :=
  match answer with
  | Line s => Py.str_in (Py.lower (Py.strip s)) ["y"; "yes"]
  | EndOfInput => false
  | Interrupt => false
  end.

(** An existing destination may be overwritten: --force, or a yes at the
    prompt. *)
Definition overwrites (e : env) (argv : cmdline) : bool :=
  arg_force argv || confirms (stdin e).

(** Every exit status of [m] is in [G]. *)
Definition exits_with {A} (G : Z -> Prop) (m : M state A) : Prop :=
  forall s, match result_of (m s) with Exit c => G c | _ => True end.

(** Every value [m] returns is in [R]. *)
Definition returns {A} (R : A -> Prop) (m : M state A) : Prop :=
  forall s, match result_of (m s) with Ok a => R a | _ => True end.

(** The values of the command line as [main] takes them. *)
Definition locale_of (argv : cmdline) : string :=
  match arg_locale argv with Some l => l | None => "en" end.

Definition acme_email_of (argv : cmdline) : string :=
  match arg_email argv with
  | Some (String c r) => String c r
  | _ => "admin@" ++ domain_of argv
  end.

(** The replacements [main] asks for, by the path of the file inside the
    instance: those of [configure_env], [configure_config_inc] and
    [configure_compose], and none for any other file. *)
Definition token_table (argv : cmdline) (q : Path) : list (string * string) :=
  let subdomain := _extract_subdomain (domain_of argv) in
  if list_eq_dec string_dec q [".env"]
  then [ (TOKEN_DOMAIN, domain_of argv);
         (TOKEN_ACME_EMAIL, acme_email_of argv);
         (TOKEN_DB_HOST, "db-" ++ subdomain) ]
  else if list_eq_dec string_dec q ["volumes"; "config"; "config.inc.php"]
  then [ (TOKEN_DOMAIN, domain_of argv);
         (TOKEN_LOCALE, locale_of argv);
         (TOKEN_DB_HOST, "db-" ++ subdomain) ]
  else if list_eq_dec string_dec q ["compose.yml"]
  then [ (TOKEN_JOURNAL, "journal-" ++ subdomain);
         (TOKEN_DATABASE, "db-" ++ subdomain) ]
  else [].

(** The files [main] hands to [_replace_in_file], by their path inside the
    instance. *)
Definition configured_file (q : Path) : bool :=
  if list_eq_dec string_dec q [".env"] then true
  else if list_eq_dec string_dec q ["volumes"; "config"; "config.inc.php"] then true
  else if list_eq_dec string_dec q ["compose.yml"] then true
  else false.

(** The bytes of a file [_replace_in_file] has rewritten: the text as it
    was read, with universal newlines, after the replacements. *)
Definition configured (replacements : list (string * string)) (d : content) : content :=
  match d with
  | Text c => Text (replace_all replacements (Py.universal_newlines c))
  | Raw b => Raw b
  end.

(** The bytes of the file [q] of a new instance, from those of the file
    [q] of the template: the three configured files are rewritten, every
    other file is a copy. *)
Definition instance_data (argv : cmdline) (q : Path) (d : content) : content :=
  if configured_file q then configured (token_table argv q) d else d.


(* ================================================================== *)
(** * Properties *)

(** ** Python strings *)

Lemma split_not_nil (sep : ascii) (s : string) : Py.split sep s <> [].
Proof.
  destruct s as [|c r]; simpl; [discriminate|].
  destruct (Ascii.eqb c sep); [discriminate|].
  destruct (Py.split sep r); discriminate.
Qed.

Lemma hd_split_cons (sep c : ascii) (r : string) :
  Ascii.eqb c sep = false ->
  hd EmptyString (Py.split sep (String c r)) = String c (hd EmptyString (Py.split sep r)).
Proof.
  intros H. simpl. rewrite H.
  destruct (Py.split sep r) eqn:E; [now apply split_not_nil in E | reflexivity].
Qed.

Lemma lower_char_y (c : ascii) : Py.lower_char c = "y"%char -> c = "y"%char \/ c = "Y"%char.
Proof.
  destruct c as [[] [] [] [] [] [] [] []]; vm_compute; intros H;
    solve [discriminate H | now left | now right].
Qed.

Lemma lower_char_e (c : ascii) : Py.lower_char c = "e"%char -> c = "e"%char \/ c = "E"%char.
Proof.
  destruct c as [[] [] [] [] [] [] [] []]; vm_compute; intros H;
    solve [discriminate H | now left | now right].
Qed.

Lemma lower_char_s (c : ascii) : Py.lower_char c = "s"%char -> c = "s"%char \/ c = "S"%char.
Proof.
  destruct c as [[] [] [] [] [] [] [] []]; vm_compute; intros H;
    solve [discriminate H | now left | now right].
Qed.

(** The lines that [lower] sends to "yes" are its eight spellings. *)
Lemma lower_yes (s : string) :
  Py.lower s = "yes" ->
  In s ["yes"; "yeS"; "yEs"; "yES"; "Yes"; "YeS"; "YEs"; "YES"].
Proof.
  destruct s as [|a [|b [|c [|d r]]]]; simpl; try discriminate.
  intros H. injection H as Ha Hb Hc.
  apply lower_char_y in Ha. apply lower_char_e in Hb. apply lower_char_s in Hc.
  destruct Ha, Hb, Hc; subst; simpl; tauto.
Qed.

(** ** Processes *)

Lemma bind_ok {S A B} (m : M S A) (f : A -> M S B) s a s1 o1 :
  m s = (Ok a, s1, o1) ->
  bind m f s = (result_of (f a s1), state_of (f a s1), (o1 ++ output_of (f a s1))%list).
Proof.
  intros H. unfold bind. rewrite H.
  destruct (f a s1) as [[r s2] o2]. reflexivity.
Qed.

Lemma bind_exit {S A B} (m : M S A) (f : A -> M S B) s c s1 o1 :
  m s = (Exit c, s1, o1) -> bind m f s = (Exit c, s1, o1).
Proof. intros H. unfold bind. now rewrite H. Qed.

Lemma quiet_emit {S} (ev : event) : quiet (@emit S ev).
Proof. intros s. exists tt, [ev]. reflexivity. Qed.

Lemma quiet_print {S} (line : string) : quiet (@print S line).
Proof. apply quiet_emit. Qed.

Lemma quiet_log_at (level : Z) (msg : string) : quiet (log_at level msg).
Proof.
  intros s. unfold log_at, bind, get.
  destruct (root_level s <=? level); simpl; eauto.
Qed.

Create HintDb quiet.
#[local] Hint Resolve quiet_emit quiet_print quiet_log_at : quiet.
#[local] Hint Extern 1 (quiet (log_debug _)) => apply quiet_log_at : quiet.
#[local] Hint Extern 1 (quiet (log_info _)) => apply quiet_log_at : quiet.
#[local] Hint Extern 1 (quiet (log_warning _)) => apply quiet_log_at : quiet.
#[local] Hint Extern 1 (quiet (log_error _)) => apply quiet_log_at : quiet.

(** ** The instance identifier *)

(** C9: for a domain with a '.', the identifier is the substring before the
    first '.' (the domain is the identifier, a '.', and a rest, and the
    identifier has no '.'); for a domain without '.', it is the whole
    domain.  Nothing is validated: every string has an identifier. *)
Theorem extract_subdomain_first_label (domain : string) :
  (Py.contains "." domain = true ->
     Py.contains "." (_extract_subdomain domain) = false /\
     exists rest, domain = _extract_subdomain domain ++ "." ++ rest) /\
  (Py.contains "." domain = false -> _extract_subdomain domain = domain).
Proof.
  unfold _extract_subdomain.
  induction domain as [|c r [IHdot IHnone]].
  - split; [discriminate | reflexivity].
  - destruct (Ascii.eqb c ".") eqn:E.
    + apply Ascii.eqb_eq in E. subst c. split.
      * intros _. simpl. split; [reflexivity | now exists r].
      * simpl. discriminate.
    + rewrite (hd_split_cons _ _ _ E). simpl Py.contains. rewrite E. simpl orb. split.
      * intros H. destruct (IHdot H) as [Hno [rest Hrest]]. split; [exact Hno|].
        exists rest.
        change (String c r = String c (hd EmptyString (Py.split "." r) ++ "." ++ rest)).
        now f_equal.
      * intros H. now rewrite (IHnone H).
Qed.

Lemma extract_subdomain_witness :
  (Py.contains "." (_extract_subdomain "journal1.example.com") = false /\
   exists rest, "journal1.example.com"
                = _extract_subdomain "journal1.example.com" ++ "." ++ rest) /\
  _extract_subdomain "localhost" = "localhost".
Proof.
  split.
  - exact (proj1 (extract_subdomain_first_label "journal1.example.com") eq_refl).
  - exact (proj2 (extract_subdomain_first_label "localhost") eq_refl).
Defined.

(** ** The cleanup tool *)

Lemma clean_docker_declined (sh : Cleanup.shell) (line : string) :
  Py.lower line <> "yes" ->
  Cleanup.script sh (Line line)
  = (Exit 0, [],
     [Stdout "WARNING: This will delete ALL Docker containers, images, volumes, and networks.";
      Stdout "Are you sure you want to proceed? (yes/no): ";
      Stdout "Operation cancelled."]).
Proof.
  intros H. unfold Cleanup.script, Cleanup.clean_docker.
  apply String.eqb_neq in H.
  unfold bind, input, print, emit, ret, sys_exit. simpl. rewrite H. reflexivity.
Qed.

(** C1, as the code has it: when the confirmation line, put in lower case,
    is not "yes", the process cancels and runs no command of the container
    engine.  That holds for every line with white space around it; the
    lines that do confirm are the eight spellings of "yes" in either
    case. *)
Theorem clean_docker_cancels (sh : Cleanup.shell) (line : string) :
  (Py.lower line <> "yes" ->
     Cleanup.cancels sh (Line line) /\ Cleanup.invoked sh (Line line) = []) /\
  (Py.strip line <> line -> Py.lower line <> "yes").
Proof.
  split.
  - intros H. unfold Cleanup.cancels, Cleanup.invoked.
    rewrite (clean_docker_declined sh line H). simpl. tauto.
  - intros Hs Hl. apply lower_yes in Hl. simpl in Hl.
    repeat (destruct Hl as [Hl|Hl]; [subst line; now apply Hs|]). exact Hl.
Qed.

Lemma clean_docker_cancels_witness :
  Py.lower " yes" <> "yes" /\
  Cleanup.cancels Cleanup.idle_engine (Line " yes") /\
  Cleanup.invoked Cleanup.idle_engine (Line " yes") = [].
Proof.
  destruct (clean_docker_cancels Cleanup.idle_engine " yes") as [Hcancel Hpadded].
  assert (H : Py.lower " yes" <> "yes") by (apply Hpadded; vm_compute; discriminate).
  split; [exact H | exact (Hcancel H)].
Defined.

(** With the exact string "yes" in place of its lower case the property
    fails: "YES" is not the string "yes", and the tool runs the engine on
    it. *)
Lemma clean_docker_upper_case_confirms :
  "YES" <> "yes" /\
  ~ Cleanup.cancels Cleanup.idle_engine (Line "YES") /\
  Cleanup.invoked Cleanup.idle_engine (Line "YES")
  = ["docker ps -aq"; "docker ps -aq"; "docker images -q"; "docker volume ls -q";
     "docker network prune -f"].
Proof.
  split; [discriminate|]. split; [|reflexivity].
  intros [H _]. vm_compute in H. discriminate H.
Qed.

(** ** Runs, step by step *)

Lemma run_bind {S A B} (m : M S A) (f : A -> M S B) (s : S) :
  run (bind m f) s
  = match run m s with
    | (Ok a, s1) => run (f a) s1
    | (Exit c, s1) => (Exit c, s1)
    | (Raise x, s1) => (Raise x, s1)
    end.
Proof.
  unfold run, result_of, state_of, bind.
  destruct (m s) as [[[a|c|x] s1] o1]; simpl; auto.
  destruct (f a s1) as [[r s2] o2]. reflexivity.
Qed.

Lemma run_ret {S A} (a : A) (s : S) : run (ret a) s = (Ok a, s).
Proof. reflexivity. Qed.

Lemma run_get {S} (s : S) : run get s = (Ok s, s).
Proof. reflexivity. Qed.

Lemma run_sys_exit {S A} (c : Z) (s : S) : run (@sys_exit S A c) s = (Exit c, s).
Proof. reflexivity. Qed.

Lemma run_raise {S A} (x : exn) (s : S) : run (@raise S A x) s = (Raise x, s).
Proof. reflexivity. Qed.

Lemma run_emit {S} (ev : event) (s : S) : run (emit ev) s = (Ok tt, s).
Proof. reflexivity. Qed.

Lemma run_print {S} (line : string) (s : S) : run (print line) s = (Ok tt, s).
Proof. reflexivity. Qed.

Lemma run_log_at (level : Z) (msg : string) (s : state) : run (log_at level msg) s = (Ok tt, s).
Proof.
  unfold run, result_of, state_of, log_at, bind, get, emit, ret. simpl.
  destruct (root_level s <=? level); reflexivity.
Qed.

Lemma run_set_fs (tree : node) (s : state) : run (set_fs tree) s = (Ok tt, with_fs s tree).
Proof. reflexivity. Qed.

Lemma run_try_except {S A} (m : M S A) (handler : exn -> option (M S A)) (s : S) :
  run (try_except m handler) s
  = match run m s with
    | (Raise x, s1) =>
        match handler x with
        | Some h => run h s1
        | None => (Raise x, s1)
        end
    | other => other
    end.
Proof.
  unfold run, result_of, state_of, try_except.
  destruct (m s) as [[[a|c|x] s1] o1]; simpl; auto.
  destruct (handler x) as [h|]; simpl; auto.
  destruct (h s1) as [[r s2] o2]. reflexivity.
Qed.

Lemma run_path_exists (p : Path) (s : state) :
  run (path_exists p) s
  = (Ok (match lookup (fs s) p with Some _ => true | None => false end), s).
Proof. reflexivity. Qed.

Lemma run_path_is_dir (p : Path) (s : state) :
  run (path_is_dir p) s = (Ok (is_dir (fs s) p), s).
Proof. reflexivity. Qed.

Ltac run_step :=
  first
    [ rewrite run_bind | rewrite run_ret | rewrite run_get | rewrite run_sys_exit
    | rewrite run_raise | rewrite run_emit | rewrite run_print | rewrite run_log_at
    | rewrite run_set_fs | rewrite run_try_except | rewrite run_path_exists
    | rewrite run_path_is_dir ];
  cbv beta iota.

Ltac run_all :=
  unfold log_debug, log_info, log_warning, log_error in *;
  repeat run_step.


(** ** Steps that leave the tree alone *)

Lemma keeps_bind {A B} (m : M state A) (f : A -> M state B) :
  keeps_tree m -> (forall a, keeps_tree (f a)) -> keeps_tree (bind m f).
Proof.
  intros Hm Hf s. specialize (Hm s). unfold state_of, bind in *.
  destruct (m s) as [[[a|c|x] s1] o1]; simpl in *; auto.
  specialize (Hf a s1). unfold state_of in Hf.
  destruct (f a s1) as [[r s2] o2]. simpl in *. congruence.
Qed.

Lemma keeps_quiet {A} (m : M state A) : quiet m -> keeps_tree m.
Proof. intros H s. destruct (H s) as (a & o & E). now rewrite E. Qed.

Lemma keeps_ret {A} (a : A) : keeps_tree (ret a).
Proof. intros s. reflexivity. Qed.

Lemma keeps_get : keeps_tree get.
Proof. intros s. reflexivity. Qed.

Lemma keeps_sys_exit {A} (c : Z) : keeps_tree (@sys_exit state A c).
Proof. intros s. reflexivity. Qed.

Lemma keeps_raise {A} (x : exn) : keeps_tree (@raise state A x).
Proof. intros s. reflexivity. Qed.

Lemma keeps_set_level (level : Z) : keeps_tree (set_level level).
Proof. intros s. reflexivity. Qed.

Lemma keeps_for_each {A} (l : list A) (body : A -> M state unit) :
  (forall x, keeps_tree (body x)) -> keeps_tree (for_each l body).
Proof.
  intros H. induction l as [|x r IH]; simpl.
  - apply keeps_ret.
  - apply keeps_bind; auto.
Qed.

(** Breaks a process into its steps; what remains are the steps that write
    to the tree. *)
Ltac keeps_step :=
  first
    [ apply keeps_ret | apply keeps_get | apply keeps_sys_exit | apply keeps_raise
    | apply keeps_set_level
    | apply keeps_quiet; solve [auto with quiet]
    | apply keeps_bind; [|intros ?]
    | apply keeps_for_each; intros ?
    | match goal with
      | |- keeps_tree (if ?b then _ else _) => destruct b
      | |- keeps_tree (match ?x with _ => _ end) => destruct x
      | |- keeps_tree (let '(_, _) := ?x in _) => destruct x
      end ].

Ltac keeps := repeat keeps_step.

Lemma keeps_path_exists (p : Path) : keeps_tree (path_exists p).
Proof. unfold path_exists. keeps. Qed.

Lemma keeps_path_is_dir (p : Path) : keeps_tree (path_is_dir p).
Proof. unfold path_is_dir. keeps. Qed.

Lemma keeps_read_text (p : Path) : keeps_tree (read_text p).
Proof. unfold read_text. keeps. Qed.

Lemma keeps_configure_logging (level : string) : keeps_tree (_configure_logging level).
Proof. unfold _configure_logging. keeps. Qed.

Lemma keeps_validate_environment (e : env) (template_dir : Path) :
  keeps_tree (validate_environment e template_dir).
Proof.
  unfold validate_environment. keeps; auto using keeps_path_is_dir, keeps_path_exists.
Qed.

Lemma keeps_print_summary (d t : string) : keeps_tree (print_summary d t).
Proof. unfold print_summary. keeps. Qed.

(** In a dry run no step writes. *)

Lemma dry_handle_existing_target (e : env) (target_dir : Path) (force : bool) :
  keeps_tree (handle_existing_target e target_dir force true).
Proof. unfold handle_existing_target. keeps; apply keeps_path_exists. Qed.

Lemma dry_copy_template (e : env) (template_dir target_dir : Path) :
  keeps_tree (copy_template e template_dir target_dir true).
Proof. unfold copy_template. keeps. Qed.

Lemma dry_replace_in_file (e : env) (filepath : Path) (replacements : list (string * string)) :
  keeps_tree (_replace_in_file e filepath replacements true).
Proof.
  unfold _replace_in_file. keeps; auto using keeps_path_exists, keeps_read_text.
Qed.

Lemma dry_chown_recursive (e : env) (path : Path) (uid gid : Z) :
  keeps_tree (_chown_recursive e path uid gid true).
Proof. unfold _chown_recursive. keeps. Qed.

Lemma dry_set_permissions (e : env) (target_dir : Path) :
  keeps_tree (set_permissions e target_dir true).
Proof. unfold set_permissions. keeps; apply dry_chown_recursive. Qed.

(** ** The command line and the logger *)

(** [parse_args] either rejects the command line with status 2 or returns
    the namespace of an accepted one. *)
Lemma parse_args_accepted (argv : cmdline) :
  accepted argv ->
  exists level,
    Py.str_in level LOG_LEVEL_CHOICES = true /\
    forall s,
      parse_args argv s
      = (Ok {| domain := domain_of argv;
               locale := match arg_locale argv with Some l => l | None => "en" end;
               email := arg_email argv;
               force := arg_force argv;
               dry_run := arg_dry_run argv;
               log_level := level |}, s, []).
Proof.
  intros [Hd Hl]. unfold parse_args, domain_of.
  destruct (arg_domain argv) as [d|] eqn:Ed; [|congruence].
  destruct (arg_log_level argv) as [l|] eqn:El.
  - exists l. specialize (Hl l eq_refl). split; [exact Hl|]. intros s.
    unfold bind, ret. rewrite Hl. reflexivity.
  - exists "INFO". split; reflexivity.
Qed.

Lemma parse_args_rejected (argv : cmdline) (s : state) :
  ~ accepted argv ->
  exists msg, parse_args argv s = (Exit 2, s, [Stderr msg]).
Proof.
  intros H. unfold parse_args, parser_error.
  destruct (arg_log_level argv) as [l|] eqn:El.
  - destruct (Py.str_in l LOG_LEVEL_CHOICES) eqn:Ein.
    + destruct (arg_domain argv) as [d|] eqn:Ed.
      * exfalso. apply H. split; [congruence|]. intros l' Hl'. congruence.
      * eexists. reflexivity.
    + eexists. reflexivity.
  - destruct (arg_domain argv) as [d|] eqn:Ed.
    + exfalso. apply H. split; [congruence|]. intros l' Hl'. congruence.
    + eexists. reflexivity.
Qed.

Lemma accepted_dec (argv : cmdline) : accepted argv \/ ~ accepted argv.
Proof.
  unfold accepted.
  destruct (arg_domain argv) as [d|]; [|right; intros [H _]; congruence].
  destruct (arg_log_level argv) as [l|].
  - destruct (Py.str_in l LOG_LEVEL_CHOICES) eqn:E.
    + left. split; [discriminate|]. intros l' Hl'. congruence.
    + right. intros [_ H]. specialize (H l eq_refl). congruence.
  - left. split; [discriminate|]. intros l' Hl'. discriminate.
Qed.

(** Each of the four choices is a level of the logging module, at most
    ERROR. *)
Lemma configure_logging_choice (level : string) :
  Py.str_in level LOG_LEVEL_CHOICES = true ->
  exists numeric,
    numeric <= ERROR /\
    forall s,
      _configure_logging level s = (Ok tt, {| fs := fs s; root_level := numeric |}, []).
Proof.
  intros H. unfold Py.str_in, LOG_LEVEL_CHOICES in H. simpl in H.
  repeat (apply orb_true_iff in H; destruct H as [H|H]); try discriminate;
    apply String.eqb_eq in H; subst level.
  - exists DEBUG. split; [unfold DEBUG, ERROR; lia | reflexivity].
  - exists INFO. split; [unfold INFO, ERROR; lia | reflexivity].
  - exists WARNING. split; [unfold WARNING, ERROR; lia | reflexivity].
  - exists ERROR. split; [lia | reflexivity].
Qed.

(** ** The whole invocation *)

(** The block around [main] turns its result into the exit status and
    writes nothing to the tree. *)
Lemma script_of_main (e : env) (argv : cmdline) (s : state) :
  exit_status (result_of (script e argv s)) = main_status (result_of (main e argv s)) /\
  fs (state_of (script e argv s)) = fs (state_of (main e argv s)).
Proof.
  unfold script, try_except, bind, sys_exit, result_of, state_of.
  destruct (main e argv s) as [[[c|c|x] s1] o1]; simpl; auto.
  destruct x; simpl; unfold log_error, log_at, emit, bind, get, ret;
    simpl; try destruct (root_level s1 <=? ERROR); simpl; auto.
Qed.

Lemma main_rejected (e : env) (argv : cmdline) (s : state) :
  ~ accepted argv ->
  result_of (main e argv s) = Exit 2 /\ state_of (main e argv s) = s.
Proof.
  intros H. destruct (parse_args_rejected argv s H) as [msg E].
  unfold main. rewrite (bind_exit _ _ _ _ _ _ E). split; reflexivity.
Qed.

(** C2: with the dry-run flag, whatever the command line, the tree and the
    process, the tree after the run is the tree before it: the destination
    directory, the template and all the rest, in existence, contents and
    owners, through collision handling, copy, the three substitutions and
    both ownership passes. *)
Theorem dry_run_keeps_tree (e : env) (argv : cmdline) (tree : node) :
  arg_dry_run argv = true -> tree_after e argv tree = tree.
Proof.
  intros Hdry. unfold tree_after, deploy.
  rewrite (proj2 (script_of_main e argv (initial tree))).
  change tree with (fs (initial tree)) at 2. generalize (initial tree). intros s.
  destruct (accepted_dec argv) as [Ha|Hr].
  - destruct (parse_args_accepted argv Ha) as (level & _ & E).
    unfold main. rewrite (bind_ok _ _ _ _ _ _ (E s)). unfold state_of at 1. cbn [fst snd].
    cbn [domain locale email force dry_run log_level]. rewrite Hdry.
    match goal with |- fs (state_of (?m s)) = _ => enough (keeps_tree m) as K by apply K end.
    unfold configure_env, configure_config_inc, configure_compose.
    keeps; auto using keeps_configure_logging, keeps_validate_environment,
      dry_handle_existing_target, dry_copy_template, dry_replace_in_file,
      dry_set_permissions.
  - now rewrite (proj2 (main_rejected e argv s Hr)).
Qed.

Lemma dry_run_keeps_tree_witness :
  tree_after (Sample.root EndOfInput)
    (Sample.args "journal1.example.com" true true None) Sample.deployed
  = Sample.deployed.
Proof.
  apply (dry_run_keeps_tree (Sample.root EndOfInput)
           (Sample.args "journal1.example.com" true true None) Sample.deployed).
  reflexivity.
Defined.


(** An accepted command line reaches the steps with the tree it started
    from and a logger that lets errors through; the level of the logger
    comes from the command line alone. *)
Lemma main_accepted (e : env) (argv : cmdline) :
  accepted argv ->
  exists numeric,
    numeric <= ERROR /\
    forall s,
      run (main e argv) s = run (steps e argv) {| fs := fs s; root_level := numeric |}.
Proof.
  intros Ha. destruct (parse_args_accepted argv Ha) as (level & Hl & E).
  destruct (configure_logging_choice level Hl) as (numeric & Hn & C).
  exists numeric. split; [exact Hn|]. intros s.
  unfold main. rewrite run_bind. unfold run at 1. rewrite E.
  unfold result_of, state_of. cbv beta iota. cbn [fst snd].
  cbn [domain locale email force dry_run log_level].
  rewrite run_bind. unfold run at 1. rewrite C.
  unfold result_of, state_of. cbv beta iota. cbn [fst snd].
  unfold log_debug.
  do 8 (rewrite run_bind, run_log_at; cbv beta iota).
  reflexivity.
Qed.

Lemma deploy_run (e : env) (argv : cmdline) :
  accepted argv ->
  exists numeric,
    numeric <= ERROR /\
    forall tree,
      exit_code e argv tree
      = main_status (fst (run (steps e argv) {| fs := tree; root_level := numeric |})) /\
      tree_after e argv tree
      = fs (snd (run (steps e argv) {| fs := tree; root_level := numeric |})).
Proof.
  intros Ha. destruct (main_accepted e argv Ha) as (numeric & Hn & Hr).
  exists numeric. split; [exact Hn|]. intros tree. unfold exit_code, tree_after, deploy.
  destruct (script_of_main e argv (initial tree)) as [-> ->].
  specialize (Hr (initial tree)).
  change (fs (initial tree)) with tree in Hr. rewrite <- Hr. split; reflexivity.
Qed.

Lemma exit_code_run (e : env) (argv : cmdline) (tree : node) :
  accepted argv ->
  exists numeric,
    numeric <= ERROR /\
    exit_code e argv tree
    = main_status (fst (run (steps e argv) {| fs := tree; root_level := numeric |})) /\
    tree_after e argv tree
    = fs (snd (run (steps e argv) {| fs := tree; root_level := numeric |})).
Proof.
  intros Ha. destruct (deploy_run e argv Ha) as (numeric & Hn & H).
  exists numeric. split; [exact Hn | apply H].
Qed.

Lemma tree_after_rejected (e : env) (argv : cmdline) (tree : node) :
  ~ accepted argv -> tree_after e argv tree = tree.
Proof.
  intros Hr. unfold tree_after, deploy.
  rewrite (proj2 (script_of_main e argv (initial tree))).
  now rewrite (proj2 (main_rejected e argv (initial tree) Hr)).
Qed.

(** C3, as the code has it: a log level outside the four choices is
    rejected by the argument parser, whose error status is 2, before
    [_configure_logging] and its status 1 are reached; the tree is not
    touched. *)
Theorem invalid_log_level_exits_2 (e : env) (argv : cmdline) (tree : node) (level : string) :
  arg_log_level argv = Some level ->
  Py.str_in level LOG_LEVEL_CHOICES = false ->
  exit_code e argv tree = 2 /\ tree_after e argv tree = tree.
Proof.
  intros Hl Hc. unfold exit_code, tree_after, deploy.
  destruct (script_of_main e argv (initial tree)) as [-> ->].
  assert (Hr : ~ accepted argv).
  { intros [_ H]. specialize (H level Hl). congruence. }
  destruct (main_rejected e argv (initial tree) Hr) as [-> ->]. split; reflexivity.
Qed.

Lemma invalid_log_level_witness :
  exit_code (Sample.root EndOfInput)
    (Sample.args "journal1.example.com" false false (Some "TRACE")) Sample.fresh = 2 /\
  tree_after (Sample.root EndOfInput)
    (Sample.args "journal1.example.com" false false (Some "TRACE")) Sample.fresh
  = Sample.fresh.
Proof.
  apply (invalid_log_level_exits_2 (Sample.root EndOfInput)
           (Sample.args "journal1.example.com" false false (Some "TRACE"))
           Sample.fresh "TRACE"); reflexivity.
Defined.

(** The check of [_configure_logging] itself gives the user-error status. *)
Lemma configure_logging_invalid (level : string) (s : state) :
  logging_attr (Py.upper level) = None ->
  _configure_logging level s
  = (Exit EXIT_USER_ERROR, s, [Stderr ("Invalid log level: " ++ level)]).
Proof. intros H. unfold _configure_logging. rewrite H. reflexivity. Qed.

(** ** Privilege *)

Lemma group_names_no_admin (db : Z -> option string) (gids : list Z) (names : list string) :
  group_names db gids = Some names ->
  (forall g, In g gids -> db g <> Some "sudo" /\ db g <> Some "wheel") ->
  existsb (fun name => Py.str_in name ["sudo"; "wheel"]) names = false.
Proof.
  revert names. induction gids as [|g r IH]; intros names H Hno; simpl in H.
  - injection H as <-. reflexivity.
  - destruct (db g) as [name|] eqn:Eg; [|discriminate].
    destruct (group_names db r) as [rest|]; [|discriminate].
    injection H as <-. cbn [existsb].
    rewrite (IH rest eq_refl) by (intros g' Hg'; apply Hno; now right).
    destruct (Hno g (or_introl eq_refl)) as [Hs Hw].
    unfold Py.str_in. cbn [existsb]. rewrite !orb_false_r.
    apply orb_false_iff; split; apply String.eqb_neq; congruence.
Qed.

(** A principal that is neither the superuser nor in the sudo or wheel
    group has no privilege for [_has_privilege]. *)
Lemma has_privilege_unprivileged (e : env) : unprivileged e -> _has_privilege e = false.
Proof.
  intros [Hu Hm]. unfold _has_privilege.
  destruct (Z.eqb_spec (euid e) 0) as [E|_]; [contradiction|].
  destruct (group_names (getgrgid e) (getgroups e)) as [names|] eqn:G; [|reflexivity].
  apply (group_names_no_admin _ _ _ G).
  intros g Hg. split; intros H; apply Hm; exists g; tauto.
Qed.

Lemma log_error_enabled (msg : string) (s : state) :
  root_level s <= ERROR -> log_error msg s = (Ok tt, s, [Log ERROR msg]).
Proof.
  intros H. apply Z.leb_le in H.
  unfold log_error, log_at, bind, get. cbv beta iota. rewrite H. reflexivity.
Qed.

(** C6: run by a principal that is neither the superuser nor in an
    administrative group, the ownership step exits with status 2, changes
    nothing, and writes, after the two lines that say so, the two commands
    to run by hand: chown -R 33:33 on the volumes directory and
    chown -R 999:999 on the database directory.  (Error records are
    enabled at each of the four log levels of the command line.) *)
Theorem set_permissions_unprivileged (e : env) (target_dir : Path) (dry : bool) (s : state) :
  unprivileged e ->
  root_level s <= ERROR ->
  set_permissions e target_dir dry s
  = (Exit 2, s,
     [ Log ERROR "Access denied: You must be root or a member of the sudo/wheel group.";
       Log ERROR "Please manually run:";
       Log ERROR ("  chown -R 33:33 " ++ str_path e (target_dir ++ ["volumes"])%list);
       Log ERROR ("  chown -R 999:999 " ++ str_path e (target_dir ++ ["volumes"; "db"])%list) ]).
Proof.
  intros Hu Hl. unfold set_permissions. rewrite (has_privilege_unprivileged e Hu).
  cbn [negb]. unfold bind.
  rewrite !(log_error_enabled _ s Hl). rewrite <- app_assoc. reflexivity.
Qed.

Lemma guest_unprivileged (answer : reply) : unprivileged (Sample.guest answer).
Proof.
  split; [discriminate|].
  intros (g & Hg & H). simpl in Hg. destruct Hg as [<-|[]].
  destruct H as [H|H]; discriminate H.
Qed.

Lemma set_permissions_unprivileged_witness :
  set_permissions (Sample.guest EndOfInput) ["journal1"] false (initial Sample.deployed)
  = (Exit 2, initial Sample.deployed,
     [ Log ERROR "Access denied: You must be root or a member of the sudo/wheel group.";
       Log ERROR "Please manually run:";
       Log ERROR "  chown -R 33:33 /srv/ojs/journal1/volumes";
       Log ERROR "  chown -R 999:999 /srv/ojs/journal1/volumes/db" ]).
Proof.
  apply (set_permissions_unprivileged (Sample.guest EndOfInput) ["journal1"] false
           (initial Sample.deployed)).
  - apply guest_unprivileged.
  - vm_compute. discriminate.
Defined.

(** ** Results that are not a success *)

Lemma exits_nonzero_bind {A B} (m : M state A) (f : A -> M state B) :
  exits_nonzero m -> (forall a, exits_nonzero (f a)) -> exits_nonzero (bind m f).
Proof.
  intros Hm Hf s. specialize (Hm s). unfold result_of, bind in *.
  destruct (m s) as [[[a|c|x] s1] o1]; simpl in *; auto.
  specialize (Hf a s1). unfold result_of in Hf.
  destruct (f a s1) as [[r s2] o2]. exact Hf.
Qed.

Lemma exits_nonzero_quiet {A} (m : M state A) : quiet m -> exits_nonzero m.
Proof. intros H s. destruct (H s) as (a & o & E). now rewrite E. Qed.

Lemma exits_nonzero_ret {A} (a : A) : exits_nonzero (ret a).
Proof. intros s. exact I. Qed.

Lemma exits_nonzero_get : exits_nonzero get.
Proof. intros s. exact I. Qed.

Lemma exits_nonzero_raise {A} (x : exn) : exits_nonzero (@raise state A x).
Proof. intros s. exact I. Qed.

Lemma exits_nonzero_set_level (level : Z) : exits_nonzero (set_level level).
Proof. intros s. exact I. Qed.

Lemma exits_nonzero_sys_exit {A} (c : Z) : c <> 0 -> exits_nonzero (@sys_exit state A c).
Proof. intros H s. exact H. Qed.

Lemma fails_bind_l {A B} (m : M state A) (f : A -> M state B) :
  fails m -> fails (bind m f).
Proof.
  intros Hm s. specialize (Hm s). unfold result_of, bind in *.
  destruct (m s) as [[[a|c|x] s1] o1]; simpl in *; tauto.
Qed.

Lemma fails_bind_r {A B} (m : M state A) (f : A -> M state B) :
  exits_nonzero m -> (forall a, fails (f a)) -> fails (bind m f).
Proof.
  intros Hm Hf s. specialize (Hm s). unfold result_of, bind in *.
  destruct (m s) as [[[a|c|x] s1] o1]; simpl in *; auto.
  specialize (Hf a s1). unfold result_of in Hf.
  destruct (f a s1) as [[r s2] o2]. exact Hf.
Qed.

Ltac nonzero_step :=
  first
    [ apply exits_nonzero_ret | apply exits_nonzero_get | apply exits_nonzero_raise
    | apply exits_nonzero_set_level
    | apply exits_nonzero_sys_exit; discriminate
    | apply exits_nonzero_quiet; solve [auto with quiet]
    | apply exits_nonzero_bind; [|intros ?]
    | match goal with
      | |- exits_nonzero (if ?b then _ else _) => destruct b
      | |- exits_nonzero (match ?x with _ => _ end) => destruct x
      | |- exits_nonzero (let '(_, _) := ?x in _) => destruct x
      end ].

Ltac nonzero := repeat nonzero_step.

Lemma exits_nonzero_for_each {A} (l : list A) (body : A -> M state unit) :
  (forall x, exits_nonzero (body x)) -> exits_nonzero (for_each l body).
Proof.
  intros H. induction l as [|x r IH]; simpl; nonzero; auto.
Qed.

Lemma exits_nonzero_path_exists (p : Path) : exits_nonzero (path_exists p).
Proof. unfold path_exists. nonzero. Qed.

Lemma exits_nonzero_validate_environment (e : env) (template_dir : Path) :
  exits_nonzero (validate_environment e template_dir).
Proof.
  unfold validate_environment, path_is_dir.
  nonzero; try (apply exits_nonzero_for_each; intros name; nonzero);
    try apply exits_nonzero_path_exists.
Qed.

Lemma exits_nonzero_dry_handle (e : env) (target_dir : Path) (force : bool) :
  exits_nonzero (handle_existing_target e target_dir force true).
Proof. unfold handle_existing_target. nonzero; try apply exits_nonzero_path_exists. Qed.

Lemma exits_nonzero_dry_copy (e : env) (template_dir target_dir : Path) :
  exits_nonzero (copy_template e template_dir target_dir true).
Proof. unfold copy_template. nonzero. Qed.

Lemma exits_nonzero_dry_replace (e : env) (filepath : Path)
    (replacements : list (string * string)) :
  exits_nonzero (_replace_in_file e filepath replacements true).
Proof.
  unfold _replace_in_file, read_text. nonzero; try apply exits_nonzero_path_exists.
Qed.

(** Without privilege the ownership step leaves with status 2 before it
    looks at the dry-run flag. *)
Lemma set_permissions_exit_2 (e : env) (target_dir : Path) (dry : bool) (s : state) :
  _has_privilege e = false ->
  result_of (set_permissions e target_dir dry s) = Exit EXIT_PERMISSION_ERROR /\
  state_of (set_permissions e target_dir dry s) = s.
Proof.
  intros H.
  assert (R : run (set_permissions e target_dir dry) s = (Exit EXIT_PERMISSION_ERROR, s)).
  { unfold set_permissions. rewrite H. cbn [negb]. run_all. reflexivity. }
  split; [exact (f_equal fst R) | exact (f_equal snd R)].
Qed.

(** C10: for a principal that is neither the superuser nor in an
    administrative group, the ownership step exits with status 2 also when
    the dry-run flag is set, and no dry-run invocation of the deployer by
    that principal ends with status 0. *)
Theorem dry_run_unprivileged_fails (e : env) :
  unprivileged e ->
  (forall target_dir s,
     result_of (set_permissions e target_dir true s) = Exit EXIT_PERMISSION_ERROR) /\
  (forall argv tree, arg_dry_run argv = true -> exit_code e argv tree <> 0).
Proof.
  intros Hu. pose proof (has_privilege_unprivileged e Hu) as Hp. split.
  - intros target_dir s. apply (set_permissions_exit_2 e target_dir true s Hp).
  - intros argv tree Hdry. unfold exit_code, deploy.
    destruct (accepted_dec argv) as [Ha|Hr].
    + fold (deploy e argv tree). fold (exit_code e argv tree).
      destruct (exit_code_run e argv tree Ha) as (numeric & _ & -> & _).
      change (fst (run ?m ?s)) with (result_of (m s)).
      match goal with |- main_status (result_of (?m ?s)) <> 0 =>
        enough (F : fails m) by
          (specialize (F s); destruct (result_of (m s)); simpl in *; [tauto | exact F | discriminate])
      end.
      unfold steps, materialize, finish. cbv zeta. rewrite Hdry.
      unfold configure_env, configure_config_inc, configure_compose.
      repeat (apply fails_bind_r;
              [solve [auto using exits_nonzero_validate_environment, exits_nonzero_dry_handle,
                        exits_nonzero_dry_copy, exits_nonzero_dry_replace,
                        exits_nonzero_quiet with quiet] | intros _]).
      apply fails_bind_l. intros s.
      rewrite (proj1 (set_permissions_exit_2 e _ true s Hp)). discriminate.
    + rewrite (proj1 (script_of_main e argv (initial tree))).
      rewrite (proj1 (main_rejected e argv (initial tree) Hr)). discriminate.
Qed.

Lemma dry_run_unprivileged_witness :
  result_of (set_permissions (Sample.guest EndOfInput) ["journal1"] true (initial Sample.fresh))
  = Exit EXIT_PERMISSION_ERROR /\
  exit_code (Sample.guest EndOfInput)
    (Sample.args "journal1.example.com" false true None) Sample.fresh <> 0.
Proof.
  destruct (dry_run_unprivileged_fails (Sample.guest EndOfInput)
              (guest_unprivileged EndOfInput)) as [Hstep Hrun].
  split.
  - apply Hstep.
  - apply Hrun. reflexivity.
Defined.

(** ** Validation of the template *)

Lemma run_validate_environment (e : env) (template_dir : Path) (s : state) :
  run (validate_environment e template_dir) s
  = (if is_dir (fs s) template_dir then Ok tt else Exit EXIT_USER_ERROR, s).
Proof.
  unfold validate_environment. rewrite run_bind, run_path_is_dir. cbv beta iota.
  destruct (is_dir (fs s) template_dir); cbn [negb]; cbv iota.
  - unfold for_each.
    repeat first
      [ progress run_all
      | match goal with
        | |- context [lookup (fs s) ?p] => destruct (lookup (fs s) p)
        end
      | progress cbn [negb]
      | progress cbv iota ];
    reflexivity.
  - run_all. reflexivity.
Qed.

(** What a successful validation writes: for each of .env and compose.yml,
    in that order, the warning of the file when it is missing. *)
Lemma validate_environment_output (e : env) (template_dir : Path) (s : state) :
  is_dir (fs s) template_dir = true ->
  output_of (validate_environment e template_dir s)
  = (missing_warning e s template_dir ".env"
     ++ missing_warning e s template_dir "compose.yml")%list.
Proof.
  intros H. unfold is_dir in H. unfold missing_warning.
  destruct (lookup (fs s) (template_dir ++ [".env"])%list) eqn:E1,
           (lookup (fs s) (template_dir ++ ["compose.yml"])%list) eqn:E2,
           (root_level s <=? WARNING) eqn:E3;
    unfold validate_environment, path_is_dir, path_exists, log_warning, log_at,
      for_each, bind, get, ret, emit, output_of;
    simpl; rewrite H; simpl; rewrite ?E1; simpl; rewrite ?E3; simpl; rewrite ?E2; simpl;
    rewrite ?E3; reflexivity.
Qed.

(** C4, as the code has it: when the template directory itself is missing,
    an accepted invocation exits with status 1 and leaves the tree as it
    is; when the directory is there, validation returns with the state as
    it is whether or not .env and compose.yml are in it; what it writes is
    exactly one warning for each of the two files that is missing, in
    that order (none where the level of the logger is above WARNING), and
    the run goes on with the collision handling. *)
Theorem template_validation (e : env) (argv : cmdline) (tree : node) :
  accepted argv ->
  (is_dir tree [TEMPLATE_DIR] = false ->
     exit_code e argv tree = 1 /\ tree_after e argv tree = tree) /\
  (is_dir tree [TEMPLATE_DIR] = true ->
     forall s, fs s = tree ->
       run (validate_environment e [TEMPLATE_DIR]) s = (Ok tt, s) /\
       output_of (validate_environment e [TEMPLATE_DIR] s)
       = (missing_warning e s [TEMPLATE_DIR] ".env"
          ++ missing_warning e s [TEMPLATE_DIR] "compose.yml")%list /\
       run (steps e argv) s
       = run (handle_existing_target e (target_of argv) (arg_force argv) (arg_dry_run argv) ;;
              materialize e argv (arg_dry_run argv)) s).
Proof.
  intros Ha. split.
  - intros H. destruct (exit_code_run e argv tree Ha) as (numeric & _ & -> & ->).
    unfold steps. rewrite run_bind, run_validate_environment. cbn [fs]. rewrite H.
    split; reflexivity.
  - intros H s <-. split; [|split].
    + rewrite run_validate_environment, H. reflexivity.
    + now apply validate_environment_output.
    + unfold steps, target_of. cbv zeta.
      rewrite run_bind, run_validate_environment, H. reflexivity.
Qed.

Lemma accepted_sample (d : string) (f dry : bool) : accepted (Sample.args d f dry None).
Proof. split; [discriminate|]. intros l H. discriminate H. Qed.

Lemma template_validation_witness :
  (exit_code (Sample.root EndOfInput) (Sample.args "journal1.example.com" false false None)
     (Dir (0, 0) []) = 1 /\
   tree_after (Sample.root EndOfInput) (Sample.args "journal1.example.com" false false None)
     (Dir (0, 0) []) = Dir (0, 0) []) /\
  output_of (validate_environment (Sample.root EndOfInput) [TEMPLATE_DIR]
               (initial Sample.bare))
  = [Log WARNING "Expected template file missing: /srv/ojs/journal/.env";
     Log WARNING "Expected template file missing: /srv/ojs/journal/compose.yml"].
Proof.
  split.
  - apply (proj1 (template_validation (Sample.root EndOfInput)
                    (Sample.args "journal1.example.com" false false None) (Dir (0, 0) [])
                    (accepted_sample _ _ _))).
    reflexivity.
  - destruct (proj2 (template_validation (Sample.root EndOfInput)
                       (Sample.args "journal1.example.com" false false None) Sample.bare
                       (accepted_sample _ _ _)) eq_refl (initial Sample.bare) eq_refl)
      as (_ & H & _).
    exact H.
Defined.

(** A missing marker file does not stop the run: the template has neither .env nor
    compose.yml, and the deployment ends with status 0. *)
Lemma missing_markers_deploys :
  lookup Sample.bare [TEMPLATE_DIR; ".env"] = None /\
  lookup Sample.bare [TEMPLATE_DIR; "compose.yml"] = None /\
  exit_code (Sample.root EndOfInput) (Sample.args "journal1.example.com" true false None)
    Sample.bare = 0.
Proof. repeat split; reflexivity. Qed.

(** ** The overwrite prompt *)

Lemma run_input {S} (answer : reply) (prompt : string) (s : S) :
  run (input answer prompt) s
  = (match answer with
     | Line l => Ok l
     | EndOfInput => Raise EOFError
     | Interrupt => Raise KeyboardInterrupt
     end, s).
Proof. unfold input. run_all. destruct answer; reflexivity. Qed.

(** Without --force and --dry-run, on a target that exists, an answer that
    declines ends the step with status 1 and the state it started from. *)
Lemma run_handle_declined (e : env) (target_dir : Path) (s : state) :
  lookup (fs s) target_dir <> None ->
  declines (stdin e) ->
  run (handle_existing_target e target_dir false false) s = (Exit EXIT_USER_ERROR, s).
Proof.
  intros Hex Hno. unfold handle_existing_target.
  rewrite run_bind, run_path_exists. cbv beta iota.
  destruct (lookup (fs s) target_dir) as [n|]; [|congruence].
  cbn [negb]. cbv iota. run_all. rewrite run_input.
  destruct (stdin e) as [l| |]; cbv beta iota.
  - run_all. cbv beta iota delta [declines] in Hno. rewrite Hno. cbn [negb]. run_all. reflexivity.
  - run_all. reflexivity.
  - run_all. reflexivity.
Qed.

(** C5, as the code has it: without --force and --dry-run, when the
    destination exists, an answer that is not "y" or "yes" once its
    surrounding white space is stripped and it is put in lower case, as
    well as end of input or an interrupt at the prompt, makes the process
    exit with status 1, and the tree (the destination with it) is the one
    before. *)
Theorem overwrite_declined (e : env) (argv : cmdline) (tree : node) :
  accepted argv ->
  arg_force argv = false ->
  arg_dry_run argv = false ->
  lookup tree (target_of argv) <> None ->
  declines (stdin e) ->
  exit_code e argv tree = 1 /\ tree_after e argv tree = tree.
Proof.
  intros Ha Hf Hd Hex Hno.
  destruct (exit_code_run e argv tree Ha) as (numeric & _ & -> & ->).
  unfold steps, target_of in *. cbv zeta. rewrite Hf, Hd.
  rewrite run_bind, run_validate_environment. cbn [fs].
  destruct (is_dir tree [TEMPLATE_DIR]); cbv iota; [|split; reflexivity].
  rewrite run_bind.
  rewrite (run_handle_declined e _ {| fs := tree; root_level := numeric |} Hex Hno).
  split; reflexivity.
Qed.

Lemma overwrite_declined_witness :
  exit_code (Sample.root (Line "n")) (Sample.args "journal1.example.com" false false None)
    Sample.deployed = 1 /\
  tree_after (Sample.root (Line "n")) (Sample.args "journal1.example.com" false false None)
    Sample.deployed = Sample.deployed.
Proof.
  apply (overwrite_declined (Sample.root (Line "n"))
           (Sample.args "journal1.example.com" false false None) Sample.deployed).
  - apply accepted_sample.
  - reflexivity.
  - reflexivity.
  - vm_compute. discriminate.
  - reflexivity.
Defined.

(** Without the strip the property fails: " yes" is neither "y" nor "yes" in any
    case, yet the deployer takes it for a yes, removes the destination and
    deploys over it. *)
Lemma padded_yes_overwrites :
  Py.str_in (Py.lower " yes") ["y"; "yes"] = false /\
  exit_code (Sample.root (Line " yes")) (Sample.args "journal1.example.com" false false None)
    Sample.deployed = 0 /\
  data_at Sample.deployed ["journal1"; ".env"] = Some (Text "DOMAIN=old.example.com") /\
  data_at (tree_after (Sample.root (Line " yes"))
             (Sample.args "journal1.example.com" false false None) Sample.deployed)
    ["journal1"; ".env"]
  = Some (Text "DOMAIN=journal1.example.com EMAIL=admin@journal1.example.com DB_HOST=db-journal1").
Proof. repeat split; vm_compute; reflexivity. Qed.

(** ** The tree *)

(** Induction on a tree, with the hypothesis for every entry of a
    directory. *)
Lemma node_nested_ind (P : node -> Prop)
    (HF : forall o d, P (File o d))
    (HD : forall o es, Forall (fun e => P (snd e)) es -> P (Dir o es)) :
  forall n, P n.
Proof.
  fix IH 1. intros [o d|o es].
  - apply HF.
  - apply HD. induction es as [|e r IHr]; constructor; [apply IH | exact IHr].
Qed.

Lemma assoc_update_entry_same (x : string) (f : node -> node) (es : list (string * node)) :
  assoc x (update_entry x f es) = option_map f (assoc x es).
Proof.
  induction es as [|[y c] r IH]; simpl; [reflexivity|].
  destruct (String.eqb_spec y x) as [->|Hne]; simpl.
  - now rewrite String.eqb_refl.
  - destruct (String.eqb_spec y x); [contradiction | exact IH].
Qed.

Lemma assoc_update_entry_other (x y : string) (f : node -> node) (es : list (string * node)) :
  y <> x -> assoc y (update_entry x f es) = assoc y es.
Proof.
  intros Hne. induction es as [|[z c] r IH]; simpl; [reflexivity|].
  destruct (String.eqb_spec z x) as [->|Hzx]; simpl.
  - destruct (String.eqb_spec x y); [congruence | reflexivity].
  - destruct (String.eqb_spec z y); [reflexivity | exact IH].
Qed.

Lemma assoc_In (x : string) (c : node) (es : list (string * node)) :
  assoc x es = Some c -> In (x, c) es.
Proof.
  induction es as [|[y d] r IH]; simpl; [discriminate|].
  destruct (String.eqb_spec y x) as [->|_].
  - intros H. injection H as ->. now left.
  - intros H. right. now apply IH.
Qed.

Lemma lookup_app (t : node) (p r : Path) :
  lookup t (p ++ r)%list
  = match lookup t p with Some n => lookup n r | None => None end.
Proof.
  revert t. induction p as [|x p IH]; intros t; simpl; [reflexivity|].
  destruct t as [o d|o es]; [reflexivity|].
  destruct (assoc x es); [apply IH | reflexivity].
Qed.

Lemma lookup_alter_same (f : node -> node) (p : Path) (t : node) :
  lookup (alter f p t) p = option_map f (lookup t p).
Proof.
  revert t. induction p as [|x p IH]; intros t; simpl; [reflexivity|].
  destruct t as [o d|o es]; [reflexivity|].
  rewrite assoc_update_entry_same. destruct (assoc x es); simpl; [apply IH | reflexivity].
Qed.

(** A change of owner at [p] does not show in a shallow observation of any
    other path. *)
Lemma lookup_chown_other {A} (obs : node -> A) (o : owner) (p q : Path) (t : node) :
  shallow obs ->
  q <> p ->
  option_map obs (lookup (alter (set_owner o) p t) q) = option_map obs (lookup t q).
Proof.
  intros Hobs. revert t q. induction p as [|x p IH]; intros t q Hne.
  - destruct q as [|y q]; [congruence|]. simpl.
    destruct t as [d c|d es]; reflexivity.
  - destruct t as [d c|d es]; [reflexivity|].
    destruct q as [|y q]; simpl.
    + f_equal. apply Hobs.
    + destruct (String.eqb_spec y x) as [->|Hyx].
      * rewrite assoc_update_entry_same. destruct (assoc x es) as [c|]; simpl; [|reflexivity].
        apply IH. congruence.
      * now rewrite assoc_update_entry_other.
Qed.

Lemma shallow_owner_of : shallow owner_of.
Proof. intros d es es'. reflexivity. Qed.

Lemma shallow_is_dir_node : shallow is_dir_node.
Proof. intros d es es'. reflexivity. Qed.

Lemma owner_at_chown_same (o : owner) (p : Path) (t : node) :
  lookup t p <> None -> owner_at (alter (set_owner o) p t) p = Some o.
Proof.
  intros H. unfold owner_at. rewrite lookup_alter_same.
  destruct (lookup t p) as [[d c|d es]|]; [reflexivity | reflexivity | congruence].
Qed.

Lemma owner_at_chown_other (o : owner) (p q : Path) (t : node) :
  q <> p -> owner_at (alter (set_owner o) p t) q = owner_at t q.
Proof.
  intros H. pose proof (lookup_chown_other owner_of o p q t shallow_owner_of H) as E.
  unfold owner_at. destruct (lookup (alter (set_owner o) p t) q), (lookup t q);
    simpl in E; congruence.
Qed.

Lemma kind_at_chown (o : owner) (p q : Path) (t : node) :
  kind_at (alter (set_owner o) p t) q = kind_at t q.
Proof.
  unfold kind_at. destruct (list_eq_dec string_dec q p) as [->|Hne].
  - rewrite lookup_alter_same. destruct (lookup t p) as [[d c|d es]|]; reflexivity.
  - now apply lookup_chown_other; [apply shallow_is_dir_node|].
Qed.

Lemma wf_cons (d : owner) (e : string * node) (r : list (string * node)) :
  wf (Dir d (e :: r))
  = negb (existsb (fun e' => (fst e' =? fst e)%string) r) && wf (snd e) && wf (Dir d r).
Proof. reflexivity. Qed.

Lemma names_update_entry (x y : string) (f : node -> node) (es : list (string * node)) :
  existsb (fun e' => (fst e' =? y)%string) (update_entry x f es)
  = existsb (fun e' => (fst e' =? y)%string) es.
Proof.
  induction es as [|[z c] r IH]; simpl; [reflexivity|].
  destruct (z =? x)%string; simpl; [reflexivity | now rewrite IH].
Qed.

Lemma wf_update_entry (d : owner) (x : string) (f : node -> node) (es : list (string * node)) :
  (forall c, wf (f c) = wf c) ->
  wf (Dir d (update_entry x f es)) = wf (Dir d es).
Proof.
  intros Hf. induction es as [|[z c] r IH]; [reflexivity|].
  cbn [update_entry]. destruct (z =? x)%string.
  - rewrite !wf_cons. cbn [fst snd]. now rewrite Hf.
  - rewrite !wf_cons. cbn [fst snd]. now rewrite names_update_entry, IH.
Qed.

Lemma wf_chown (o : owner) (p : Path) (t : node) :
  wf (alter (set_owner o) p t) = wf t.
Proof.
  revert t. induction p as [|x p IH]; intros t.
  - destruct t; reflexivity.
  - destruct t as [d c|d es]; [reflexivity|]. cbn [alter].
    apply wf_update_entry. exact IH.
Qed.

(** In a well-formed directory every entry is the one its name finds. *)
Lemma wf_entry (d : owner) (es : list (string * node)) (x : string) (c : node) :
  wf (Dir d es) = true -> In (x, c) es -> assoc x es = Some c /\ wf c = true.
Proof.
  induction es as [|[y c'] r IH]; intros Hwf Hin; [contradiction|].
  rewrite wf_cons in Hwf. cbn [fst snd] in Hwf.
  apply andb_true_iff in Hwf. destruct Hwf as [Hwf Hr].
  apply andb_true_iff in Hwf. destruct Hwf as [Hfresh Hc].
  destruct Hin as [E|Hin].
  - injection E as -> ->. simpl. rewrite String.eqb_refl. now split.
  - simpl. destruct (String.eqb_spec y x) as [->|_].
    + exfalso. apply negb_true_iff in Hfresh.
      assert (existsb (fun e' => (fst e' =? x)%string) r = true) as Hx.
      { apply existsb_exists. exists (x, c). split; [exact Hin|]. apply String.eqb_refl. }
      congruence.
    + now apply IH.
Qed.

(** ** The walk *)

Lemma in_entry_names (es : list (string * node)) (name : string) :
  In name (dirnames es ++ filenames es)%list <-> exists c, In (name, c) es.
Proof.
  unfold dirnames, filenames. rewrite in_app_iff, !in_map_iff. split.
  - intros [([x c] & E & H)|([x c] & E & H)]; simpl in E; subst x;
      apply filter_In in H; exists c; tauto.
  - intros [c H]. destruct (is_dir_node c) eqn:K.
    + left. exists (name, c). split; [reflexivity|]. apply filter_In. now split.
    + right. exists (name, c). split; [reflexivity|]. apply filter_In. simpl. now rewrite K.
Qed.

Lemma chown_targets_walk_dir (p : Path) (d : owner) (es : list (string * node)) (t : Path) :
  In t (chown_targets (walk_node p (Dir d es))) <->
  t = p \/
  (exists c, In (last t EmptyString, c) es /\ t = (p ++ [last t EmptyString])%list) \/
  (exists e, In e es /\ In t (chown_targets (walk_node (p ++ [fst e])%list (snd e)))).
Proof.
  cbn [walk_node]. unfold chown_targets at 1. cbn [flat_map].
  rewrite in_app_iff. cbn [In]. rewrite in_map_iff. split.
  - intros [[E|(name & E & H)]|H].
    + left. now symmetry.
    + right. left. subst t. rewrite last_last. apply in_entry_names in H.
      destruct H as [c H]. exists c. now split.
    + right. right. apply in_flat_map in H. destruct H as ([[dp dn] fn] & Hin & Ht).
      apply in_flat_map in Hin. destruct Hin as (e & He & Hw).
      exists e. split; [exact He|]. unfold chown_targets. apply in_flat_map.
      exists (dp, dn, fn). now split.
  - intros [E|[(c & Hc & E)|(e & He & Ht)]].
    + left. left. now symmetry.
    + left. right. exists (last t EmptyString). split; [now symmetry|].
      apply in_entry_names. now exists c.
    + right. unfold chown_targets in Ht. apply in_flat_map in Ht.
      destruct Ht as (tr & Htr & Ht). apply in_flat_map. exists tr. split; [|exact Ht].
      apply in_flat_map. exists e. now split.
Qed.

(** The walk of [p] only gives paths at or below [p]. *)
Lemma chown_targets_below (n : node) (p t : Path) :
  In t (chown_targets (walk_node p n)) -> below p t.
Proof.
  revert p t. induction n as [o d|o es IH] using node_nested_ind; intros p t H.
  - contradiction.
  - apply chown_targets_walk_dir in H. destruct H as [->|[(c & _ & E)|(e & He & Ht)]].
    + exists []. now rewrite app_nil_r.
    + now exists [last t EmptyString].
    + rewrite Forall_forall in IH. destruct (IH e He _ _ Ht) as [r ->].
      exists (fst e :: r). now rewrite <- app_assoc.
Qed.

(** The walk of a directory gives every path that names something at or
    below it. *)
Lemma chown_targets_cover (r : Path) (n m : node) (p : Path) :
  is_dir_node n = true ->
  lookup n r = Some m ->
  In (p ++ r)%list (chown_targets (walk_node p n)).
Proof.
  revert n p. induction r as [|x r IH]; intros n p Hd Hl.
  - destruct n as [o d|o es]; [discriminate|].
    apply chown_targets_walk_dir. left. apply app_nil_r.
  - destruct n as [o d|o es]; [discriminate|]. simpl in Hl.
    destruct (assoc x es) as [c|] eqn:Ea; [|discriminate].
    apply assoc_In in Ea. apply chown_targets_walk_dir.
    destruct (is_dir_node c) eqn:Kc.
    + right. right. exists (x, c). split; [exact Ea|]. cbn [fst snd].
      replace (p ++ x :: r)%list with ((p ++ [x]) ++ r)%list
        by (rewrite <- app_assoc; reflexivity).
      now apply IH.
    + right. left. destruct c as [oc dc|oc ec]; [|discriminate].
      destruct r as [|y r]; [|discriminate]. rewrite last_last. now exists (File oc dc).
Qed.

(** In a well-formed tree the walk only gives paths that name
    something. *)
Lemma chown_targets_exist (n : node) (p t : Path) :
  wf n = true ->
  In t (chown_targets (walk_node p n)) ->
  exists r, t = (p ++ r)%list /\ lookup n r <> None.
Proof.
  revert p t. induction n as [o d|o es IH] using node_nested_ind; intros p t Hwf H.
  - contradiction.
  - apply chown_targets_walk_dir in H. destruct H as [->|[(c & Hc & E)|(e & He & Ht)]].
    + exists []. split; [now rewrite app_nil_r | discriminate].
    + exists [last t EmptyString]. split; [exact E|].
      destruct (wf_entry o es _ c Hwf Hc) as [Ha _]. simpl. rewrite Ha. discriminate.
    + rewrite Forall_forall in IH. destruct e as [x c].
      destruct (wf_entry o es x c Hwf He) as [Ha Hc].
      destruct (IH (x, c) He _ _ Hc Ht) as (r & -> & Hr). cbn [fst snd] in *.
      exists (x :: r). split; [now rewrite <- app_assoc|]. simpl. now rewrite Ha.
Qed.

(** ** A sequence of [os.chown] *)

Lemma run_os_chown (e : env) (p : Path) (uid gid : Z) (s : state) :
  run (os_chown e p uid gid) s
  = match lookup (fs s) p with
    | None => (Raise FileNotFoundError, s)
    | Some n =>
        if may_chown e n uid gid
        then (Ok tt, with_fs s (alter (set_owner (uid, gid)) p (fs s)))
        else (Raise PermissionError, s)
    end.
Proof.
  unfold os_chown. rewrite run_bind, run_get. cbv beta iota.
  destruct (lookup (fs s) p) as [n|]; [|reflexivity].
  destruct (may_chown e n uid gid); reflexivity.
Qed.

Lemma run_for_each_app {S A} (l1 l2 : list A) (body : A -> M S unit) (s : S) :
  run (for_each (l1 ++ l2)%list body) s
  = match run (for_each l1 body) s with
    | (Ok _, s1) => run (for_each l2 body) s1
    | (Exit c, s1) => (Exit c, s1)
    | (Raise x, s1) => (Raise x, s1)
    end.
Proof.
  revert s. induction l1 as [|a l1 IH]; intros s; cbn [app for_each].
  - rewrite run_ret. reflexivity.
  - rewrite !run_bind. destruct (run (body a) s) as [[u|c|x] s1]; [apply IH | reflexivity..].
Qed.

Lemma run_for_each_map {S A B} (g : A -> B) (l : list A) (body : B -> M S unit) (s : S) :
  run (for_each (map g l) body) s = run (for_each l (fun a => body (g a))) s.
Proof.
  revert s. induction l as [|a l IH]; intros s; cbn [map for_each]; [reflexivity|].
  rewrite !run_bind. destruct (run (body (g a)) s) as [[u|c|x] s1]; [apply IH | reflexivity..].
Qed.

(** The two nested loops of [_chown_recursive] are one loop over the
    targets. *)
Lemma run_chown_loop (e : env) (uid gid : Z)
    (triples : list (Path * list string * list string)) (s : state) :
  run (for_each triples (fun t =>
         let '(dirpath, dnames, fnames) := t in
         os_chown e dirpath uid gid ;;
         for_each (dnames ++ fnames)%list (fun name =>
           os_chown e (dirpath ++ [name])%list uid gid))) s
  = run (for_each (chown_targets triples) (fun p => os_chown e p uid gid)) s.
Proof.
  revert s. induction triples as [|[[dp dn] fn] r IH]; intros s; [reflexivity|].
  unfold chown_targets. cbn [flat_map for_each]. fold (chown_targets r).
  rewrite run_bind. rewrite run_for_each_app. cbn [for_each].
  rewrite !run_bind.
  destruct (run (os_chown e dp uid gid) s) as [[u|c|x] s1]; [|reflexivity..].
  rewrite run_for_each_map.
  destruct (run (for_each (dn ++ fn)%list
                   (fun name => os_chown e (dp ++ [name])%list uid gid)) s1)
    as [[u'|c|x] s2]; [apply IH | reflexivity..].
Qed.

(** What a sequence of [os.chown] that completes has done. *)
Lemma chown_all_ok (e : env) (uid gid : Z) (ps : list Path) (s s' : state) :
  run (for_each ps (fun p => os_chown e p uid gid)) s = (Ok tt, s') ->
  root_level s' = root_level s /\
  wf (fs s') = wf (fs s) /\
  (forall q, In q ps -> owner_at (fs s') q = Some (uid, gid)) /\
  (forall q, ~ In q ps -> owner_at (fs s') q = owner_at (fs s) q) /\
  (forall q, kind_at (fs s') q = kind_at (fs s) q).
Proof.
  revert s. induction ps as [|p ps IH]; intros s H.
  - cbn [for_each] in H. rewrite run_ret in H. injection H as <-.
    repeat split; auto. intros q [].
  - cbn [for_each] in H. rewrite run_bind, run_os_chown in H.
    destruct (lookup (fs s) p) as [n|] eqn:El; [|discriminate].
    destruct (may_chown e n uid gid); [|discriminate].
    destruct (IH _ H) as (Hl & Hw & Hin & Hout & Hk). cbn [with_fs fs root_level] in *.
    split; [exact Hl|]. split; [now rewrite Hw, wf_chown|]. split; [|split].
    + intros q Hq. destruct (in_dec (list_eq_dec string_dec) q ps) as [Hi|Hn].
      * now apply Hin.
      * destruct Hq as [<-|Hq]; [|contradiction].
        rewrite (Hout p Hn). apply owner_at_chown_same. congruence.
    + intros q Hq. rewrite Hout by (intros Hi; apply Hq; now right).
      apply owner_at_chown_other. intros ->. apply Hq. now left.
    + intros q. now rewrite Hk, kind_at_chown.
Qed.

(** The superuser completes a sequence of [os.chown] on paths that
    exist. *)
Lemma chown_all_root (e : env) (uid gid : Z) (ps : list Path) (s : state) :
  euid e = 0 ->
  (forall q, In q ps -> lookup (fs s) q <> None) ->
  exists s', run (for_each ps (fun p => os_chown e p uid gid)) s = (Ok tt, s').
Proof.
  intros Hroot. revert s. induction ps as [|p ps IH]; intros s Hex.
  - exists s. reflexivity.
  - cbn [for_each]. rewrite run_bind, run_os_chown.
    destruct (lookup (fs s) p) as [n|] eqn:El.
    + unfold may_chown. rewrite Hroot. cbn [Z.eqb orb]. apply IH.
      intros q Hq. cbn [with_fs fs]. specialize (Hex q (or_intror Hq)).
      pose proof (kind_at_chown (uid, gid) p q (fs s)) as K. unfold kind_at in K.
      destruct (lookup (alter (set_owner (uid, gid)) p (fs s)) q); [discriminate|].
      destruct (lookup (fs s) q); [discriminate K | congruence].
    + exfalso. apply (Hex p); [now left | exact El].
Qed.

(** ** The ownership step *)

Lemma wf_lookup (p : Path) (t n : node) :
  wf t = true -> lookup t p = Some n -> wf n = true.
Proof.
  revert t. induction p as [|x p IH]; intros t Hwf Hl; simpl in Hl.
  - now injection Hl as <-.
  - destruct t as [o d|o es]; [discriminate|].
    destruct (assoc x es) as [c|] eqn:Ea; [|discriminate].
    apply assoc_In in Ea. destruct (wf_entry o es x c Hwf Ea) as [_ Hc].
    now apply (IH c).
Qed.

(** The targets of [_chown_recursive] on [path] in the tree [t]. *)
Lemma run_chown_recursive (e : env) (path : Path) (uid gid : Z) (s : state) :
  run (_chown_recursive e path uid gid false) s
  = run (for_each
           (chown_targets (match lookup (fs s) path with
                           | Some n => walk_node path n
                           | None => []
                           end))
           (fun p => os_chown e p uid gid)) s.
Proof.
  unfold _chown_recursive. rewrite run_bind.
  change (run (os_walk path) s)
    with (Ok (match lookup (fs s) path with
              | Some n => walk_node path n
              | None => []
              end), s).
  cbv beta iota. apply run_chown_loop.
Qed.

(** A pass that completes gives its owner to every path that names
    something at or below a directory [path], leaves the owner of the
    paths that are not at or below [path], and keeps what is a directory
    and what a file. *)
Lemma chown_recursive_ok (e : env) (path : Path) (uid gid : Z) (s s' : state) :
  run (_chown_recursive e path uid gid false) s = (Ok tt, s') ->
  root_level s' = root_level s /\
  wf (fs s') = wf (fs s) /\
  (forall p, kind_at (fs s') p = kind_at (fs s) p) /\
  (forall p, ~ below path p -> owner_at (fs s') p = owner_at (fs s) p) /\
  (kind_at (fs s) path <> Some false ->
   forall p n, below path p -> lookup (fs s') p = Some n -> owner_of n = (uid, gid)).
Proof.
  rewrite run_chown_recursive. intros H.
  destruct (chown_all_ok e uid gid _ s s' H) as (Hl & Hw & Hin & Hout & Hk).
  split; [exact Hl|]. split; [exact Hw|]. split; [exact Hk|]. split.
  - intros p Hp. apply Hout. intros Hi. apply Hp.
    destruct (lookup (fs s) path) as [n|]; [|contradiction].
    now apply (chown_targets_below n).
  - intros Hdir p n [r ->] Hn.
    assert (Hs : kind_at (fs s) (path ++ r)%list <> None).
    { rewrite <- Hk. unfold kind_at. rewrite Hn. discriminate. }
    unfold kind_at in Hs, Hdir. rewrite lookup_app in Hs.
    destruct (lookup (fs s) path) as [np|] eqn:Ep; [|now elim Hs].
    destruct (lookup np r) as [m|] eqn:Er; [|now elim Hs].
    assert (Hd : is_dir_node np = true).
    { cbn [option_map] in Hdir. destruct (is_dir_node np); [reflexivity | now elim Hdir]. }
    pose proof (Hin _ (chown_targets_cover r np m path Hd Er)) as Ho.
    unfold owner_at in Ho. rewrite Hn in Ho. now injection Ho.
Qed.

(** The superuser completes a pass on a well-formed tree. *)
Lemma chown_recursive_root (e : env) (path : Path) (uid gid : Z) (s : state) :
  euid e = 0 ->
  wf (fs s) = true ->
  exists s', run (_chown_recursive e path uid gid false) s = (Ok tt, s').
Proof.
  intros Hroot Hwf. rewrite run_chown_recursive. apply chown_all_root; [exact Hroot|].
  intros q Hq. destruct (lookup (fs s) path) as [n|] eqn:Ep; [|contradiction].
  destruct (chown_targets_exist n path q (wf_lookup path _ n Hwf Ep) Hq) as (r & -> & Hr).
  now rewrite lookup_app, Ep.
Qed.

Lemma run_set_permissions (e : env) (target_dir : Path) (s : state) :
  _has_privilege e = true ->
  run (set_permissions e target_dir false) s
  = match run (_chown_recursive e (target_dir ++ ["volumes"])%list
                 WWW_DATA_UID WWW_DATA_GID false) s with
    | (Ok _, s1) =>
        match run (_chown_recursive e ((target_dir ++ ["volumes"]) ++ ["db"])%list
                     MYSQL_UID MYSQL_GID false) s1 with
        | (Ok _, s2) => (Ok tt, s2)
        | (Exit c, s2) => (Exit c, s2)
        | (Raise x, s2) => (Raise x, s2)
        end
    | (Exit c, s1) => (Exit c, s1)
    | (Raise x, s1) => (Raise x, s1)
    end.
Proof.
  intros Hp. unfold set_permissions. rewrite Hp. cbn [negb].
  rewrite run_bind, run_ret. cbv beta iota. rewrite run_bind.
  destruct (run (_chown_recursive e (target_dir ++ ["volumes"])%list
                   WWW_DATA_UID WWW_DATA_GID false) s) as [[u|c|x] s1]; [|reflexivity..].
  rewrite run_bind.
  destruct (run (_chown_recursive e ((target_dir ++ ["volumes"]) ++ ["db"])%list
                   MYSQL_UID MYSQL_GID false) s1) as [[u'|c|x] s2]; [|reflexivity..].
  unfold log_info. rewrite run_log_at. reflexivity.
Qed.

(** C7: in a privileged run without --dry-run, on an instance whose
    volumes path is a directory and whose volumes/db path is not a regular
    file, once both passes have completed every path that names something
    at or below volumes/db is owned by 999:999, and every path that names
    something at or below volumes but not at or below volumes/db is owned
    by 33:33: the second pass overrides the first where they overlap.  No
    path appears, disappears or changes kind.  The superuser completes
    both passes on every well-formed tree. *)
Theorem set_permissions_ownership (e : env) (target_dir : Path) (s : state) :
  _has_privilege e = true ->
  kind_at (fs s) (target_dir ++ ["volumes"])%list = Some true ->
  kind_at (fs s) (target_dir ++ ["volumes"; "db"])%list <> Some false ->
  (forall s',
     run (set_permissions e target_dir false) s = (Ok tt, s') ->
     (forall p n, below (target_dir ++ ["volumes"; "db"])%list p ->
                  lookup (fs s') p = Some n -> owner_of n = (MYSQL_UID, MYSQL_GID)) /\
     (forall p n, below (target_dir ++ ["volumes"])%list p ->
                  ~ below (target_dir ++ ["volumes"; "db"])%list p ->
                  lookup (fs s') p = Some n -> owner_of n = (WWW_DATA_UID, WWW_DATA_GID)) /\
     (forall p, kind_at (fs s') p = kind_at (fs s) p)) /\
  (euid e = 0 -> wf (fs s) = true ->
   exists s', run (set_permissions e target_dir false) s = (Ok tt, s')).
Proof.
  intros Hp Hvol Hdb.
  replace (target_dir ++ ["volumes"; "db"])%list
    with ((target_dir ++ ["volumes"]) ++ ["db"])%list in *
    by (rewrite <- app_assoc; reflexivity).
  rewrite (run_set_permissions e target_dir s Hp). split.
  - intros s' H.
    destruct (run (_chown_recursive e (target_dir ++ ["volumes"])%list
                     WWW_DATA_UID WWW_DATA_GID false) s) as [[u|c|x] s1] eqn:E1;
      [|discriminate..].
    destruct (run (_chown_recursive e ((target_dir ++ ["volumes"]) ++ ["db"])%list
                     MYSQL_UID MYSQL_GID false) s1) as [[u'|c|x] s2] eqn:E2;
      [|discriminate..].
    injection H as <-. destruct u, u'.
    destruct (chown_recursive_ok _ _ _ _ _ _ E1) as (_ & _ & K1 & _ & In1).
    destruct (chown_recursive_ok _ _ _ _ _ _ E2) as (_ & _ & K2 & Out2 & In2).
    split; [|split].
    + apply In2. now rewrite K1.
    + intros p n Hv Hnd Hn.
      specialize (Out2 p Hnd). unfold owner_at in Out2. rewrite Hn in Out2.
      destruct (lookup (fs s1) p) as [m|] eqn:Em; [|discriminate].
      injection Out2 as ->.
      apply (In1 ltac:(rewrite Hvol; discriminate) p m Hv Em).
    + intros p. now rewrite K2, K1.
  - intros Hroot Hwf.
    destruct (chown_recursive_root e (target_dir ++ ["volumes"])%list
                WWW_DATA_UID WWW_DATA_GID s Hroot Hwf) as [s1 E1].
    rewrite E1.
    destruct (chown_recursive_ok _ _ _ _ _ _ E1) as (_ & W1 & _).
    destruct (chown_recursive_root e ((target_dir ++ ["volumes"]) ++ ["db"])%list
                MYSQL_UID MYSQL_GID s1 Hroot ltac:(now rewrite W1)) as [s2 E2].
    rewrite E2. now exists s2.
Qed.

Lemma set_permissions_ownership_witness :
  exists s',
    run (set_permissions (Sample.root EndOfInput) ["journal1"] false) (initial Sample.deployed)
    = (Ok tt, s') /\
    (forall p n, below ["journal1"; "volumes"; "db"] p ->
                 lookup (fs s') p = Some n -> owner_of n = (MYSQL_UID, MYSQL_GID)) /\
    (forall p n, below ["journal1"; "volumes"] p ->
                 ~ below ["journal1"; "volumes"; "db"] p ->
                 lookup (fs s') p = Some n -> owner_of n = (WWW_DATA_UID, WWW_DATA_GID)) /\
    (forall p, kind_at (fs s') p = kind_at Sample.deployed p).
Proof.
  destruct (set_permissions_ownership (Sample.root EndOfInput) ["journal1"]
              (initial Sample.deployed)) as [Hown Hroot].
  - reflexivity.
  - reflexivity.
  - vm_compute. discriminate.
  - destruct (Hroot eq_refl eq_refl) as [s' E]. exists s'. split; [exact E|].
    apply Hown. exact E.
Defined.

(** ** Deploying over an instance with --force *)

Lemma run_read_text (p : Path) (s : state) :
  run (read_text p) s
  = (match lookup (fs s) p with
     | None => Raise FileNotFoundError
     | Some (Dir _ _) => Raise IsADirectoryError
     | Some (File _ (Raw _)) => Raise UnicodeDecodeError
     | Some (File _ (Text c)) => Ok (Py.universal_newlines c)
     end, s).
Proof.
  unfold read_text. rewrite run_bind, run_get. cbv beta iota.
  destruct (lookup (fs s) p) as [[o [c|b]|o es]|]; reflexivity.
Qed.

(** What a substitution does to the state: nothing when the file is
    missing, an exception when it is a directory or does not decode, and
    otherwise the file, with its owner, holds the text as it was read,
    after the replacements. *)
Lemma run_replace_in_file (e : env) (p : Path) (reps : list (string * string)) (s : state) :
  run (_replace_in_file e p reps false) s
  = match lookup (fs s) p with
    | None => (Ok tt, s)
    | Some (Dir _ _) => (Raise IsADirectoryError, s)
    | Some (File _ (Raw _)) => (Raise UnicodeDecodeError, s)
    | Some (File o (Text c)) =>
        (Ok tt,
         with_fs s
           (alter (fun _ => File o (Text (fst (apply_replacements (Py.universal_newlines c)
                                                 0 reps))))
              p (fs s)))
    end.
Proof.
  unfold _replace_in_file. rewrite run_bind, run_path_exists. cbv beta iota.
  destruct (lookup (fs s) p) as [n|] eqn:El; cbn [negb]; cbv iota.
  - rewrite run_bind, run_read_text, El.
    destruct n as [o [c|b]|o es]; [|reflexivity..].
    destruct (apply_replacements (Py.universal_newlines c) 0 reps) as [content count].
    cbn [fst].
    rewrite run_bind. unfold write_text. rewrite run_bind, run_get. cbv beta iota.
    rewrite El, run_set_fs. unfold log_info. now rewrite run_log_at.
  - unfold log_warning. now rewrite run_log_at.
Qed.

Lemma run_rmtree (p : Path) (s : state) :
  run (rmtree p) s
  = match lookup (fs s) p with
    | None => (Raise FileNotFoundError, s)
    | Some (File _ _) => (Raise NotADirectoryError, s)
    | Some (Dir _ _) => (Ok tt, with_fs s (remove p (fs s)))
    end.
Proof.
  unfold rmtree. rewrite run_bind, run_get. cbv beta iota.
  destruct (lookup (fs s) p) as [[o c|o es]|]; reflexivity.
Qed.

(** With --force a target that is a directory is removed; a target that is
    a regular file makes [shutil.rmtree] raise. *)
Lemma run_handle_force (e : env) (target_dir : Path) (s : state) :
  run (handle_existing_target e target_dir true false) s
  = match lookup (fs s) target_dir with
    | None => (Ok tt, s)
    | Some (File _ _) => (Raise NotADirectoryError, s)
    | Some (Dir _ _) => (Ok tt, with_fs s (remove target_dir (fs s)))
    end.
Proof.
  unfold handle_existing_target. rewrite run_bind, run_path_exists. cbv beta iota.
  destruct (lookup (fs s) target_dir) as [n|] eqn:El; cbn [negb]; cbv iota.
  - unfold log_info. rewrite run_bind, run_log_at. cbv beta iota.
    rewrite run_rmtree, El. destruct n; reflexivity.
  - reflexivity.
Qed.

Lemma run_copy_template (e : env) (src dst : Path) (s : state) :
  run (copy_template e src dst false) s
  = match lookup (fs s) src with
    | None => (Raise FileNotFoundError, s)
    | Some (File _ _) => (Raise NotADirectoryError, s)
    | Some (Dir o es) =>
        match lookup (fs s) dst with
        | Some _ => (Raise FileExistsError, s)
        | None =>
            match graft (euid e, egid e) dst (copy_as (euid e, egid e) (Dir o es)) (fs s) with
            | Some tree => (Ok tt, with_fs s tree)
            | None => (Raise NotADirectoryError, s)
            end
        end
    end.
Proof.
  unfold copy_template, copytree. rewrite !run_bind, run_get. cbv beta iota.
  destruct (lookup (fs s) src) as [[o c|o es]|]; [reflexivity| |reflexivity].
  destruct (lookup (fs s) dst); [reflexivity|].
  destruct (graft (euid e, egid e) dst (copy_as (euid e, egid e) (Dir o es)) (fs s));
    [|reflexivity].
  rewrite run_set_fs. unfold log_info. now rewrite run_log_at.
Qed.

(** *** Entries of the root *)

Lemma assoc_remove_entry_same (x : string) (es : list (string * node)) :
  assoc x (remove_entry x es) = None.
Proof.
  induction es as [|[y c] r IH]; [reflexivity|]. unfold remove_entry in *. cbn [filter fst].
  destruct (String.eqb_spec y x) as [->|Hne]; cbn [negb]; [exact IH|].
  cbn [assoc]. destruct (String.eqb_spec y x); [contradiction | exact IH].
Qed.

Lemma assoc_remove_entry_other (x y : string) (es : list (string * node)) :
  y <> x -> assoc y (remove_entry x es) = assoc y es.
Proof.
  intros Hne. induction es as [|[z c] r IH]; [reflexivity|].
  unfold remove_entry in *. cbn [filter fst].
  destruct (String.eqb_spec z x) as [->|Hzx]; cbn [negb assoc].
  - destruct (String.eqb_spec x y); [congruence | exact IH].
  - destruct (String.eqb_spec z y); [reflexivity | exact IH].
Qed.

Lemma remove_entry_absent (x : string) (es : list (string * node)) :
  assoc x es = None -> remove_entry x es = es.
Proof.
  induction es as [|[y c] r IH]; [reflexivity|]. unfold remove_entry in *. cbn [filter fst assoc].
  destruct (String.eqb_spec y x) as [->|Hne]; [discriminate|].
  intros H. cbn [negb]. now rewrite IH.
Qed.

Lemma remove_entry_last (x : string) (c : node) (es : list (string * node)) :
  assoc x es = None -> remove_entry x (es ++ [(x, c)])%list = es.
Proof.
  intros H. unfold remove_entry. rewrite filter_app. cbn [filter fst].
  rewrite String.eqb_refl. cbn [negb]. rewrite app_nil_r. now apply remove_entry_absent.
Qed.

Lemma assoc_app_last_same (x : string) (c : node) (es : list (string * node)) :
  assoc x es = None -> assoc x (es ++ [(x, c)])%list = Some c.
Proof.
  induction es as [|[y d] r IH]; cbn [app assoc].
  - now rewrite String.eqb_refl.
  - destruct (String.eqb_spec y x); [discriminate | exact IH].
Qed.

Lemma assoc_app_last_other (x y : string) (c : node) (es : list (string * node)) :
  y <> x -> assoc y (es ++ [(x, c)])%list = assoc y es.
Proof.
  intros Hne. induction es as [|[z d] r IH]; cbn [app assoc].
  - destruct (String.eqb_spec x y); [congruence | reflexivity].
  - destruct (String.eqb_spec z y); [reflexivity | exact IH].
Qed.

Lemma update_entry_last (x : string) (g : node -> node) (c : node)
    (es : list (string * node)) :
  assoc x es = None ->
  update_entry x g (es ++ [(x, c)])%list = (es ++ [(x, g c)])%list.
Proof.
  induction es as [|[y d] r IH]; cbn [app assoc update_entry].
  - now rewrite String.eqb_refl.
  - destruct (String.eqb_spec y x); [discriminate|]. intros H. now rewrite IH.
Qed.

(** *** Steps that stay inside the instance *)

(** A change strictly inside the instance keeps the rest of the root and
    leaves the instance a directory. *)
Lemma alter_inside (o : owner) (rest : list (string * node)) (sub : string)
    (f : node -> node) (p : Path) (t : node) :
  assoc sub rest = None ->
  inside sub p ->
  holds_instance o rest sub t ->
  holds_instance o rest sub (alter f p t).
Proof.
  intros Hfresh (x & q & ->) (c & Hc & ->).
  cbn [alter]. rewrite (update_entry_last _ _ _ _ Hfresh).
  destruct c as [oc dc|oc ec]; [discriminate|].
  eexists. split; [|reflexivity]. reflexivity.
Qed.

Lemma preserves_keeps {A} (I : node -> Prop) (m : M state A) :
  keeps_tree m -> preserves I m.
Proof. intros K s H. now rewrite K. Qed.

Lemma preserves_bind {A B} (I : node -> Prop) (m : M state A) (f : A -> M state B) :
  preserves I m -> (forall a, preserves I (f a)) -> preserves I (bind m f).
Proof.
  intros Hm Hf s Hs. specialize (Hm s Hs). unfold state_of, bind in *.
  destruct (m s) as [[[a|c|x] s1] o1]; simpl in *; auto.
  specialize (Hf a s1 Hm). unfold state_of in Hf.
  destruct (f a s1) as [[r s2] o2]. exact Hf.
Qed.

Lemma preserves_run {A} (I : node -> Prop) (m : M state A) :
  (forall s, I (fs s) -> I (fs (snd (run m s)))) -> preserves I m.
Proof. intros H s Hs. exact (H s Hs). Qed.

Section Inside.

Variables (e : env) (o : owner) (rest : list (string * node)) (sub : string).
Hypothesis fresh : assoc sub rest = None.

Lemma preserves_replace_in_file (p : Path) (reps : list (string * string)) :
  inside sub p -> preserves (holds_instance o rest sub) (_replace_in_file e p reps false).
Proof.
  intros Hp. apply preserves_run. intros s Hs. rewrite run_replace_in_file.
  destruct (lookup (fs s) p) as [[oc [c|b]|oc ec]|]; cbn [snd with_fs fs]; auto.
  now apply alter_inside.
Qed.

Lemma preserves_chown_all (uid gid : Z) (ps : list Path) :
  (forall q, In q ps -> inside sub q) ->
  preserves (holds_instance o rest sub) (for_each ps (fun p => os_chown e p uid gid)).
Proof.
  induction ps as [|p ps IH]; intros Hin.
  - apply preserves_keeps, keeps_ret.
  - cbn [for_each]. apply preserves_bind.
    + apply preserves_run. intros s Hs. rewrite run_os_chown.
      destruct (lookup (fs s) p) as [n|]; [|exact Hs].
      destruct (may_chown e n uid gid); [|exact Hs].
      cbn [snd with_fs fs]. apply alter_inside; auto. apply Hin. now left.
    + intros _. apply IH. intros q Hq. apply Hin. now right.
Qed.

Lemma preserves_chown_recursive (x : string) (q : Path) (uid gid : Z) :
  preserves (holds_instance o rest sub) (_chown_recursive e (sub :: x :: q) uid gid false).
Proof.
  apply preserves_run. intros s Hs. rewrite run_chown_recursive.
  apply (preserves_chown_all uid gid); [|exact Hs].
  intros t Ht. destruct (lookup (fs s) (sub :: x :: q)) as [n|]; [|contradiction].
  destruct (chown_targets_below n _ t Ht) as [r ->]. now exists x, (q ++ r)%list.
Qed.

Lemma preserves_set_permissions :
  preserves (holds_instance o rest sub) (set_permissions e [sub] false).
Proof.
  unfold set_permissions. cbn [app].
  repeat first
    [ apply preserves_chown_recursive
    | apply preserves_bind; [|intros ?]
    | apply preserves_keeps; solve [keeps] ].
Qed.

Lemma preserves_finish (argv : cmdline) :
  sub = _extract_subdomain (domain_of argv) ->
  preserves (holds_instance o rest sub) (finish e argv false).
Proof.
  intros Esub. unfold finish. cbv zeta. rewrite <- Esub.
  unfold configure_env, configure_config_inc, configure_compose. cbn [app negb].
  repeat first
    [ apply preserves_set_permissions
    | apply preserves_replace_in_file; eexists _, _; reflexivity
    | apply preserves_bind; [|intros ?]
    | apply preserves_keeps; solve [keeps | apply keeps_print_summary] ].
Qed.

End Inside.

(** *** One forced run, from its tree *)

Section Forced.

Variables (e : env) (argv : cmdline) (numeric : Z).
Hypothesis forced : arg_force argv = true.
Hypothesis real : arg_dry_run argv = false.

Lemma run_steps_forced (s : state) :
  run (steps e argv) s
  = if is_dir (fs s) [TEMPLATE_DIR]
    then match run (handle_existing_target e (target_of argv) true false) s with
         | (Ok _, s1) => run (materialize e argv false) s1
         | (Exit c, s1) => (Exit c, s1)
         | (Raise x, s1) => (Raise x, s1)
         end
    else (Exit EXIT_USER_ERROR, s).
Proof.
  unfold steps, target_of. cbv zeta. rewrite forced, real.
  rewrite run_bind, run_validate_environment.
  destruct (is_dir (fs s) [TEMPLATE_DIR]); cbv iota; [|reflexivity].
  now rewrite run_bind.
Qed.

(** Without a template directory the tree stays as it is. *)
Lemma forced_no_template (tree : node) :
  is_dir tree [TEMPLATE_DIR] = false ->
  fs (snd (run (steps e argv) {| fs := tree; root_level := numeric |})) = tree.
Proof. intros H. rewrite run_steps_forced. cbn [fs]. now rewrite H. Qed.

(** A target that is a regular file stops the run with the tree as it
    is. *)
Lemma forced_target_file (tree : node) (o : owner) (d : content) :
  lookup tree (target_of argv) = Some (File o d) ->
  fs (snd (run (steps e argv) {| fs := tree; root_level := numeric |})) = tree.
Proof.
  intros H. rewrite run_steps_forced. cbn [fs].
  destruct (is_dir tree [TEMPLATE_DIR]); [|reflexivity].
  rewrite run_handle_force. cbn [fs]. now rewrite H.
Qed.

(** Otherwise the run goes on from the root without the target. *)
Lemma forced_materialize (o : owner) (es : list (string * node)) :
  is_dir (Dir o es) [TEMPLATE_DIR] = true ->
  (forall oc d, assoc (_extract_subdomain (domain_of argv)) es <> Some (File oc d)) ->
  run (steps e argv) {| fs := Dir o es; root_level := numeric |}
  = run (materialize e argv false)
        {| fs := Dir o (remove_entry (_extract_subdomain (domain_of argv)) es);
           root_level := numeric |}.
Proof.
  intros Ht Hnf. rewrite run_steps_forced. cbn [fs]. rewrite Ht.
  rewrite run_handle_force. unfold target_of. cbn [fs lookup].
  destruct (assoc (_extract_subdomain (domain_of argv)) es) as [[oc d|oc ec]|] eqn:Ea.
  - now elim (Hnf oc d).
  - reflexivity.
  - now rewrite (remove_entry_absent _ _ Ea).
Qed.

(** When the target is the template itself, nothing is left to copy. *)
Lemma materialize_no_template (o : owner) (rest : list (string * node)) :
  assoc TEMPLATE_DIR rest = None ->
  fs (snd (run (materialize e argv false) {| fs := Dir o rest; root_level := numeric |}))
  = Dir o rest.
Proof.
  intros H. unfold materialize. cbv zeta. unfold log_info.
  rewrite run_bind, run_log_at. cbv beta iota.
  rewrite run_bind, run_copy_template. cbn [fs lookup]. now rewrite H.
Qed.

(** Otherwise the copy is made, and the run ends with the root as it was
    but for the instance, which is a directory. *)
Lemma materialize_instance (o : owner) (rest : list (string * node)) :
  _extract_subdomain (domain_of argv) <> TEMPLATE_DIR ->
  is_dir (Dir o rest) [TEMPLATE_DIR] = true ->
  assoc (_extract_subdomain (domain_of argv)) rest = None ->
  holds_instance o rest (_extract_subdomain (domain_of argv))
    (fs (snd (run (materialize e argv false) {| fs := Dir o rest; root_level := numeric |}))).
Proof.
  intros Hne Ht Hfresh. unfold materialize. cbv zeta. unfold log_info.
  rewrite run_bind, run_log_at. cbv beta iota.
  rewrite run_bind, run_copy_template. cbn [fs lookup]. unfold is_dir in Ht. cbn [lookup] in Ht.
  destruct (assoc TEMPLATE_DIR rest) as [[ot dt|ot et]|]; [discriminate| |discriminate].
  rewrite Hfresh. cbn [graft]. rewrite Hfresh. cbv iota. cbn [with_fs root_level].
  apply (preserves_finish e o rest _ Hfresh argv eq_refl). cbn [fs].
  eexists. split; [|reflexivity]. reflexivity.
Qed.

(** A forced run that gets past the collision handling, and the forced
    run after it. *)
Lemma forced_twice_materialized (o : owner) (es : list (string * node)) :
  let F := fun t => fs (snd (run (steps e argv) {| fs := t; root_level := numeric |})) in
  is_dir (Dir o es) [TEMPLATE_DIR] = true ->
  (forall oc d, assoc (_extract_subdomain (domain_of argv)) es <> Some (File oc d)) ->
  F (F (Dir o es)) = F (Dir o es).
Proof.
  intros F Ht Hnf.
  set (sub := _extract_subdomain (domain_of argv)) in *.
  set (rest := remove_entry sub es).
  assert (Hfresh : assoc sub rest = None) by apply assoc_remove_entry_same.
  assert (E1 : F (Dir o es)
               = fs (snd (run (materialize e argv false)
                            {| fs := Dir o rest; root_level := numeric |}))).
  { unfold F. now rewrite forced_materialize. }
  rewrite E1. destruct (String.eqb_spec sub TEMPLATE_DIR) as [Eq|Hne].
  - (* the target is the template: removed, and the copy fails *)
    rewrite materialize_no_template by (rewrite <- Eq; exact Hfresh).
    apply forced_no_template. unfold is_dir. cbn [lookup]. now rewrite <- Eq, Hfresh.
  - (* the instance is made again from the same root and template *)
    assert (Ht' : is_dir (Dir o rest) [TEMPLATE_DIR] = true).
    { unfold is_dir in *. cbn [lookup] in *. unfold rest.
      rewrite assoc_remove_entry_other by (intros E; apply Hne; now symmetry). exact Ht. }
    destruct (materialize_instance o rest Hne Ht' Hfresh) as (c & Hc & E).
    fold sub in E. rewrite E. unfold F. rewrite forced_materialize.
    + fold sub. now rewrite (remove_entry_last sub c rest Hfresh), E.
    + unfold is_dir in *. cbn [lookup] in *.
      rewrite assoc_app_last_other by (intros E'; apply Hne; now symmetry). exact Ht'.
    + intros oc' d'. fold sub. rewrite (assoc_app_last_same sub c rest Hfresh).
      intros E'. injection E' as ->. discriminate Hc.
Qed.

(** A forced run on the tree a forced run has left gives that tree
    again. *)
Lemma forced_twice (tree : node) :
  let F := fun t => fs (snd (run (steps e argv) {| fs := t; root_level := numeric |})) in
  F (F tree) = F tree.
Proof.
  intros F.
  assert (Fix : forall t, F t = t -> F (F t) = F t) by (intros t E; now rewrite !E).
  destruct (is_dir tree [TEMPLATE_DIR]) eqn:Ht.
  - destruct tree as [o d|o es]; [discriminate|].
    destruct (assoc (_extract_subdomain (domain_of argv)) es) as [[oc d|oc ec]|] eqn:Ea.
    + apply Fix. apply (forced_target_file (Dir o es) oc d).
      unfold target_of. cbn [lookup]. now rewrite Ea.
    + apply forced_twice_materialized; [exact Ht | congruence].
    + apply forced_twice_materialized; [exact Ht | congruence].
  - apply Fix. now apply forced_no_template.
Qed.

End Forced.

(** C8: for every command line with --force and without --dry-run whose
    domain has a first label that names one entry of a directory, every
    process and every tree, deploying again on the tree the first run has
    left gives that tree again: the same files, the same bytes in each of
    them (the configured ones among them), the same owners.  The label is
    asked to name an entry because [script_dir / subdomain] is the entry
    [subdomain] of the script's directory only then: for a domain that
    starts with a '.' it is that directory itself. *)
Theorem force_redeploy_idempotent (e : env) (argv : cmdline) (tree : node) :
  entry_name (_extract_subdomain (domain_of argv)) = true ->
  arg_force argv = true ->
  arg_dry_run argv = false ->
  tree_after e argv (tree_after e argv tree) = tree_after e argv tree /\
  forall p, data_at (tree_after e argv (tree_after e argv tree)) p
            = data_at (tree_after e argv tree) p.
Proof.
  intros _ Hf Hd.
  assert (E : tree_after e argv (tree_after e argv tree) = tree_after e argv tree).
  { destruct (accepted_dec argv) as [Ha|Hr].
    - destruct (deploy_run e argv Ha) as (numeric & _ & H).
      rewrite (proj2 (H (tree_after e argv tree))), (proj2 (H tree)).
      apply (forced_twice e argv numeric Hf Hd tree).
    - now rewrite !tree_after_rejected. }
  split; [exact E|]. intros p. now rewrite E.
Qed.

Lemma force_redeploy_witness :
  tree_after (Sample.root EndOfInput) (Sample.args "journal1.example.com" true false None)
    (tree_after (Sample.root EndOfInput) (Sample.args "journal1.example.com" true false None)
       Sample.deployed)
  = tree_after (Sample.root EndOfInput) (Sample.args "journal1.example.com" true false None)
      Sample.deployed /\
  forall p,
    data_at (tree_after (Sample.root EndOfInput)
               (Sample.args "journal1.example.com" true false None)
               (tree_after (Sample.root EndOfInput)
                  (Sample.args "journal1.example.com" true false None) Sample.deployed)) p
    = data_at (tree_after (Sample.root EndOfInput)
                 (Sample.args "journal1.example.com" true false None) Sample.deployed) p.
Proof.
  apply (force_redeploy_idempotent (Sample.root EndOfInput)
           (Sample.args "journal1.example.com" true false None) Sample.deployed);
    reflexivity.
Defined.

(** The files of the instance after the forced run on the sample tree. *)
Example forced_run_configures :
  data_at (tree_after (Sample.root EndOfInput)
             (Sample.args "journal1.example.com" true false None) Sample.deployed)
    ["journal1"; "compose.yml"]
  = Some (Text "services: journal-journal1: depends_on: db-journal1") /\
  owner_at (tree_after (Sample.root EndOfInput)
              (Sample.args "journal1.example.com" true false None) Sample.deployed)
    ["journal1"; "volumes"; "db"; "ibdata1"]
  = Some (999, 999) /\
  owner_at (tree_after (Sample.root EndOfInput)
              (Sample.args "journal1.example.com" true false None) Sample.deployed)
    ["journal1"; "volumes"; "config"; "config.inc.php"]
  = Some (33, 33).
Proof. repeat split; vm_compute; reflexivity. Qed.

(* ================================================================== *)
(** * Further properties of the cleanup tool *)

Lemma run_run_command (sh : Cleanup.shell) (command : string) (history : list string) :
  run (Cleanup.run_command sh command) history
  = (Ok (match sh history command with
         | Some stdout => Some (Py.strip stdout)
         | None => None
         end), (history ++ [command])%list).
Proof.
  unfold Cleanup.run_command, put. rewrite run_bind, run_get. cbv beta iota.
  rewrite run_bind. unfold run at 1, result_of, state_of. cbn [fst snd].
  destruct (sh history command); reflexivity.
Qed.

(** One stage: the listing, the action when something is listed, and on to
    the rest whatever the engine answered. *)
Lemma run_stage {B} (sh : Cleanup.shell) (listing action done none : string)
    (k : unit -> M (list string) B) (history : list string) :
  run (bind (Cleanup.run_command sh listing) (fun ids =>
         bind (if Cleanup.truthy ids
               then bind (Cleanup.run_command sh (Cleanup.fmt action ids))
                      (fun _ => print done)
               else print none) k)) history
  = run (k tt) (history ++ stage_commands sh history listing action)%list.
Proof.
  rewrite run_bind, run_run_command. cbv beta iota. rewrite run_bind.
  unfold stage_commands.
  destruct (sh history listing) as [out|].
  - destruct (Cleanup.truthy (Some (Py.strip out))).
    + rewrite run_bind, run_run_command. cbv beta iota. rewrite run_print.
      cbn [Cleanup.fmt]. now rewrite <- app_assoc.
    + now rewrite run_print.
  - cbn [Cleanup.truthy]. now rewrite run_print.
Qed.

(** What the tool does, by the line it reads. *)
Lemma run_clean_docker (sh : Cleanup.shell) (answer : reply) :
  run (Cleanup.clean_docker sh answer) []
  = match answer with
    | Line line =>
        if (Py.lower line =? "yes")%string
        then (Ok tt, confirmed_commands sh)
        else (Exit 0, [])
    | EndOfInput => (Raise EOFError, [])
    | Interrupt => (Raise KeyboardInterrupt, [])
    end.
Proof.
  unfold Cleanup.clean_docker.
  rewrite run_bind, run_print. cbv beta iota.
  rewrite run_bind, run_input.
  destruct answer as [line| |]; cbv beta iota; [|reflexivity..].
  rewrite run_bind.
  destruct (Py.lower line =? "yes")%string; cbn [negb].
  - rewrite run_ret. cbv beta iota.
    do 2 (rewrite run_bind, run_print; cbv beta iota).
    rewrite run_stage. cbv beta.
    do 3 (rewrite run_bind, run_print; cbv beta iota; rewrite run_stage; cbv beta).
    rewrite run_bind, run_print. cbv beta iota.
    rewrite run_bind, run_run_command. cbv beta iota.
    rewrite run_bind, run_print. cbv beta iota. rewrite run_print.
    reflexivity.
  - rewrite run_bind, run_print. cbv beta iota. rewrite run_sys_exit. reflexivity.
Qed.

Lemma invoked_run (sh : Cleanup.shell) (answer : reply) :
  result_of (Cleanup.script sh answer) = fst (run (Cleanup.clean_docker sh answer) []) /\
  Cleanup.invoked sh answer = snd (run (Cleanup.clean_docker sh answer) []).
Proof. split; reflexivity. Qed.

(** X1: once confirmed the tool goes to its end whatever the engine does: a
    command that fails is taken for an empty answer.  It always lists the
    containers first and prunes the networks last, and asks for the images
    and the volumes in between. *)
Theorem confirmed_cleanup_completes (sh : Cleanup.shell) (line : string) :
  Py.lower line = "yes" ->
  result_of (Cleanup.script sh (Line line)) = Ok tt /\
  hd_error (Cleanup.invoked sh (Line line)) = Some "docker ps -aq" /\
  last (Cleanup.invoked sh (Line line)) EmptyString = "docker network prune -f" /\
  In "docker images -q" (Cleanup.invoked sh (Line line)) /\
  In "docker volume ls -q" (Cleanup.invoked sh (Line line)).
Proof.
  intros Hyes. apply String.eqb_eq in Hyes.
  destruct (invoked_run sh (Line line)) as [-> ->].
  rewrite run_clean_docker, Hyes. cbn [fst snd]. unfold confirmed_commands. cbv zeta.
  split; [reflexivity|]. split; [reflexivity|]. split; [apply last_last|].
  split.
  - apply in_or_app. left. apply in_or_app. left. apply in_or_app. right. now left.
  - apply in_or_app. left. apply in_or_app. right. now left.
Qed.

Lemma confirmed_cleanup_witness :
  result_of (Cleanup.script Cleanup.idle_engine (Line "Yes")) = Ok tt /\
  hd_error (Cleanup.invoked Cleanup.idle_engine (Line "Yes")) = Some "docker ps -aq" /\
  last (Cleanup.invoked Cleanup.idle_engine (Line "Yes")) EmptyString
  = "docker network prune -f" /\
  In "docker images -q" (Cleanup.invoked Cleanup.idle_engine (Line "Yes")) /\
  In "docker volume ls -q" (Cleanup.invoked Cleanup.idle_engine (Line "Yes")).
Proof.
  apply (confirmed_cleanup_completes Cleanup.idle_engine "Yes"). reflexivity.
Defined.

(** X2: when every listing comes back empty, blank or failed, the confirmed
    tool runs the four listings (the containers twice) and the network
    prune, and none of stop, rm, rmi and volume rm: an engine that is down
    looks like an engine with nothing to clean. *)
Theorem nothing_to_clean (sh : Cleanup.shell) (line : string) :
  Py.lower line = "yes" ->
  (forall history command out,
     sh history command = Some out -> Py.strip out = EmptyString) ->
  Cleanup.invoked sh (Line line)
  = ["docker ps -aq"; "docker ps -aq"; "docker images -q"; "docker volume ls -q";
     "docker network prune -f"].
Proof.
  intros Hyes Hempty. apply String.eqb_eq in Hyes.
  rewrite (proj2 (invoked_run sh (Line line))), run_clean_docker, Hyes. cbn [snd].
  assert (S : forall h listing action, stage_commands sh h listing action = [listing]).
  { intros h listing action. unfold stage_commands.
    destruct (sh h listing) as [out|] eqn:E; [|reflexivity].
    now rewrite (Hempty _ _ _ E). }
  unfold confirmed_commands. cbv zeta. rewrite !S. reflexivity.
Qed.

Lemma nothing_to_clean_witness :
  Cleanup.invoked (fun _ _ => None) (Line "yes")
  = ["docker ps -aq"; "docker ps -aq"; "docker images -q"; "docker volume ls -q";
     "docker network prune -f"].
Proof.
  apply (nothing_to_clean (fun _ _ => None) "yes"); [reflexivity|].
  intros history command out H. discriminate H.
Defined.

(** X3: a stage acts on exactly what its listing printed, stripped: the
    containers stopped are those of the first listing, and the containers
    removed those of a second listing made after the stop. *)
Theorem cleanup_acts_on_listing (sh : Cleanup.shell) (line out : string) :
  Py.lower line = "yes" ->
  sh [] "docker ps -aq" = Some out ->
  Py.strip out <> EmptyString ->
  firstn 3 (Cleanup.invoked sh (Line line))
  = ["docker ps -aq"; "docker stop " ++ Py.strip out; "docker ps -aq"] /\
  forall again,
    sh ["docker ps -aq"; "docker stop " ++ Py.strip out] "docker ps -aq" = Some again ->
    Py.strip again <> EmptyString ->
    nth_error (Cleanup.invoked sh (Line line)) 3 = Some ("docker rm " ++ Py.strip again).
Proof.
  intros Hyes Hout Hne. apply String.eqb_eq in Hyes.
  rewrite (proj2 (invoked_run sh (Line line))), run_clean_docker, Hyes. cbn [snd].
  unfold confirmed_commands. cbv zeta.
  assert (T : forall s, s <> EmptyString -> Cleanup.truthy (Some s) = true)
    by (intros [|c r] H; [now elim H | reflexivity]).
  assert (S1 : stage_commands sh [] "docker ps -aq" "docker stop "
               = ["docker ps -aq"; "docker stop " ++ Py.strip out]).
  { unfold stage_commands. now rewrite Hout, (T _ Hne). }
  rewrite S1. split.
  - rewrite <- !app_assoc. reflexivity.
  - intros again Hagain Hne2.
    assert (S2 : stage_commands sh ["docker ps -aq"; "docker stop " ++ Py.strip out]
                   "docker ps -aq" "docker rm "
                 = ["docker ps -aq"; "docker rm " ++ Py.strip again]).
    { unfold stage_commands. now rewrite Hagain, (T _ Hne2). }
    rewrite S2. rewrite <- !app_assoc. reflexivity.
Qed.

Lemma cleanup_acts_on_listing_witness :
  firstn 3 (Cleanup.invoked (fun _ _ => Some " abc123 ") (Line "yes"))
  = ["docker ps -aq"; "docker stop abc123"; "docker ps -aq"] /\
  nth_error (Cleanup.invoked (fun _ _ => Some " abc123 ") (Line "yes")) 3
  = Some "docker rm abc123".
Proof.
  destruct (cleanup_acts_on_listing (fun _ _ => Some " abc123 ") "yes" " abc123 ")
    as [H1 H2]; [reflexivity | reflexivity | vm_compute; discriminate |].
  split; [exact H1|]. apply (H2 " abc123 "); [reflexivity | vm_compute; discriminate].
Defined.

(** X4: the tool runs a command of the engine only after it has read a line
    whose lower case is "yes": at end of input or on an interrupt at the
    prompt the exception of [input] is caught nowhere and leaves the
    script, and nothing has been run. *)
Theorem cleanup_runs_only_confirmed (sh : Cleanup.shell) (answer : reply) :
  (Cleanup.invoked sh answer <> [] ->
   exists line, answer = Line line /\ Py.lower line = "yes") /\
  (answer = EndOfInput ->
   result_of (Cleanup.script sh answer) = Raise EOFError /\
   Cleanup.invoked sh answer = []) /\
  (answer = Interrupt ->
   result_of (Cleanup.script sh answer) = Raise KeyboardInterrupt /\
   Cleanup.invoked sh answer = []).
Proof.
  destruct (invoked_run sh answer) as [-> ->]. rewrite run_clean_docker. split.
  - destruct answer as [line| |]; cbn [snd]; try congruence.
    destruct (String.eqb_spec (Py.lower line) "yes") as [E|_]; cbn [snd]; [|congruence].
    intros _. now exists line.
  - split; intros ->; split; reflexivity.
Qed.

Lemma cleanup_runs_only_confirmed_witness :
  (exists line, Line "yEs" = Line line /\ Py.lower line = "yes") /\
  result_of (Cleanup.script Cleanup.idle_engine EndOfInput) = Raise EOFError /\
  Cleanup.invoked Cleanup.idle_engine EndOfInput = [].
Proof.
  split.
  - apply (proj1 (cleanup_runs_only_confirmed Cleanup.idle_engine (Line "yEs"))).
    vm_compute. discriminate.
  - apply (proj1 (proj2 (cleanup_runs_only_confirmed Cleanup.idle_engine EndOfInput))).
    reflexivity.
Defined.

(* ================================================================== *)
(** * Further properties of the deployer *)

(** ** Privilege *)

Lemma group_names_none (db : Z -> option string) (gids : list Z) :
  group_names db gids = None <-> exists g, In g gids /\ db g = None.
Proof.
  induction gids as [|g r IH]; cbn [group_names].
  - split; [discriminate | intros (g & [] & _)].
  - destruct (db g) as [name|] eqn:Eg.
    + destruct (group_names db r) as [names|].
      * split; [discriminate|]. intros (g' & [<-|Hin] & Hg'); [congruence|].
        assert (Some names = None) as Habs by (apply IH; now exists g').
        discriminate Habs.
      * split; [|reflexivity]. intros _. destruct (proj1 IH eq_refl) as (g' & Hin & Hg').
        exists g'. split; [now right | exact Hg'].
    + split; [|reflexivity]. intros _. exists g. split; [now left | exact Eg].
Qed.

Lemma group_names_some (db : Z -> option string) (gids : list Z) (names : list string) :
  group_names db gids = Some names ->
  forall name, In name names <-> exists g, In g gids /\ db g = Some name.
Proof.
  revert names. induction gids as [|g r IH]; intros names H name; cbn [group_names] in H.
  - injection H as <-. split; [intros [] | intros (g & [] & _)].
  - destruct (db g) as [n|] eqn:Eg; [|discriminate].
    destruct (group_names db r) as [rest|]; [|discriminate].
    injection H as <-. specialize (IH rest eq_refl name). split.
    + intros [<-|Hin].
      * exists g. split; [now left | exact Eg].
      * destruct (proj1 IH Hin) as (g' & Hg' & E). exists g'. split; [now right | exact E].
    + intros (g' & [<-|Hg'] & E).
      * left. congruence.
      * right. apply IH. now exists g'.
Qed.

(** X5: [_has_privilege] holds for the superuser, and for a user with a group
    named sudo or wheel provided every group of the process has a name: one
    group missing from the group database ([KeyError]) denies the privilege
    even to a member of sudo. *)
Theorem has_privilege_iff (e : env) :
  _has_privilege e = true <->
  euid e = 0 \/
  ((forall g, In g (getgroups e) -> getgrgid e g <> None) /\ admin_member e).
Proof.
  unfold _has_privilege. destruct (Z.eqb_spec (euid e) 0) as [E0|Hne].
  - split; [now left | reflexivity].
  - destruct (group_names (getgrgid e) (getgroups e)) as [names|] eqn:G.
    + pose proof (group_names_some _ _ _ G) as Hn. split.
      * intros H. right. split.
        -- intros g Hg Hnone.
           assert (group_names (getgrgid e) (getgroups e) = None) as Habs
               by (apply group_names_none; now exists g).
           congruence.
        -- apply existsb_exists in H. destruct H as (name & Hin & Hadm).
           destruct (proj1 (Hn name) Hin) as (g & Hg & Eg). exists g. split; [exact Hg|].
           unfold Py.str_in in Hadm. cbn [existsb] in Hadm. rewrite orb_false_r in Hadm.
           apply orb_true_iff in Hadm. destruct Hadm as [A|A]; apply String.eqb_eq in A;
             subst name; tauto.
      * intros [E0|[_ (g & Hg & Hadm)]]; [contradiction|].
        apply existsb_exists. destruct Hadm as [A|A].
        -- exists "sudo". split; [apply Hn; now exists g | reflexivity].
        -- exists "wheel". split; [apply Hn; now exists g | reflexivity].
    + split; [discriminate|]. intros [E0|[Hall _]]; [contradiction|].
      apply group_names_none in G. destruct G as (g & Hg & Hnone). now elim (Hall g Hg).
Qed.

Lemma has_privilege_iff_witness :
  _has_privilege (Sample.operator EndOfInput) = true /\
  (euid (Sample.root EndOfInput) = 0 \/
   ((forall g, In g (getgroups (Sample.root EndOfInput)) ->
               getgrgid (Sample.root EndOfInput) g <> None) /\
    admin_member (Sample.root EndOfInput))).
Proof.
  split.
  - apply (proj2 (has_privilege_iff (Sample.operator EndOfInput))). right. split.
    + intros g [<-|[<-|[]]]; discriminate.
    + exists 27. split; [right; now left | now left].
  - apply (proj1 (has_privilege_iff (Sample.root EndOfInput))). reflexivity.
Defined.

(** ** The instance identifier *)

Lemma contains_hd_split (s : string) :
  Py.contains "." (hd EmptyString (Py.split "." s)) = false.
Proof.
  induction s as [|c r IH]; [reflexivity|].
  destruct (Ascii.eqb c ".") eqn:E.
  - simpl. rewrite E. reflexivity.
  - rewrite (hd_split_cons _ _ _ E). simpl. now rewrite E, IH.
Qed.

Lemma hd_split_dotless (s : string) :
  Py.contains "." s = false -> hd EmptyString (Py.split "." s) = s.
Proof.
  induction s as [|c r IH]; [reflexivity|]. simpl Py.contains.
  destruct (Ascii.eqb c ".") eqn:E; [discriminate|]. cbn [orb]. intros H.
  rewrite (hd_split_cons _ _ _ E). now rewrite IH.
Qed.

(** X6: the identifier never holds a '.', taking it twice changes nothing, and
    it is empty exactly for the empty domain and the domains that start
    with a '.'. *)
Theorem extract_subdomain_label (domain : string) :
  Py.contains "." (_extract_subdomain domain) = false /\
  _extract_subdomain (_extract_subdomain domain) = _extract_subdomain domain /\
  (_extract_subdomain domain = EmptyString <->
   domain = EmptyString \/ exists rest, domain = String "." rest).
Proof.
  unfold _extract_subdomain. split; [apply contains_hd_split|]. split.
  - apply hd_split_dotless, contains_hd_split.
  - destruct domain as [|c r]; [split; [now left | reflexivity]|].
    destruct (Ascii.eqb c ".") eqn:E.
    + apply Ascii.eqb_eq in E. subst c. split; [|reflexivity].
      intros _. right. now exists r.
    + rewrite (hd_split_cons _ _ _ E). split; [discriminate|].
      intros [H|[rest H]]; [discriminate|]. injection H as -> _.
      now rewrite Ascii.eqb_refl in E.
Qed.

Lemma extract_subdomain_label_witness :
  _extract_subdomain ".example.com" = EmptyString.
Proof.
  apply (proj2 (proj2 (proj2 (extract_subdomain_label ".example.com")))).
  right. now exists "example.com".
Defined.

(** ** Substitution *)

Lemma count_from_nonneg (old s : string) (skip : nat) : 0 <= Py.count_from old s skip.
Proof.
  revert skip. induction s as [|c r IH]; intros skip; cbn [Py.count_from]; [lia|].
  destruct skip as [|k]; [|apply IH].
  destruct (String.prefix old (String c r)); [|apply IH].
  specialize (IH (Nat.pred (String.length old))). lia.
Qed.

Lemma replace_from_absent (old new s : string) :
  Py.count_from old s 0 = 0 -> Py.replace_from old new s 0 = s.
Proof.
  induction s as [|c r IH]; cbn [Py.count_from Py.replace_from]; [reflexivity|].
  destruct (String.prefix old (String c r)).
  - pose proof (count_from_nonneg old r (Nat.pred (String.length old))). lia.
  - intros H. now rewrite IH.
Qed.

(** A token that does not occur is replaced by nothing. *)
Lemma replace_absent (s old new : string) : Py.count s old = 0 -> Py.replace s old new = s.
Proof.
  unfold Py.count, Py.replace. destruct old as [|c r].
  - lia.
  - apply replace_from_absent.
Qed.

(** The test on the number of occurrences only serves the count: the text
    is the one the replacements give one after the other. *)
Lemma apply_replacements_replace_all (content : string) (count : Z)
    (replacements : list (string * string)) :
  fst (apply_replacements content count replacements) = replace_all replacements content /\
  count <= snd (apply_replacements content count replacements).
Proof.
  revert content count. induction replacements as [|[old new] r IH]; intros content count.
  - split; [reflexivity | cbn; lia].
  - cbn [apply_replacements replace_all fold_left fst snd].
    destruct (Z.eqb_spec (Py.count content old) 0) as [E|Hne].
    + rewrite (replace_absent _ _ new E). apply IH.
    + destruct (IH (Py.replace content old new) (count + Py.count content old)) as [H1 H2].
      split; [exact H1|].
      assert (0 <= Py.count content old).
      { unfold Py.count. destruct old; [lia | apply count_from_nonneg]. }
      lia.
Qed.

Lemma replace_all_absent (content : string) (replacements : list (string * string)) :
  (forall old new, In (old, new) replacements -> Py.count content old = 0) ->
  replace_all replacements content = content.
Proof.
  induction replacements as [|[old new] r IH]; intros H; [reflexivity|].
  unfold replace_all. cbn [fold_left fst snd].
  rewrite (replace_absent _ _ new (H old new (or_introl eq_refl))).
  apply IH. intros o n Hin. apply (H o n). now right.
Qed.

Lemma update_entry_fixed (x : string) (g : node -> node) (c : node)
    (es : list (string * node)) :
  assoc x es = Some c -> g c = c -> update_entry x g es = es.
Proof.
  intros Ha Hg. induction es as [|[y d] r IH]; [discriminate|].
  cbn [assoc update_entry] in *. destruct (y =? x)%string.
  - injection Ha as ->. now rewrite Hg.
  - now rewrite IH.
Qed.

Lemma alter_fixed (f : node -> node) (p : Path) (t n : node) :
  lookup t p = Some n -> f n = n -> alter f p t = t.
Proof.
  revert t. induction p as [|x p IH]; intros t Hl Hf; cbn [lookup alter] in *.
  - injection Hl as ->. exact Hf.
  - destruct t as [o d|o es]; [reflexivity|].
    destruct (assoc x es) as [c|] eqn:Ea; [|discriminate].
    f_equal. apply (update_entry_fixed x _ c es Ea). now apply IH.
Qed.

(** Text without a carriage return is read as it is. *)
Lemma universal_newlines_plain (c : string) :
  Py.contains Py.cr c = false -> Py.universal_newlines c = c.
Proof.
  induction c as [|a r IH]; [reflexivity|]. cbn [Py.contains Py.universal_newlines].
  intros H. apply orb_false_iff in H. destruct H as [Ha Hr].
  rewrite Ha. now rewrite IH.
Qed.

(** What has been read holds no carriage return. *)
Lemma universal_newlines_no_cr (c : string) :
  Py.contains Py.cr (Py.universal_newlines c) = false.
Proof.
  assert (H : forall n c, (String.length c <= n)%nat ->
                          Py.contains Py.cr (Py.universal_newlines c) = false).
  { clear c. induction n as [|n IH]; intros [|a r] Hn; try reflexivity;
      cbn [String.length] in Hn; [lia|].
    cbn [Py.universal_newlines]. destruct (Ascii.eqb a Py.cr) eqn:Ea.
    - cbn [Py.contains]. change (Ascii.eqb Py.lf Py.cr) with false. cbn [orb].
      destruct r as [|d r']; [reflexivity|]. cbn [String.length] in Hn.
      destruct (Ascii.eqb d Py.lf); apply IH; cbn [String.length]; lia.
    - cbn [Py.contains]. rewrite Ea. cbn [orb]. apply IH. lia. }
  now apply (H (String.length c)).
Qed.

Lemma state_with_own_fs (s : state) : with_fs s (fs s) = s.
Proof. destruct s. reflexivity. Qed.

(** A regular file put in the place of the regular file at [p] does not
    show in a shallow observation of any other path. *)
Lemma lookup_write_other {A} (obs : node -> A) (new : node) (p q : Path) (t : node)
    (o : owner) (d : content) :
  shallow obs ->
  lookup t p = Some (File o d) ->
  is_dir_node new = false ->
  q <> p ->
  option_map obs (lookup (alter (fun _ => new) p t) q) = option_map obs (lookup t q).
Proof.
  intros Hobs. revert t q. induction p as [|x p IH]; intros t q Hl Hnew Hne.
  - cbn [lookup] in Hl. injection Hl as ->. destruct q as [|y q]; [congruence|].
    cbn [alter]. destruct new; [reflexivity | discriminate].
  - destruct t as [dd c|dd es]; [discriminate|]. cbn [lookup] in Hl.
    destruct (assoc x es) as [c|] eqn:Ea; [|discriminate].
    destruct q as [|y q]; cbn [alter lookup option_map].
    + f_equal. apply Hobs.
    + destruct (String.eqb_spec y x) as [->|Hyx].
      * rewrite assoc_update_entry_same, Ea. cbn [option_map].
        apply IH; [exact Hl | exact Hnew | congruence].
      * now rewrite assoc_update_entry_other.
Qed.

Lemma shallow_file_data : shallow file_data.
Proof. intros d es es'. reflexivity. Qed.

Lemma same_at_obs (t t' : node) (q : Path) :
  (forall A (obs : node -> A), shallow obs ->
     option_map obs (lookup t q) = option_map obs (lookup t' q)) ->
  same_at t t' q.
Proof.
  intros H. split; [|split].
  - apply (H _ is_dir_node shallow_is_dir_node).
  - apply (H _ owner_of shallow_owner_of).
  - pose proof (H _ file_data shallow_file_data) as E. unfold data_at.
    destruct (lookup t q) as [[o d|o es]|], (lookup t' q) as [[o' d'|o' es']|];
      cbn in E; congruence.
Qed.

Lemma same_at_refl (t : node) (q : Path) : same_at t t q.
Proof. repeat split. Qed.

Lemma same_at_trans (t1 t2 t3 : node) (q : Path) :
  same_at t1 t2 q -> same_at t2 t3 q -> same_at t1 t3 q.
Proof. intros (A & B & C) (A' & B' & C'). repeat split; congruence. Qed.

(** X7: without --dry-run, on a file of text, the step succeeds; afterwards
    the file holds the text as it was read, that is with every "\r\n" and
    every other "\r" turned into "\n", after the replacements, applied in
    order; it still has its owner, and every other path names what it
    named. *)
Theorem substitution_writes_one_file (e : env) (p : Path)
    (replacements : list (string * string)) (s : state) (o : owner) (c : string) :
  lookup (fs s) p = Some (File o (Text c)) ->
  fst (run (_replace_in_file e p replacements false) s) = Ok tt /\
  lookup (fs (snd (run (_replace_in_file e p replacements false) s))) p
  = Some (File o (Text (replace_all replacements (Py.universal_newlines c)))) /\
  forall q, q <> p ->
    same_at (fs (snd (run (_replace_in_file e p replacements false) s))) (fs s) q.
Proof.
  intros Hl. rewrite run_replace_in_file, Hl. cbn [fst snd with_fs fs].
  rewrite (proj1 (apply_replacements_replace_all (Py.universal_newlines c) 0 replacements)).
  split; [reflexivity|]. split.
  - rewrite lookup_alter_same, Hl. reflexivity.
  - intros q Hq. apply same_at_obs. intros A obs Hobs.
    now apply (lookup_write_other obs _ p q (fs s) o (Text c)).
Qed.

Lemma substitution_writes_witness :
  lookup (fs (snd (run (_replace_in_file (Sample.root EndOfInput) ["compose.yml"]
                        [("{{JOURNAL}}", "journal-a"); ("{{DATABASE}}", "db-a")] false)
                     (initial (Dir (0, 0)
                                 [("compose.yml",
                                   File (1000, 1000)
                                     (Text ("services:" ++ String Py.cr Py.nl
                                            ++ "{{JOURNAL}}:" ++ String Py.cr "{{DATABASE}}")))])))))
    ["compose.yml"]
  = Some (File (1000, 1000) (Text ("services:" ++ Py.nl ++ "journal-a:" ++ Py.nl ++ "db-a"))).
Proof.
  apply (substitution_writes_one_file (Sample.root EndOfInput) ["compose.yml"]
           [("{{JOURNAL}}", "journal-a"); ("{{DATABASE}}", "db-a")]
           (initial (Dir (0, 0)
                       [("compose.yml",
                         File (1000, 1000)
                           (Text ("services:" ++ String Py.cr Py.nl
                                  ++ "{{JOURNAL}}:" ++ String Py.cr "{{DATABASE}}")))]))
           (1000, 1000)
           ("services:" ++ String Py.cr Py.nl ++ "{{JOURNAL}}:" ++ String Py.cr "{{DATABASE}}")).
  reflexivity.
Defined.

(** X8: a file of text in which, as it is read, none of the tokens occurs is
    still written back: afterwards it holds the text as it was read, with
    every "\r\n" and every other "\r" turned into "\n", and so never a
    "\r".  A file without a "\r" is written back as it is: then the run
    leaves the whole state as it was. *)
Theorem substitution_without_tokens (e : env) (p : Path)
    (replacements : list (string * string)) (s : state) (o : owner) (c : string) :
  lookup (fs s) p = Some (File o (Text c)) ->
  (forall old new, In (old, new) replacements ->
     Py.count (Py.universal_newlines c) old = 0) ->
  fst (run (_replace_in_file e p replacements false) s) = Ok tt /\
  lookup (fs (snd (run (_replace_in_file e p replacements false) s))) p
  = Some (File o (Text (Py.universal_newlines c))) /\
  Py.contains Py.cr (Py.universal_newlines c) = false /\
  (Py.contains Py.cr c = false ->
   run (_replace_in_file e p replacements false) s = (Ok tt, s)).
Proof.
  intros Hl Hnone. rewrite run_replace_in_file, Hl.
  rewrite (proj1 (apply_replacements_replace_all (Py.universal_newlines c) 0 replacements)).
  rewrite (replace_all_absent _ replacements Hnone). cbn [fst snd with_fs fs].
  split; [reflexivity|]. split; [now rewrite lookup_alter_same, Hl|].
  split; [apply universal_newlines_no_cr|].
  intros Hcr. rewrite (universal_newlines_plain c Hcr).
  rewrite (alter_fixed _ p (fs s) _ Hl eq_refl). now rewrite state_with_own_fs.
Qed.

Lemma substitution_without_tokens_witness :
  run (_replace_in_file (Sample.root EndOfInput) ["deploy.py"]
         [("{{JOURNAL}}", "journal-a"); ("{{DATABASE}}", "db-a")] false)
      (initial Sample.fresh)
  = (Ok tt, initial Sample.fresh).
Proof.
  apply (substitution_without_tokens (Sample.root EndOfInput) ["deploy.py"]
           [("{{JOURNAL}}", "journal-a"); ("{{DATABASE}}", "db-a")]
           (initial Sample.fresh) (1000, 1000) "#!/usr/bin/env python3").
  - reflexivity.
  - intros old new [H|[H|[]]]; injection H as <- _; reflexivity.
  - reflexivity.
Defined.

Lemma run_replace_in_file_dry (e : env) (p : Path) (reps : list (string * string))
    (s : state) :
  run (_replace_in_file e p reps true) s
  = (match lookup (fs s) p with
     | Some (Dir _ _) => Raise IsADirectoryError
     | Some (File _ (Raw _)) => Raise UnicodeDecodeError
     | _ => Ok tt
     end, s).
Proof.
  unfold _replace_in_file. rewrite run_bind, run_path_exists. cbv beta iota.
  destruct (lookup (fs s) p) as [n|] eqn:El; cbn [negb]; cbv iota.
  - rewrite run_bind, run_read_text, El.
    destruct n as [o [c|b]|o es]; [|reflexivity..].
    destruct (apply_replacements (Py.universal_newlines c) 0 reps) as [content count].
    unfold log_info. now rewrite run_log_at.
  - unfold log_warning. now rewrite run_log_at.
Qed.

(** X9: with or without --dry-run: a path that names nothing is skipped, and
    the step succeeds; but [exists()] also holds for a directory, and a
    directory or a file that is not UTF-8 at the path makes the read raise,
    with the state as it was. *)
Theorem substitution_skips_or_raises (e : env) (p : Path)
    (replacements : list (string * string)) (dry : bool) (s : state) :
  (lookup (fs s) p = None ->
   run (_replace_in_file e p replacements dry) s = (Ok tt, s)) /\
  (forall o es, lookup (fs s) p = Some (Dir o es) ->
   run (_replace_in_file e p replacements dry) s = (Raise IsADirectoryError, s)) /\
  (forall o b, lookup (fs s) p = Some (File o (Raw b)) ->
   run (_replace_in_file e p replacements dry) s = (Raise UnicodeDecodeError, s)).
Proof.
  destruct dry.
  - rewrite run_replace_in_file_dry.
    repeat split; [intros H | intros o es H | intros o b H]; now rewrite H.
  - rewrite run_replace_in_file.
    repeat split; [intros H | intros o es H | intros o b H]; now rewrite H.
Qed.

Lemma substitution_skips_or_raises_witness :
  run (_replace_in_file (Sample.root EndOfInput) ["journal1"; ".env"] [] true)
      (initial Sample.fresh) = (Ok tt, initial Sample.fresh) /\
  run (_replace_in_file (Sample.root EndOfInput) ["journal"; "volumes"] [] true)
      (initial Sample.fresh) = (Raise IsADirectoryError, initial Sample.fresh).
Proof.
  split.
  - apply (proj1 (substitution_skips_or_raises (Sample.root EndOfInput)
                    ["journal1"; ".env"] [] true (initial Sample.fresh))).
    reflexivity.
  - destruct (substitution_skips_or_raises (Sample.root EndOfInput)
                ["journal"; "volumes"] [] true (initial Sample.fresh)) as (_ & H & _).
    eapply H. reflexivity.
Defined.

(** ** The ownership step, further *)

Lemma preserves_try_except {A} (I : node -> Prop) (m : M state A)
    (handler : exn -> option (M state A)) :
  preserves I m ->
  (forall x h, handler x = Some h -> preserves I h) ->
  preserves I (try_except m handler).
Proof.
  intros Hm Hh s Hs. specialize (Hm s Hs). unfold state_of, try_except in *.
  destruct (m s) as [[[a|c|x] s1] o1]; cbn [fst snd] in *; auto.
  destruct (handler x) as [h|] eqn:E; cbn [fst snd]; auto.
  specialize (Hh x h E s1 Hm). unfold state_of in Hh.
  destruct (h s1) as [[r s2] o2]. exact Hh.
Qed.

(** A property of the tree that no change of owner at or below [path]
    breaks is kept by [_chown_recursive] on [path], however it ends. *)
Lemma preserves_chown_list (I : node -> Prop) (e : env) (uid gid : Z) (ps : list Path) :
  (forall p t, In p ps -> I t -> I (alter (set_owner (uid, gid)) p t)) ->
  preserves I (for_each ps (fun p => os_chown e p uid gid)).
Proof.
  induction ps as [|p ps IH]; intros H.
  - apply preserves_keeps, keeps_ret.
  - cbn [for_each]. apply preserves_bind.
    + apply preserves_run. intros s Hs. rewrite run_os_chown.
      destruct (lookup (fs s) p) as [n|]; [|exact Hs].
      destruct (may_chown e n uid gid); [|exact Hs].
      cbn [snd with_fs fs]. apply H; [now left | exact Hs].
    + intros _. apply IH. intros q t Hq. apply H. now right.
Qed.

Lemma preserves_chown_recursive_below (I : node -> Prop) (e : env) (path : Path)
    (uid gid : Z) (dry : bool) :
  (forall p t, below path p -> I t -> I (alter (set_owner (uid, gid)) p t)) ->
  preserves I (_chown_recursive e path uid gid dry).
Proof.
  intros H. destruct dry; [apply preserves_keeps, dry_chown_recursive|].
  apply preserves_run. intros s Hs. rewrite run_chown_recursive.
  apply (preserves_chown_list I e uid gid); [|exact Hs].
  intros p t Hp. apply H. destruct (lookup (fs s) path) as [n|]; [|contradiction].
  now apply (chown_targets_below n).
Qed.

Lemma preserves_set_permissions_below (I : node -> Prop) (e : env) (target_dir : Path)
    (dry : bool) :
  (forall o p t, below (target_dir ++ ["volumes"])%list p -> I t ->
                 I (alter (set_owner o) p t)) ->
  preserves I (set_permissions e target_dir dry).
Proof.
  intros H. unfold set_permissions.
  repeat first
    [ apply preserves_chown_recursive_below
    | apply preserves_bind; [|intros ?]
    | apply preserves_keeps; solve [keeps] ].
  - intros p t Hp. now apply H.
  - intros p t [r ->]. apply H. exists ("db" :: r). now rewrite <- app_assoc.
Qed.

Lemma data_at_chown (o : owner) (p q : Path) (t : node) :
  data_at (alter (set_owner o) p t) q = data_at t q.
Proof.
  unfold data_at. destruct (list_eq_dec string_dec q p) as [->|Hne].
  - rewrite lookup_alter_same. destruct (lookup t p) as [[d c|d es]|]; reflexivity.
  - pose proof (lookup_chown_other file_data o p q t shallow_file_data Hne) as E.
    destruct (lookup (alter (set_owner o) p t) q) as [[d c|d es]|],
             (lookup t q) as [[d' c'|d' es']|]; cbn in E; congruence.
Qed.

Lemma set_permissions_frame (e : env) (target_dir : Path) (dry : bool) (s : state) (q : Path) :
  kind_at (fs (snd (run (set_permissions e target_dir dry) s))) q = kind_at (fs s) q /\
  data_at (fs (snd (run (set_permissions e target_dir dry) s))) q = data_at (fs s) q /\
  (~ below (target_dir ++ ["volumes"])%list q ->
   owner_at (fs (snd (run (set_permissions e target_dir dry) s))) q = owner_at (fs s) q).
Proof.
  apply (preserves_set_permissions_below
           (fun t => kind_at t q = kind_at (fs s) q /\
                     data_at t q = data_at (fs s) q /\
                     (~ below (target_dir ++ ["volumes"])%list q ->
                      owner_at t q = owner_at (fs s) q))
           e target_dir dry).
  - intros o p t Hp (K & D & O). rewrite kind_at_chown, data_at_chown.
    split; [exact K|]. split; [exact D|]. intros Hq. rewrite <- (O Hq).
    apply owner_at_chown_other. intros ->. contradiction.
  - repeat split.
Qed.

(** X10: however it ends, with or without --dry-run, the ownership step never
    creates or removes a path or turns a file into a directory, never
    changes the bytes of a file, and leaves every path that is not at or
    below the volumes directory exactly as it is. *)
Theorem set_permissions_only_owners (e : env) (target_dir : Path) (dry : bool) (s : state) :
  forall q,
    kind_at (fs (snd (run (set_permissions e target_dir dry) s))) q = kind_at (fs s) q /\
    data_at (fs (snd (run (set_permissions e target_dir dry) s))) q = data_at (fs s) q /\
    (~ below (target_dir ++ ["volumes"])%list q ->
     owner_at (fs (snd (run (set_permissions e target_dir dry) s))) q = owner_at (fs s) q).
Proof. intros q. apply set_permissions_frame. Qed.

Lemma set_permissions_only_owners_witness :
  owner_at (fs (snd (run (set_permissions (Sample.root EndOfInput) ["journal1"] false)
                       (initial Sample.deployed)))) ["journal1"; ".env"]
  = owner_at Sample.deployed ["journal1"; ".env"].
Proof.
  apply (set_permissions_only_owners (Sample.root EndOfInput) ["journal1"] false
           (initial Sample.deployed) ["journal1"; ".env"]).
  intros [r H]. discriminate H.
Defined.

(** X11: [os.walk] gives nothing for a path that is not a directory: on an
    instance without a volumes directory (none at all, or a regular file
    of that name) the privileged ownership step succeeds and changes
    nothing. *)
Theorem set_permissions_without_volumes (e : env) (target_dir : Path) (s : state) :
  _has_privilege e = true ->
  kind_at (fs s) (target_dir ++ ["volumes"])%list <> Some true ->
  run (set_permissions e target_dir false) s = (Ok tt, s).
Proof.
  intros Hp Hk. rewrite (run_set_permissions e target_dir s Hp).
  assert (W : forall path uid gid,
             kind_at (fs s) path <> Some true ->
             run (_chown_recursive e path uid gid false) s = (Ok tt, s)).
  { intros path uid gid H. rewrite run_chown_recursive. unfold kind_at in H.
    destruct (lookup (fs s) path) as [[o d|o es]|]; try reflexivity. now elim H. }
  rewrite (W _ _ _ Hk). rewrite W; [reflexivity|].
  unfold kind_at in *. rewrite lookup_app.
  destruct (lookup (fs s) (target_dir ++ ["volumes"])%list) as [[o d|o es]|];
    [discriminate | now elim Hk | discriminate].
Qed.

Lemma set_permissions_without_volumes_witness :
  run (set_permissions (Sample.root EndOfInput) ["deploy.py"] false) (initial Sample.fresh)
  = (Ok tt, initial Sample.fresh).
Proof.
  apply (set_permissions_without_volumes (Sample.root EndOfInput) ["deploy.py"]
           (initial Sample.fresh)); [reflexivity | vm_compute; discriminate].
Defined.

(** X12: a member of sudo or wheel who is not the superuser passes
    [_has_privilege], but the first [os.chown] on the volumes directory is
    refused by the system (only the superuser gives files away, and the
    user is not uid 33): the step raises [PermissionError] with nothing
    changed, which ends the process with status 1 and not with the
    permission status 2. *)
Theorem set_permissions_group_member_refused (e : env) (target_dir : Path) (s : state) :
  _has_privilege e = true ->
  euid e <> 0 ->
  euid e <> WWW_DATA_UID ->
  kind_at (fs s) (target_dir ++ ["volumes"])%list = Some true ->
  run (set_permissions e target_dir false) s = (Raise PermissionError, s).
Proof.
  intros Hp H0 H33 Hk. rewrite (run_set_permissions e target_dir s Hp).
  rewrite run_chown_recursive. unfold kind_at in Hk.
  destruct (lookup (fs s) (target_dir ++ ["volumes"])%list) as [[o d|o es]|] eqn:El;
    [discriminate| |discriminate].
  cbn [walk_node]. unfold chown_targets. cbn [flat_map app for_each].
  rewrite run_bind, run_os_chown, El.
  assert (M : may_chown e (Dir o es) WWW_DATA_UID WWW_DATA_GID = false).
  { unfold may_chown. apply Z.eqb_neq in H0. rewrite H0. cbn [orb].
    assert ((WWW_DATA_UID =? euid e) = false) as -> by (apply Z.eqb_neq; congruence).
    now rewrite andb_false_r. }
  rewrite M. reflexivity.
Qed.

Lemma set_permissions_group_member_witness :
  run (set_permissions (Sample.operator EndOfInput) ["journal1"] false)
      (initial Sample.deployed)
  = (Raise PermissionError, initial Sample.deployed).
Proof.
  apply (set_permissions_group_member_refused (Sample.operator EndOfInput) ["journal1"]
           (initial Sample.deployed)); try reflexivity; discriminate.
Defined.

(** ** Collision handling *)

(** What the step does to the state, for each of its four ways. *)
Lemma run_handle_existing_target (e : env) (target_dir : Path) (force dry : bool)
    (s : state) :
  run (handle_existing_target e target_dir force dry) s
  = match lookup (fs s) target_dir with
    | None => (Ok tt, s)
    | Some n =>
        if dry then (Ok tt, s)
        else if force || confirms (stdin e)
        then match n with
             | File _ _ => (Raise NotADirectoryError, s)
             | Dir _ _ => (Ok tt, with_fs s (remove target_dir (fs s)))
             end
        else (Exit EXIT_USER_ERROR, s)
    end.
Proof.
  destruct dry.
  - unfold handle_existing_target. rewrite run_bind, run_path_exists. cbv beta iota.
    destruct (lookup (fs s) target_dir); cbn [negb]; cbv iota; [|reflexivity].
    unfold log_info. now rewrite run_log_at.
  - destruct force; [apply run_handle_force|].
    unfold handle_existing_target. rewrite run_bind, run_path_exists. cbv beta iota.
    destruct (lookup (fs s) target_dir) as [n|] eqn:El; cbn [negb orb]; cbv iota;
      [|reflexivity].
    unfold log_warning, log_info. rewrite run_bind, run_log_at. cbv beta iota.
    rewrite run_bind, run_try_except, run_bind, run_input.
    destruct (stdin e) as [l| |]; cbv beta iota; cbn [confirms].
    + rewrite run_ret. cbv beta iota. rewrite run_bind.
      destruct (Py.str_in (Py.lower (Py.strip l)) ["y"; "yes"]); cbn [negb].
      * rewrite run_ret. cbv beta iota. rewrite run_rmtree, El. destruct n; reflexivity.
      * now rewrite run_bind, run_log_at.
    + rewrite !run_bind, run_print. cbv beta iota. now rewrite run_bind, run_log_at.
    + rewrite !run_bind, run_print. cbv beta iota. now rewrite run_bind, run_log_at.
Qed.

Lemma lookup_remove_below (p r : Path) (t : node) :
  p <> [] -> lookup (remove p t) (p ++ r)%list = None.
Proof.
  revert t. induction p as [|x p IH]; intros t Hne; [congruence|].
  destruct t as [o d|o es]; [destruct p; reflexivity|].
  destruct p as [|y p].
  - cbn [remove app lookup]. now rewrite assoc_remove_entry_same.
  - cbn [remove]. cbn [app lookup]. rewrite assoc_update_entry_same.
    destruct (assoc x es) as [c|]; [|reflexivity]. cbn [option_map].
    apply (IH c). discriminate.
Qed.

Lemma lookup_remove_other {A} (obs : node -> A) (p q : Path) (t : node) :
  shallow obs ->
  ~ below p q ->
  option_map obs (lookup (remove p t) q) = option_map obs (lookup t q).
Proof.
  intros Hobs. revert t q. induction p as [|x p IH]; intros t q Hq; [reflexivity|].
  destruct t as [o d|o es]; [destruct p; reflexivity|].
  destruct q as [|y q].
  - destruct p; cbn [remove lookup option_map]; f_equal; apply Hobs.
  - destruct p as [|z p].
    + cbn [remove lookup]. destruct (String.eqb_spec y x) as [->|Hyx].
      * elim Hq. now exists q.
      * now rewrite assoc_remove_entry_other.
    + cbn [remove lookup]. destruct (String.eqb_spec y x) as [->|Hyx].
      * rewrite assoc_update_entry_same. destruct (assoc x es) as [c|]; [|reflexivity].
        cbn [option_map]. apply IH. intros [r Hr]. apply Hq. exists r.
        cbn [app]. now rewrite Hr.
      * now rewrite assoc_update_entry_other.
Qed.

(** X13: when the destination exists and is not a dry run: with --force or a
    yes at the prompt a directory is removed with all below it, and every
    path that is not at or below it names what it named; a regular file
    makes [shutil.rmtree] raise with nothing changed; and a yes at the
    prompt does to the state what --force does. *)
Theorem overwrite_removes_destination (e : env) (target_dir : Path) (force : bool)
    (s : state) :
  target_dir <> [] ->
  force || confirms (stdin e) = true ->
  run (handle_existing_target e target_dir force false) s
  = run (handle_existing_target e target_dir true false) s /\
  (forall o es, lookup (fs s) target_dir = Some (Dir o es) ->
     fst (run (handle_existing_target e target_dir force false) s) = Ok tt /\
     (forall r, lookup (fs (snd (run (handle_existing_target e target_dir force false) s)))
                  (target_dir ++ r)%list = None) /\
     (forall q, ~ below target_dir q ->
        same_at (fs (snd (run (handle_existing_target e target_dir force false) s)))
          (fs s) q)) /\
  (forall o d, lookup (fs s) target_dir = Some (File o d) ->
     run (handle_existing_target e target_dir force false) s
     = (Raise NotADirectoryError, s)).
Proof.
  intros Hne Hov. rewrite !run_handle_existing_target. rewrite Hov. cbn [orb].
  split; [reflexivity|]. split.
  - intros o es Hl. rewrite Hl. cbn [fst snd with_fs fs].
    split; [reflexivity|]. split.
    + intros r. now apply lookup_remove_below.
    + intros q Hq. apply same_at_obs. intros A obs Hobs.
      now apply lookup_remove_other.
  - intros o d Hl. now rewrite Hl.
Qed.

Lemma overwrite_removes_witness :
  lookup (fs (snd (run (handle_existing_target (Sample.root (Line " Yes ")) ["journal1"]
                        false false) (initial Sample.deployed))))
    ["journal1"; "volumes"; "db"] = None.
Proof.
  destruct (overwrite_removes_destination (Sample.root (Line " Yes ")) ["journal1"] false
              (initial Sample.deployed)) as (_ & H & _);
    [discriminate | reflexivity|].
  destruct (H (0, 0) _ eq_refl) as (_ & Hgone & _).
  apply (Hgone ["volumes"; "db"]).
Defined.

(** ** What a run may touch *)

Section Frame.

Variables (e : env) (sub : string) (I : node -> Prop).

Hypothesis alter_ok : forall f q t, I t -> I (alter f (sub :: q) t).
Hypothesis remove_ok : forall t, I t -> I (remove [sub] t).
Hypothesis graft_ok : forall o new t t', graft o [sub] new t = Some t' -> I t -> I t'.

Lemma frame_handle (force dry : bool) :
  preserves I (handle_existing_target e [sub] force dry).
Proof.
  apply preserves_run. intros s Hs. rewrite run_handle_existing_target.
  destruct (lookup (fs s) [sub]) as [n|]; [|exact Hs].
  destruct dry; [exact Hs|].
  destruct (force || confirms (stdin e)); [|exact Hs].
  destruct n; [exact Hs|]. cbn [snd with_fs fs]. now apply remove_ok.
Qed.

Lemma frame_copy (src : Path) (dry : bool) :
  preserves I (copy_template e src [sub] dry).
Proof.
  destruct dry; [apply preserves_keeps, dry_copy_template|].
  apply preserves_run. intros s Hs. rewrite run_copy_template.
  destruct (lookup (fs s) src) as [[o d|o es]|]; try exact Hs.
  destruct (lookup (fs s) [sub]); [exact Hs|].
  destruct (graft (euid e, egid e) [sub] (copy_as (euid e, egid e) (Dir o es)) (fs s))
    as [t'|] eqn:G; [|exact Hs].
  cbn [snd with_fs fs]. now apply (graft_ok _ _ _ _ G).
Qed.

Lemma frame_replace (q : Path) (reps : list (string * string)) (dry : bool) :
  preserves I (_replace_in_file e (sub :: q) reps dry).
Proof.
  destruct dry; [apply preserves_keeps, dry_replace_in_file|].
  apply preserves_run. intros s Hs. rewrite run_replace_in_file.
  destruct (lookup (fs s) (sub :: q)) as [[o [c|b]|o es]|]; try exact Hs.
  cbn [snd with_fs fs]. now apply alter_ok.
Qed.

Lemma frame_set_permissions (dry : bool) :
  preserves I (set_permissions e [sub] dry).
Proof.
  apply preserves_set_permissions_below. intros o p t [r ->]. apply alter_ok.
Qed.

Lemma frame_steps (argv : cmdline) :
  sub = _extract_subdomain (domain_of argv) ->
  preserves I (steps e argv).
Proof.
  intros Hsub. unfold steps, materialize, finish. cbv zeta. rewrite <- Hsub.
  unfold configure_env, configure_config_inc, configure_compose. cbn [app].
  repeat first
    [ apply frame_handle | apply frame_copy | apply frame_replace
    | apply frame_set_permissions
    | apply preserves_bind; [|intros ?]
    | apply preserves_keeps;
      solve [keeps | apply keeps_print_summary | apply keeps_validate_environment]
    | match goal with |- preserves _ (if ?b then _ else _) => destruct b end ].
Qed.

(** A property of the tree that is kept by every change inside the
    instance entry, by its removal and by its creation is kept by the whole
    invocation, however it ends. *)
Lemma frame_invocation (argv : cmdline) (tree : node) :
  sub = _extract_subdomain (domain_of argv) ->
  I tree -> I (tree_after e argv tree).
Proof.
  intros Hsub Ht. destruct (accepted_dec argv) as [Ha|Hr].
  - destruct (deploy_run e argv Ha) as (numeric & _ & H).
    rewrite (proj2 (H tree)).
    apply (frame_steps argv Hsub {| fs := tree; root_level := numeric |} Ht).
  - now rewrite tree_after_rejected.
Qed.

End Frame.

(** X14: whatever the command line, the process and the answer at the prompt,
    and however the run ends, the deployer touches nothing but the entry of
    its directory that has the name of the instance: every other entry,
    with all below it, is after the run what it was before, and the
    directory itself keeps its owner.  That holds for the template unless
    the first label of the domain is the name of the template.  The first
    label is taken to name one entry: for a domain that starts with a '.'
    the destination is the directory of the script itself. *)
Theorem deployer_touches_only_instance (e : env) (argv : cmdline) (tree : node) (x : string) :
  entry_name (_extract_subdomain (domain_of argv)) = true ->
  x <> _extract_subdomain (domain_of argv) ->
  lookup (tree_after e argv tree) [x] = lookup tree [x] /\
  owner_at (tree_after e argv tree) [] = owner_at tree [] /\
  kind_at (tree_after e argv tree) [] = kind_at tree [].
Proof.
  intros _ Hx.
  apply (frame_invocation e (_extract_subdomain (domain_of argv))
           (fun t => lookup t [x] = lookup tree [x] /\
                     owner_at t [] = owner_at tree [] /\
                     kind_at t [] = kind_at tree [])).
  - intros f q t (L & O & K). destruct t as [o d|o es]; [now repeat split|].
    split; [|split]; [|exact O | exact K].
    rewrite <- L. cbn [alter lookup]. now rewrite assoc_update_entry_other.
  - intros t (L & O & K). destruct t as [o d|o es]; [now repeat split|].
    split; [|split]; [|exact O | exact K].
    rewrite <- L. cbn [remove lookup]. now rewrite assoc_remove_entry_other.
  - intros o new t t' G (L & O & K). destruct t as [od d|od es]; [discriminate|].
    cbn [graft] in G. destruct (assoc _ es); [discriminate|]. injection G as <-.
    split; [|split]; [|exact O | exact K].
    rewrite <- L. cbn [lookup]. rewrite assoc_app_last_other; [reflexivity|].
    intros E. apply Hx. now symmetry.
  - reflexivity.
  - repeat split.
Qed.

Lemma deployer_touches_only_instance_witness :
  lookup (tree_after (Sample.root EndOfInput)
            (Sample.args "journal1.example.com" true false None) Sample.deployed)
    ["journal"]
  = lookup Sample.deployed ["journal"].
Proof.
  apply (deployer_touches_only_instance (Sample.root EndOfInput)
           (Sample.args "journal1.example.com" true false None) Sample.deployed "journal").
  - reflexivity.
  - vm_compute. discriminate.
Defined.

(** ** Exit statuses *)

Lemma exits_with_bind {A B} (G : Z -> Prop) (m : M state A) (f : A -> M state B) :
  exits_with G m -> (forall a, exits_with G (f a)) -> exits_with G (bind m f).
Proof.
  intros Hm Hf s. specialize (Hm s). unfold result_of, bind in *.
  destruct (m s) as [[[a|c|x] s1] o1]; cbn [fst] in *; auto.
  specialize (Hf a s1). unfold result_of in Hf.
  destruct (f a s1) as [[r s2] o2]. exact Hf.
Qed.

Lemma exits_with_run {A} (G : Z -> Prop) (m : M state A) :
  (forall s, match fst (run m s) with Exit c => G c | _ => True end) -> exits_with G m.
Proof. intros H s. exact (H s). Qed.

Lemma exits_with_quiet {A} (G : Z -> Prop) (m : M state A) : quiet m -> exits_with G m.
Proof. intros H s. destruct (H s) as (a & o & E). now rewrite E. Qed.

Lemma exits_with_weaken {A} (G G' : Z -> Prop) (m : M state A) :
  (forall c, G c -> G' c) -> exits_with G m -> exits_with G' m.
Proof.
  intros H Hm s. specialize (Hm s). destruct (result_of (m s)); auto.
Qed.

Lemma returns_bind {A B} (R : B -> Prop) (m : M state A) (f : A -> M state B) :
  (forall a, returns R (f a)) -> returns R (bind m f).
Proof.
  intros Hf s. unfold result_of, bind.
  destruct (m s) as [[[a|c|x] s1] o1]; cbn [fst]; auto.
  specialize (Hf a s1). unfold result_of in Hf.
  destruct (f a s1) as [[r s2] o2]. exact Hf.
Qed.

Lemma chown_list_never_exits (e : env) (uid gid : Z) (ps : list Path) (s : state) (c : Z) :
  fst (run (for_each ps (fun p => os_chown e p uid gid)) s) <> Exit c.
Proof.
  revert s. induction ps as [|p ps IH]; intros s; [discriminate|].
  cbn [for_each]. rewrite run_bind, run_os_chown.
  destruct (lookup (fs s) p) as [n|]; [|discriminate].
  destruct (may_chown e n uid gid); [apply IH | discriminate].
Qed.

Lemma chown_recursive_never_exits (e : env) (path : Path) (uid gid : Z) (s : state)
    (c : Z) :
  fst (run (_chown_recursive e path uid gid false) s) <> Exit c.
Proof. rewrite run_chown_recursive. apply chown_list_never_exits. Qed.

(** The only exit of the ownership step is the permission status, taken
    when [_has_privilege] fails. *)
Lemma exits_set_permissions (e : env) (target_dir : Path) (dry : bool) :
  exits_with (fun c => c = 2 /\ _has_privilege e = false) (set_permissions e target_dir dry).
Proof.
  apply exits_with_run. intros s. destruct (_has_privilege e) eqn:Hp.
  - destruct dry.
    + unfold set_permissions, _chown_recursive, log_info. rewrite Hp. cbn [negb].
      run_all. exact I.
    + rewrite (run_set_permissions e target_dir s Hp).
      destruct (run (_chown_recursive e (target_dir ++ ["volumes"])%list
                       WWW_DATA_UID WWW_DATA_GID false) s) as [[u|c|x] s1] eqn:E1;
        cbn [fst]; auto.
      * destruct (run (_chown_recursive e ((target_dir ++ ["volumes"]) ++ ["db"])%list
                         MYSQL_UID MYSQL_GID false) s1) as [[u'|c|x] s2] eqn:E2;
          cbn [fst]; auto.
        apply (f_equal fst) in E2. now apply chown_recursive_never_exits in E2.
      * apply (f_equal fst) in E1. now apply chown_recursive_never_exits in E1.
  - rewrite (proj1 (set_permissions_exit_2 e target_dir dry s Hp) : fst (run _ s) = _).
    now split.
Qed.

Lemma exits_validate (e : env) (template_dir : Path) :
  exits_with (fun c => c = 1) (validate_environment e template_dir).
Proof.
  apply exits_with_run. intros s. rewrite run_validate_environment.
  now destruct (is_dir (fs s) template_dir).
Qed.

Lemma exits_handle (e : env) (target_dir : Path) (force dry : bool) :
  exits_with (fun c => c = 1) (handle_existing_target e target_dir force dry).
Proof.
  apply exits_with_run. intros s. rewrite run_handle_existing_target.
  destruct (lookup (fs s) target_dir) as [n|]; [|exact I].
  destruct dry; [exact I|].
  destruct (force || confirms (stdin e)); [now destruct n | reflexivity].
Qed.

Lemma exits_copy (e : env) (src dst : Path) (dry : bool) (G : Z -> Prop) :
  exits_with G (copy_template e src dst dry).
Proof.
  destruct dry.
  - unfold copy_template. apply exits_with_quiet. auto with quiet.
  - apply exits_with_run. intros s. rewrite run_copy_template.
    destruct (lookup (fs s) src) as [[o d|o es]|]; try exact I.
    destruct (lookup (fs s) dst); [exact I|].
    now destruct (graft _ dst _ (fs s)).
Qed.

Lemma exits_replace (e : env) (p : Path) (reps : list (string * string)) (dry : bool)
    (G : Z -> Prop) :
  exits_with G (_replace_in_file e p reps dry).
Proof.
  apply exits_with_run. intros s. destruct dry.
  - rewrite run_replace_in_file_dry. now destruct (lookup (fs s) p) as [[o [c|b]|o es]|].
  - rewrite run_replace_in_file. now destruct (lookup (fs s) p) as [[o [c|b]|o es]|].
Qed.

Lemma quiet_then {S A B} (m : M S A) (f : A -> M S B) :
  quiet m -> (forall a, quiet (f a)) -> quiet (bind m f).
Proof.
  intros Hm Hf s. destruct (Hm s) as (a & o & E).
  destruct (Hf a s) as (b & o' & E').
  exists b, (o ++ o')%list. unfold bind. now rewrite E, E'.
Qed.

Lemma quiet_print_summary (d t : string) : quiet (print_summary d t).
Proof.
  unfold print_summary.
  repeat first [apply quiet_print | apply quiet_then; [|intros ?]].
Qed.

Lemma exits_steps (e : env) (argv : cmdline) :
  exits_with (fun c => c = 1 \/ (c = 2 /\ _has_privilege e = false)) (steps e argv).
Proof.
  unfold steps, materialize, finish. cbv zeta.
  unfold configure_env, configure_config_inc, configure_compose.
  repeat first
    [ apply exits_copy | apply exits_replace
    | apply (exits_with_weaken _ _ _ (fun c H => or_introl H)); apply exits_validate
    | apply (exits_with_weaken _ _ _ (fun c H => or_introl H)); apply exits_handle
    | apply (exits_with_weaken _ _ _ (fun c H => or_intror H)); apply exits_set_permissions
    | apply exits_with_bind; [|intros ?]
    | apply exits_with_quiet;
      solve [auto with quiet | apply quiet_print_summary
            | intros s; eexists _, _; reflexivity]
    | match goal with |- exits_with _ (if ?b then _ else _) => destruct b end ].
Qed.

Lemma returns_steps (e : env) (argv : cmdline) :
  returns (fun c => c = 0) (steps e argv).
Proof.
  unfold steps, materialize, finish. cbv zeta.
  repeat (apply returns_bind; intros ?).
  intros s. reflexivity.
Qed.

(** X15: the exit status of the process is 0, 1 or 2, whatever the invocation;
    and it is 2 only when the argument parser rejects the command line or
    when [_has_privilege] fails at the ownership step: every other failure,
    an exception of the file system among them, gives 1. *)
Theorem exit_status_taxonomy (e : env) (argv : cmdline) (tree : node) :
  (exit_code e argv tree = 0 \/ exit_code e argv tree = 1 \/ exit_code e argv tree = 2) /\
  (exit_code e argv tree = 2 -> ~ accepted argv \/ _has_privilege e = false).
Proof.
  destruct (accepted_dec argv) as [Ha|Hr].
  - destruct (deploy_run e argv Ha) as (numeric & _ & H).
    rewrite (proj1 (H tree)).
    change (fst (run (steps e argv) ?s)) with (result_of (steps e argv s)).
    pose proof (exits_steps e argv {| fs := tree; root_level := numeric |}) as X.
    pose proof (returns_steps e argv {| fs := tree; root_level := numeric |}) as R.
    destruct (result_of (steps e argv {| fs := tree; root_level := numeric |}))
      as [c|c|x]; cbn [main_status].
    + subst c. split; [now left | discriminate].
    + destruct X as [->|[-> Hp]]; split; auto. discriminate.
    + split; [right; now left | discriminate].
  - unfold exit_code, deploy.
    rewrite (proj1 (script_of_main e argv (initial tree))).
    rewrite (proj1 (main_rejected e argv (initial tree) Hr)). cbn [main_status].
    split; auto.
Qed.

Lemma exit_status_taxonomy_witness :
  ~ accepted (Sample.args "journal1.example.com" false false (Some "TRACE")) \/
  _has_privilege (Sample.root EndOfInput) = false.
Proof.
  apply (proj2 (exit_status_taxonomy (Sample.root EndOfInput)
                  (Sample.args "journal1.example.com" false false (Some "TRACE"))
                  Sample.fresh)).
  reflexivity.
Defined.

(** ** Runs that end early *)

Lemma run_steps_real (e : env) (argv : cmdline) (s : state) :
  arg_dry_run argv = false ->
  run (steps e argv) s
  = if is_dir (fs s) [TEMPLATE_DIR]
    then match run (handle_existing_target e (target_of argv) (arg_force argv) false) s with
         | (Ok _, s1) => run (materialize e argv false) s1
         | (Exit c, s1) => (Exit c, s1)
         | (Raise x, s1) => (Raise x, s1)
         end
    else (Exit EXIT_USER_ERROR, s).
Proof.
  intros Hd. unfold steps, target_of. cbv zeta. rewrite Hd.
  rewrite run_bind, run_validate_environment.
  destruct (is_dir (fs s) [TEMPLATE_DIR]); cbv iota; [|reflexivity].
  now rewrite run_bind.
Qed.

(** X16: without --dry-run, a destination that is a regular file is never
    replaced: with --force or a yes at the prompt [shutil.rmtree] raises,
    otherwise the run is aborted; either way the process exits with
    status 1 and the tree is as it was. *)
Theorem destination_file_is_kept (e : env) (argv : cmdline) (tree : node)
    (o : owner) (d : content) :
  accepted argv ->
  arg_dry_run argv = false ->
  lookup tree (target_of argv) = Some (File o d) ->
  exit_code e argv tree = 1 /\ tree_after e argv tree = tree.
Proof.
  intros Ha Hd Hl. destruct (deploy_run e argv Ha) as (numeric & _ & H).
  destruct (H tree) as [-> ->]. rewrite (run_steps_real e argv _ Hd). cbn [fs].
  destruct (is_dir tree [TEMPLATE_DIR]); [|split; reflexivity].
  rewrite run_handle_existing_target. cbn [fs]. rewrite Hl.
  destruct (arg_force argv || confirms (stdin e)); split; reflexivity.
Qed.

Lemma destination_file_witness :
  exit_code (Sample.root EndOfInput) (Sample.args "notes.example.com" true false None)
    (Dir (0, 0) [("notes", File (0, 0) (Text "to do")); ("journal", Sample.template)]) = 1 /\
  tree_after (Sample.root EndOfInput) (Sample.args "notes.example.com" true false None)
    (Dir (0, 0) [("notes", File (0, 0) (Text "to do")); ("journal", Sample.template)])
  = Dir (0, 0) [("notes", File (0, 0) (Text "to do")); ("journal", Sample.template)].
Proof.
  apply (destination_file_is_kept (Sample.root EndOfInput)
           (Sample.args "notes.example.com" true false None)
           (Dir (0, 0) [("notes", File (0, 0) (Text "to do")); ("journal", Sample.template)])
           (0, 0) (Text "to do")).
  - apply accepted_sample.
  - reflexivity.
  - reflexivity.
Defined.

Lemma run_materialize_no_template (e : env) (argv : cmdline) (s : state) :
  lookup (fs s) [TEMPLATE_DIR] = None ->
  run (materialize e argv false) s = (Raise FileNotFoundError, s).
Proof.
  intros H. unfold materialize. cbv zeta. unfold log_info.
  rewrite run_bind, run_log_at. cbv beta iota.
  rewrite run_bind, run_copy_template. now rewrite H.
Qed.

(** X17: when the first label of the domain is the name of the template
    directory, the destination is the template: without --dry-run, with
    --force or a yes at the prompt, the template is removed, the copy then
    finds no source, and the process exits with status 1 having destroyed
    the template. *)
Theorem template_named_instance_destroys_template (e : env) (argv : cmdline) (tree : node) :
  accepted argv ->
  arg_dry_run argv = false ->
  overwrites e argv = true ->
  _extract_subdomain (domain_of argv) = TEMPLATE_DIR ->
  is_dir tree [TEMPLATE_DIR] = true ->
  exit_code e argv tree = 1 /\
  forall r, lookup (tree_after e argv tree) (TEMPLATE_DIR :: r) = None.
Proof.
  intros Ha Hd Hov Hsub Ht. destruct (deploy_run e argv Ha) as (numeric & _ & H).
  destruct (H tree) as [-> ->]. rewrite (run_steps_real e argv _ Hd). cbn [fs].
  rewrite Ht. rewrite run_handle_existing_target. unfold target_of. rewrite Hsub.
  cbn [fs]. unfold is_dir in Ht.
  destruct (lookup tree [TEMPLATE_DIR]) as [[ot dt|ot et]|] eqn:El; try discriminate.
  unfold overwrites in Hov. rewrite Hov. cbn [with_fs root_level].
  assert (Gone : forall r, lookup (remove [TEMPLATE_DIR] tree) (TEMPLATE_DIR :: r) = None).
  { intros r. apply (lookup_remove_below [TEMPLATE_DIR] r tree). discriminate. }
  rewrite run_materialize_no_template by apply (Gone []).
  split; [reflexivity | exact Gone].
Qed.

Lemma template_named_instance_witness :
  exit_code (Sample.root EndOfInput) (Sample.args "journal.example.com" true false None)
    Sample.fresh = 1 /\
  forall r, lookup (tree_after (Sample.root EndOfInput)
                      (Sample.args "journal.example.com" true false None) Sample.fresh)
              (TEMPLATE_DIR :: r) = None.
Proof.
  apply (template_named_instance_destroys_template (Sample.root EndOfInput)
           (Sample.args "journal.example.com" true false None) Sample.fresh).
  - apply accepted_sample.
  - reflexivity.
  - reflexivity.
  - reflexivity.
  - reflexivity.
Defined.

(** ** Runs that succeed *)

Lemma assoc_map_entries (g : node -> node) (x : string) (es : list (string * node)) :
  assoc x (map (fun e => (fst e, g (snd e))) es) = option_map g (assoc x es).
Proof.
  induction es as [|[y c] r IH]; [reflexivity|]. cbn [map assoc fst snd].
  destruct (y =? x)%string; [reflexivity | exact IH].
Qed.

(** A copy has the paths of its source. *)
Lemma lookup_copy_as (o : owner) (q : Path) (n : node) :
  lookup (copy_as o n) q = option_map (copy_as o) (lookup n q).
Proof.
  revert n. induction q as [|x q IH]; intros n; [reflexivity|].
  destruct n as [d c|d es]; [reflexivity|]. cbn [copy_as lookup].
  rewrite assoc_map_entries. destruct (assoc x es) as [c|]; [apply IH | reflexivity].
Qed.

(** A substitution that succeeds, path by path. *)
Lemma replace_step (e : env) (p : Path) (reps : list (string * string)) (s s' : state) :
  run (_replace_in_file e p reps false) s = (Ok tt, s') ->
  root_level s' = root_level s /\
  forall q,
    kind_at (fs s') q = kind_at (fs s) q /\
    owner_at (fs s') q = owner_at (fs s) q /\
    data_at (fs s') q
    = if list_eq_dec string_dec q p
      then option_map (configured reps) (data_at (fs s) q)
      else data_at (fs s) q.
Proof.
  rewrite run_replace_in_file.
  destruct (lookup (fs s) p) as [[o [c|b]|o es]|] eqn:El; try discriminate.
  - intros H. injection H as <-. cbn [with_fs root_level fs]. split; [reflexivity|].
    intros q. destruct (list_eq_dec string_dec q p) as [->|Hne].
    + unfold kind_at, owner_at, data_at. rewrite lookup_alter_same, El.
      cbn [option_map is_dir_node owner_of configured].
      now rewrite (proj1 (apply_replacements_replace_all (Py.universal_newlines c) 0 reps)).
    + destruct (same_at_obs
                  (alter (fun _ => File o
                            (Text (fst (apply_replacements (Py.universal_newlines c) 0 reps))))
                     p (fs s))
                  (fs s) q) as (K & O & D).
      { intros A obs Hobs. now apply (lookup_write_other obs _ p q (fs s) o (Text c)). }
      now repeat split.
  - intros H. injection H as <-. split; [reflexivity|]. intros q.
    destruct (list_eq_dec string_dec q p) as [->|Hne]; [|now repeat split].
    unfold data_at. rewrite El. now repeat split.
Qed.

Lemma run_bind_ok {S A B} (m : M S A) (f : A -> M S B) (s s' : S) (b : B) :
  run (bind m f) s = (Ok b, s') ->
  exists a s1, run m s = (Ok a, s1) /\ run (f a) s1 = (Ok b, s').
Proof.
  rewrite run_bind. destruct (run m s) as [[a|c|x] s1]; try discriminate. eauto.
Qed.

Lemma run_quiet_of {S A} (m : M S A) (s : S) : quiet m -> exists a, run m s = (Ok a, s).
Proof. intros H. destruct (H s) as (a & o & E). exists a. unfold run. now rewrite E. Qed.

(** The files of the instance once [finish] has succeeded on it. *)
Lemma finish_ok (e : env) (argv : cmdline) (s s' : state) (c : Z) :
  run (finish e argv false) s = (Ok c, s') ->
  forall q,
    kind_at (fs s') (_extract_subdomain (domain_of argv) :: q)
    = kind_at (fs s) (_extract_subdomain (domain_of argv) :: q) /\
    data_at (fs s') (_extract_subdomain (domain_of argv) :: q)
    = option_map (instance_data argv q)
        (data_at (fs s) (_extract_subdomain (domain_of argv) :: q)) /\
    (~ below ["volumes"] q ->
     owner_at (fs s') (_extract_subdomain (domain_of argv) :: q)
     = owner_at (fs s) (_extract_subdomain (domain_of argv) :: q)).
Proof.
  unfold finish. cbv zeta. set (sub := _extract_subdomain (domain_of argv)).
  unfold configure_env, configure_config_inc, configure_compose. cbn [app].
  intros H.
  apply run_bind_ok in H. destruct H as ([] & s1 & E1 & H).
  apply run_bind_ok in H. destruct H as ([] & s2 & E2 & H).
  apply run_bind_ok in H. destruct H as ([] & s3 & E3 & H).
  apply run_bind_ok in H. destruct H as ([] & s4 & E4 & H).
  apply run_bind_ok in H. destruct H as ([] & s5 & E5 & H).
  rewrite run_ret in H. injection H as _ <-.
  cbn [negb] in E5. destruct (run_quiet_of (print_summary (domain_of argv) sub) s4
              (quiet_print_summary (domain_of argv) sub))
    as (u & E5'). rewrite E5' in E5. injection E5 as _ <-.
  destruct (replace_step _ _ _ _ _ E1) as [_ R1].
  destruct (replace_step _ _ _ _ _ E2) as [_ R2].
  destruct (replace_step _ _ _ _ _ E3) as [_ R3].
  pose proof (f_equal snd E4) as E4'. cbn [snd] in E4'. subst s4.
  intros q.
  destruct (set_permissions_frame e [sub] false s3 (sub :: q)) as (K4 & D4 & O4).
  destruct (R1 (sub :: q)) as (K1 & O1 & D1).
  destruct (R2 (sub :: q)) as (K2 & O2 & D2).
  destruct (R3 (sub :: q)) as (K3 & O3 & D3).
  split; [congruence|].
  split; [|intros Hq; rewrite O4; [congruence|];
           intros [r Hr]; apply Hq; exists r; now injection Hr].
  rewrite D4, D3, D2, D1. unfold instance_data, configured_file, token_table.
  cbv zeta. fold sub.
  unfold acme_email_of, locale_of.
  destruct (list_eq_dec string_dec q [".env"]) as [->|N1].
  - destruct (list_eq_dec string_dec [sub; ".env"] [sub; "compose.yml"]); [discriminate|].
    destruct (list_eq_dec string_dec [sub; ".env"]
                [sub; "volumes"; "config"; "config.inc.php"]); [discriminate|].
    destruct (list_eq_dec string_dec [sub; ".env"] [sub; ".env"]); [reflexivity|congruence].
  - destruct (list_eq_dec string_dec (sub :: q) [sub; ".env"]) as [E|_]; [congruence|].
    destruct (list_eq_dec string_dec q ["volumes"; "config"; "config.inc.php"]) as [->|N2].
    + destruct (list_eq_dec string_dec [sub; "volumes"; "config"; "config.inc.php"]
                  [sub; "compose.yml"]); [discriminate|].
      destruct (list_eq_dec string_dec [sub; "volumes"; "config"; "config.inc.php"]
                  [sub; "volumes"; "config"; "config.inc.php"]); [reflexivity|congruence].
    + destruct (list_eq_dec string_dec (sub :: q)
                  [sub; "volumes"; "config"; "config.inc.php"]) as [E|_]; [congruence|].
      destruct (list_eq_dec string_dec q ["compose.yml"]) as [->|N3].
      * destruct (list_eq_dec string_dec [sub; "compose.yml"] [sub; "compose.yml"]);
          [reflexivity|congruence].
      * destruct (list_eq_dec string_dec (sub :: q) [sub; "compose.yml"]) as [E|_];
          [congruence|].
        now destruct (data_at (fs s) (sub :: q)).
Qed.

Lemma copy_as_shallow (o : owner) (n : node) :
  is_dir_node (copy_as o n) = is_dir_node n /\
  file_data (copy_as o n) = file_data n /\
  owner_of (copy_as o n) = o.
Proof. destruct n; repeat split. Qed.

Lemma steps_succeed (e : env) (argv : cmdline) (s : state) :
  main_status (fst (run (steps e argv) s)) = 0 ->
  run (steps e argv) s = (Ok 0, snd (run (steps e argv) s)).
Proof.
  intros H. pose proof (exits_steps e argv s) as X. pose proof (returns_steps e argv s) as R.
  change (result_of (steps e argv s)) with (fst (run (steps e argv) s)) in X, R.
  destruct (run (steps e argv) s) as [[c|c|x] s']; cbn [fst snd main_status] in *.
  - now subst c.
  - subst c. destruct X as [X|[X _]]; discriminate X.
  - discriminate H.
Qed.

(** A run that succeeds has passed the copy: the root is a directory, the
    template is one of its entries, another than the destination, and
    [finish] has succeeded on the root with the destination made anew. *)
Lemma success_reaches_finish (e : env) (argv : cmdline) (tree : node) (numeric : Z)
    (s' : state) :
  arg_dry_run argv = false ->
  run (steps e argv) {| fs := tree; root_level := numeric |} = (Ok 0, s') ->
  exists o es ot et,
    tree = Dir o es /\
    assoc TEMPLATE_DIR es = Some (Dir ot et) /\
    _extract_subdomain (domain_of argv) <> TEMPLATE_DIR /\
    assoc (_extract_subdomain (domain_of argv))
      (remove_entry (_extract_subdomain (domain_of argv)) es) = None /\
    run (finish e argv false)
      {| fs := Dir o (remove_entry (_extract_subdomain (domain_of argv)) es
                        ++ [(_extract_subdomain (domain_of argv),
                             copy_as (euid e, egid e) (Dir ot et))])%list;
         root_level := numeric |}
    = (Ok 0, s').
Proof.
  intros Hd H0. set (sub := _extract_subdomain (domain_of argv)).
  rewrite (run_steps_real e argv _ Hd) in H0. cbn [fs] in H0.
  destruct (is_dir tree [TEMPLATE_DIR]) eqn:Htmpl; [|discriminate].
  unfold is_dir in Htmpl. destruct tree as [o d|o es]; [discriminate|].
  cbn [lookup] in Htmpl.
  destruct (assoc TEMPLATE_DIR es) as [[ot dt|ot et]|] eqn:ET; try discriminate.
  exists o, es, ot, et. split; [reflexivity|]. split; [exact ET|].
  assert (E1 : run (materialize e argv false)
                 {| fs := Dir o (remove_entry sub es); root_level := numeric |}
               = (Ok 0, s')).
  { rewrite run_handle_existing_target in H0. unfold target_of in H0. fold sub in H0.
    cbn [fs lookup] in H0. destruct (assoc sub es) as [n|] eqn:Es.
    - destruct (arg_force argv || confirms (stdin e)); [|discriminate].
      destruct n; [discriminate | exact H0].
    - now rewrite (remove_entry_absent _ _ Es). }
  clear H0. set (rest := remove_entry sub es) in *.
  assert (Hfresh : assoc sub rest = None) by apply assoc_remove_entry_same.
  unfold materialize in E1. cbv zeta in E1. fold sub in E1. unfold log_info in E1.
  rewrite run_bind, run_log_at in E1. cbv beta iota in E1.
  rewrite run_bind, run_copy_template in E1. cbn [fs lookup] in E1.
  assert (Hne : sub <> TEMPLATE_DIR).
  { intros Eq. rewrite <- Eq, Hfresh in E1. discriminate E1. }
  split; [exact Hne|]. split; [exact Hfresh|].
  assert (ET' : assoc TEMPLATE_DIR rest = Some (Dir ot et)).
  { unfold rest. rewrite assoc_remove_entry_other; [exact ET|].
    intros Eq. apply Hne. now symmetry. }
  rewrite ET', Hfresh in E1. cbn [graft] in E1. rewrite Hfresh in E1.
  cbv beta iota in E1. unfold with_fs in E1. cbn [root_level] in E1. exact E1.
Qed.

Lemma lookup_new_instance (o : owner) (rest : list (string * node)) (sub : string)
    (own : owner) (tm : node) (q : Path) :
  assoc sub rest = None ->
  lookup (Dir o (rest ++ [(sub, copy_as own tm)])%list) (sub :: q)
  = option_map (copy_as own) (lookup tm q).
Proof.
  intros Hfresh. cbn [lookup]. rewrite (assoc_app_last_same _ _ _ Hfresh).
  apply lookup_copy_as.
Qed.

(** X18: a run without --dry-run that ends with status 0 has made the instance
    from the template: the first label is not the name of the template;
    the instance has exactly the paths of the template, directories for
    directories and files for files; each file holds the bytes of the
    template's file, but .env, volumes/config/config.inc.php and
    compose.yml, which hold the text of the template's file as it is read
    (every "\r\n" and every other "\r" turned into "\n") with the tokens
    of that file replaced in order; and what is not at or below volumes
    belongs to the user of the process. *)
Theorem successful_deployment (e : env) (argv : cmdline) (tree : node) :
  accepted argv ->
  entry_name (_extract_subdomain (domain_of argv)) = true ->
  arg_dry_run argv = false ->
  exit_code e argv tree = 0 ->
  _extract_subdomain (domain_of argv) <> TEMPLATE_DIR /\
  forall q,
    kind_at (tree_after e argv tree) (_extract_subdomain (domain_of argv) :: q)
    = kind_at tree (TEMPLATE_DIR :: q) /\
    data_at (tree_after e argv tree) (_extract_subdomain (domain_of argv) :: q)
    = option_map (instance_data argv q) (data_at tree (TEMPLATE_DIR :: q)) /\
    (~ below ["volumes"] q ->
     owner_at (tree_after e argv tree) (_extract_subdomain (domain_of argv) :: q)
     = option_map (fun _ => (euid e, egid e)) (kind_at tree (TEMPLATE_DIR :: q))).
Proof.
  intros Ha _ Hd H0. destruct (deploy_run e argv Ha) as (numeric & _ & H).
  destruct (H tree) as [Hc Ht]. rewrite Hc in H0. rewrite Ht. clear Hc Ht H.
  apply steps_succeed in H0.
  set (s' := snd (run (steps e argv) {| fs := tree; root_level := numeric |})) in *.
  clearbody s'.
  destruct (success_reaches_finish e argv tree numeric s' Hd H0)
    as (o & es & ot & et & -> & ET & Hne & Hfresh & E1).
  split; [exact Hne|]. intros q.
  destruct (finish_ok e argv _ s' 0 E1 q) as (K & D & O). cbn [fs] in K, D, O.
  assert (L' : lookup (Dir o es) (TEMPLATE_DIR :: q) = lookup (Dir ot et) q).
  { cbn [lookup]. now rewrite ET. }
  unfold kind_at, data_at, owner_at in *.
  rewrite (lookup_new_instance _ _ _ _ _ q Hfresh) in K, D, O. rewrite L'.
  destruct (lookup (Dir ot et) q) as [n|]; cbn [option_map] in *.
  - destruct (copy_as_shallow (euid e, egid e) n) as (Ck & Cd & Co).
    rewrite Ck, Co in *. split; [exact K|]. split; [|exact O].
    rewrite D. f_equal. destruct n; reflexivity.
  - split; [exact K|]. split; [exact D | exact O].
Qed.

Lemma successful_deployment_witness :
  data_at (tree_after (Sample.root EndOfInput)
             (Sample.args "journal1.example.com" false false None) Sample.fresh)
    ["journal1"; ".env"]
  = option_map (instance_data (Sample.args "journal1.example.com" false false None) [".env"])
      (data_at Sample.fresh [TEMPLATE_DIR; ".env"]).
Proof.
  destruct (successful_deployment (Sample.root EndOfInput)
              (Sample.args "journal1.example.com" false false None) Sample.fresh)
    as [_ H].
  - apply accepted_sample.
  - reflexivity.
  - reflexivity.
  - vm_compute. reflexivity.
  - apply (H [".env"]).
Defined.

Lemma finish_reaches_permissions (e : env) (argv : cmdline) (s s' : state) (c : Z) :
  run (finish e argv false) s = (Ok c, s') ->
  exists s3,
    (forall q, kind_at (fs s3) q = kind_at (fs s) q) /\
    run (set_permissions e [_extract_subdomain (domain_of argv)] false) s3 = (Ok tt, s').
Proof.
  unfold finish. cbv zeta. set (sub := _extract_subdomain (domain_of argv)).
  unfold configure_env, configure_config_inc, configure_compose. cbn [app].
  intros H.
  apply run_bind_ok in H. destruct H as ([] & s1 & E1 & H).
  apply run_bind_ok in H. destruct H as ([] & s2 & E2 & H).
  apply run_bind_ok in H. destruct H as ([] & s3 & E3 & H).
  apply run_bind_ok in H. destruct H as ([] & s4 & E4 & H).
  apply run_bind_ok in H. destruct H as ([] & s5 & E5 & H).
  rewrite run_ret in H. injection H as _ <-.
  cbn [negb] in E5.
  destruct (run_quiet_of (print_summary (domain_of argv) sub) s4
              (quiet_print_summary (domain_of argv) sub)) as (u & E5').
  rewrite E5' in E5. injection E5 as _ <-.
  exists s3. split; [|exact E4].
  destruct (replace_step _ _ _ _ _ E1) as [_ R1].
  destruct (replace_step _ _ _ _ _ E2) as [_ R2].
  destruct (replace_step _ _ _ _ _ E3) as [_ R3].
  intros q. rewrite (proj1 (R3 q)), (proj1 (R2 q)). apply R1.
Qed.

(** The owners after an ownership step that has returned. *)
Lemma set_permissions_ok_owners (e : env) (target_dir : Path) (s s' : state) :
  run (set_permissions e target_dir false) s = (Ok tt, s') ->
  kind_at (fs s) (target_dir ++ ["volumes"])%list = Some true ->
  kind_at (fs s) ((target_dir ++ ["volumes"]) ++ ["db"])%list <> Some false ->
  (forall p n, below ((target_dir ++ ["volumes"]) ++ ["db"])%list p ->
     lookup (fs s') p = Some n -> owner_of n = (MYSQL_UID, MYSQL_GID)) /\
  (forall p n, below (target_dir ++ ["volumes"])%list p ->
     ~ below ((target_dir ++ ["volumes"]) ++ ["db"])%list p ->
     lookup (fs s') p = Some n -> owner_of n = (WWW_DATA_UID, WWW_DATA_GID)).
Proof.
  intros H Hvol Hdb.
  assert (Hp : _has_privilege e = true).
  { destruct (_has_privilege e) eqn:E; [reflexivity|].
    pose proof (proj1 (set_permissions_exit_2 e target_dir false s E)) as X.
    change (result_of (set_permissions e target_dir false s))
      with (fst (run (set_permissions e target_dir false) s)) in X.
    rewrite H in X. discriminate X. }
  rewrite (run_set_permissions e target_dir s Hp) in H.
  destruct (run (_chown_recursive e (target_dir ++ ["volumes"])%list
                   WWW_DATA_UID WWW_DATA_GID false) s) as [[u|c|x] s1] eqn:E1;
    [|discriminate..].
  destruct (run (_chown_recursive e ((target_dir ++ ["volumes"]) ++ ["db"])%list
                   MYSQL_UID MYSQL_GID false) s1) as [[u'|c|x] s2] eqn:E2;
    [|discriminate..].
  injection H as <-. destruct u, u'.
  destruct (chown_recursive_ok _ _ _ _ _ _ E1) as (_ & _ & K1 & _ & In1).
  destruct (chown_recursive_ok _ _ _ _ _ _ E2) as (_ & _ & K2 & Out2 & In2).
  split.
  - apply In2. now rewrite K1.
  - intros p n Hv Hnd Hn.
    specialize (Out2 p Hnd). unfold owner_at in Out2. rewrite Hn in Out2.
    destruct (lookup (fs s1) p) as [m|] eqn:Em; [|discriminate].
    injection Out2 as ->.
    apply (In1 ltac:(rewrite Hvol; discriminate) p m Hv Em).
Qed.

(** X19: after a run without --dry-run that ends with status 0, when the
    template has a volumes directory in which db is not a regular file,
    everything in the instance at or below volumes/db belongs to 999:999
    and everything else at or below volumes to 33:33. *)
Theorem successful_deployment_owners (e : env) (argv : cmdline) (tree : node) :
  accepted argv ->
  entry_name (_extract_subdomain (domain_of argv)) = true ->
  arg_dry_run argv = false ->
  exit_code e argv tree = 0 ->
  kind_at tree [TEMPLATE_DIR; "volumes"] = Some true ->
  kind_at tree [TEMPLATE_DIR; "volumes"; "db"] <> Some false ->
  forall q n,
    lookup (tree_after e argv tree)
      (_extract_subdomain (domain_of argv) :: "volumes" :: q) = Some n ->
    (below ["db"] q -> owner_of n = (MYSQL_UID, MYSQL_GID)) /\
    (~ below ["db"] q -> owner_of n = (WWW_DATA_UID, WWW_DATA_GID)).
Proof.
  intros Ha _ Hd H0 Hvol Hdb q n Hn.
  destruct (deploy_run e argv Ha) as (numeric & _ & H).
  destruct (H tree) as [Hc Ht]. rewrite Hc in H0. rewrite Ht in Hn. clear Hc Ht H.
  apply steps_succeed in H0.
  set (s' := snd (run (steps e argv) {| fs := tree; root_level := numeric |})) in *.
  clearbody s'. set (sub := _extract_subdomain (domain_of argv)) in *.
  destruct (success_reaches_finish e argv tree numeric s' Hd H0)
    as (o & es & ot & et & -> & ET & Hne & Hfresh & E1).
  fold sub in Hfresh, E1.
  destruct (finish_reaches_permissions e argv _ s' 0 E1) as (s3 & K3 & E4).
  fold sub in E4. cbn [fs] in K3.
  assert (KT : forall r, kind_at (fs s3) (sub :: r) = kind_at (Dir o es) (TEMPLATE_DIR :: r)).
  { intros r. rewrite K3. unfold kind_at.
    rewrite (lookup_new_instance _ _ _ _ _ r Hfresh). cbn [lookup]. rewrite ET.
    destruct (lookup (Dir ot et) r) as [m|]; [|reflexivity].
    cbn [option_map]. now rewrite (proj1 (copy_as_shallow _ m)). }
  destruct (set_permissions_ok_owners e [sub] s3 s' E4) as [Hdbo Hvolo].
  - cbn [app]. now rewrite KT.
  - cbn [app]. now rewrite KT.
  - cbn [app] in Hdbo, Hvolo. split.
    + intros [r ->]. apply (Hdbo (sub :: "volumes" :: "db" :: r) n); [|exact Hn].
      now exists r.
    + intros Hq. apply (Hvolo (sub :: "volumes" :: q) n); [now exists q| |exact Hn].
      intros [r Hr]. apply Hq. exists r. now injection Hr.
Qed.

Lemma successful_deployment_owners_witness :
  owner_at (tree_after (Sample.root EndOfInput)
              (Sample.args "journal1.example.com" false false None) Sample.fresh)
    ["journal1"; "volumes"; "db"]
  = Some (MYSQL_UID, MYSQL_GID).
Proof.
  unfold owner_at.
  destruct (lookup (tree_after (Sample.root EndOfInput)
                      (Sample.args "journal1.example.com" false false None) Sample.fresh)
              ["journal1"; "volumes"; "db"]) as [n|] eqn:E.
  - cbn [option_map]. f_equal.
    apply (successful_deployment_owners (Sample.root EndOfInput)
             (Sample.args "journal1.example.com" false false None) Sample.fresh
             (accepted_sample _ _ _) eq_refl eq_refl eq_refl eq_refl
             ltac:(vm_compute; discriminate) ["db"] n E).
    now exists [].
  - vm_compute in E. discriminate.
Defined.

(** ** Dry runs *)






